(** * GCC build agent: diagnosis, context gathering, patch application

    A shallow embedding of the three generations of the build agent
    ([builder.py], [builder_v3.py], [builder_v4.py]) and the verification
    of the properties its specification states about them.

    Conventions of the embedding.
    - A Python [str] is a [string]; a character is a code point below 256.
    - A Python [dict] is an association list kept in insertion order.
    - The files of the working tree are a finite map from the path as the
      program spells it to the file's text.
    - The build tool and the model server are external: their answers are
      fields of the world the program runs in. *)

From Stdlib Require Import Ascii String.
From stdpp Require Import gmap strings list fin_maps pretty.

Local Open Scope string_scope.

(** ** Characters *)

Module Chr.

Definition code (c : ascii) : N := N_of_ascii c.

Definition LF : ascii := ascii_of_N 10.
Definition DQUOTE : ascii := ascii_of_N 34.
Definition QUOTE : ascii := ascii_of_N 39.
Definition BACKTICK : ascii := ascii_of_N 96.
Definition COLON : ascii := ascii_of_N 58.

Definition eqb (a b : ascii) : bool := Ascii.eqb a b.

(** [str.isspace] on one character, which is also the class [\s] of a
    [str] pattern: TAB LF VT FF CR, FS GS RS US, SPACE, NEL and NBSP. *)
Definition isspace (c : ascii) : bool :=
  let n := code c in
  ((9 <=? n) && (n <=? 13) || (28 <=? n) && (n <=? 32)
   || (n =? 133) || (n =? 160))%N.

(** The class [\d]. *)
Definition isdigit (c : ascii) : bool :=
  let n := code c in ((48 <=? n) && (n <=? 57))%N.

(** The boundaries [str.splitlines] cuts at (CR LF is handled there). *)
Definition islinebreak (c : ascii) : bool :=
  let n := code c in
  ((10 <=? n) && (n <=? 13) || (28 <=? n) && (n <=? 30) || (n =? 133))%N.

Definition isnot (l : list ascii) (c : ascii) : bool :=
  negb (existsb (eqb c) l).

Definition isin (l : list ascii) (c : ascii) : bool := existsb (eqb c) l.

End Chr.

(** ** The [str] methods the agent uses *)

Module Str.

Definition nl : string := String Chr.LF "".
Definition dquote : string := String Chr.DQUOTE "".

Fixpoint rev_onto (s acc : string) : string :=
  match s with
  | "" => acc
  | String c s' => rev_onto s' (String c acc)
  end.

Definition rev (s : string) : string := rev_onto s "".

(** [s.startswith(p)], returning what follows the prefix. *)
Fixpoint strip_prefix (p s : string) : option string :=
  match p, s with
  | "", _ => Some s
  | String a p', String b s' =>
      if Chr.eqb a b then strip_prefix p' s' else None
  | String _ _, "" => None
  end.

Definition startswith (s p : string) : bool :=
  match strip_prefix p s with Some _ => true | None => false end.

(** [needle in s]. *)
Fixpoint contains (needle s : string) : bool :=
  if startswith s needle then true
  else match s with
       | "" => false
       | String _ s' => contains needle s'
       end.

(** [s.partition(sep)] for a non-empty [sep]: the text before the first
    occurrence and the text after it, or [None] when there is none. *)
Fixpoint cut (sep s : string) : option (string * string) :=
  match strip_prefix sep s with
  | Some rest => Some ("", rest)
  | None =>
      match s with
      | "" => None
      | String c s' =>
          match cut sep s' with
          | Some (a, b) => Some (String c a, b)
          | None => None
          end
      end
  end.

(** [s.split(sep)]: the fuel is the length of [s], one unit being spent
    per separator found, each separator being non-empty. *)
Fixpoint split_fuel (n : nat) (sep s : string) : list string :=
  match cut sep s with
  | None => [s]
  | Some (a, b) =>
      match n with
      | O => [a; b]
      | S n' => a :: split_fuel n' sep b
      end
  end.

Definition split (sep s : string) : list string :=
  split_fuel (String.length s) sep s.

(** [s.split(sep, 1)]. *)
Definition split1 (sep s : string) : list string :=
  match cut sep s with
  | None => [s]
  | Some (a, b) => [a; b]
  end.

(** [s.rsplit(sep, 1)]: cut at the last occurrence. *)
Definition rsplit1 (sep s : string) : list string :=
  match cut (rev sep) (rev s) with
  | None => [s]
  | Some (a, b) => [rev b; rev a]
  end.

Fixpoint lstrip (s : string) : string :=
  match s with
  | String c s' => if Chr.isspace c then lstrip s' else s
  | "" => ""
  end.

(** [s.strip()]. *)
Definition strip (s : string) : string := rev (lstrip (rev (lstrip s))).

(** [s.splitlines()]. [cur] is the current line, reversed. *)
Fixpoint splitlines_go (cur : string) (fresh : bool) (s : string)
  : list string :=
  match s with
  | "" => if fresh then [] else [rev cur]
  | String c s' =>
      if Chr.islinebreak c then
        match s' with
        | String d s'' =>
            if Chr.eqb c (ascii_of_N 13) && Chr.eqb d Chr.LF
            then rev cur :: splitlines_go "" true s''
            else rev cur :: splitlines_go "" true s'
        | "" => [rev cur]
        end
      else splitlines_go (String c cur) false s'
  end.

Definition splitlines (s : string) : list string := splitlines_go "" true s.

(** The lines of a text, joined by LF. *)
Definition lines (l : list string) : string := String.concat nl l.

(** [s[-n:]] for [n > 0]. *)
Definition tail (n : nat) (s : string) : string :=
  let len := String.length s in
  String.substring (len - n) (len - (len - n)) s.

(** [s[:n]]. *)
Fixpoint take (n : nat) (s : string) : string :=
  match n, s with
  | S n', String c s' => String c (take n' s')
  | _, _ => ""
  end.

End Str.

(** ** Regular expressions: the fragment of [re] the patterns use

    Every repetition in the agent's patterns ranges over a character
    class, so repetition is a constructor over classes and the matcher is
    structural. The matcher is the backtracking one of [re]: alternatives
    left to right, repetitions greedy, the continuation deciding whether
    an attempt stands. *)

Module Re.

Inductive regex : Type :=
| Lit (s : string)                  (* literal text *)
| Cls (p : ascii -> bool)           (* one character of a class *)
| Star (p : ascii -> bool)          (* [p*], greedy *)
| Plus (p : ascii -> bool)          (* [p+], greedy *)
| Opt (r : regex)                   (* [r?], greedy *)
| Alt (r1 r2 : regex)               (* [r1|r2] *)
| Seq (r1 r2 : regex)
| Group (n : nat) (r : regex)       (* capturing group number [n] *)
| Bol                               (* [^] under [re.MULTILINE] *)
| Eol.                              (* [$] under [re.MULTILINE] *)

(** A position: the character just before it and the text from it on. *)
Definition captures : Type := list (nat * string).
Definition result : Type := (captures * string)%type.
Definition cont : Type := option ascii -> string -> captures -> option result.

Fixpoint last_of (s : string) (prev : option ascii) : option ascii :=
  match s with
  | "" => prev
  | String c s' => last_of s' (Some c)
  end.

Fixpoint star (p : ascii -> bool) (prev : option ascii) (s : string)
    (k : option ascii -> string -> option result) : option result :=
  match s with
  | String c s' =>
      if p c then
        match star p (Some c) s' k with
        | Some r => Some r
        | None => k prev s
        end
      else k prev s
  | "" => k prev s
  end.

Definition at_bol (prev : option ascii) : bool :=
  match prev with
  | None => true
  | Some c => Chr.eqb c Chr.LF
  end.

Definition at_eol (s : string) : bool :=
  match s with
  | "" => true
  | String c _ => Chr.eqb c Chr.LF
  end.

Fixpoint run (r : regex) (prev : option ascii) (s : string)
    (caps : captures) (k : cont) : option result :=
  match r with
  | Lit l =>
      match Str.strip_prefix l s with
      | Some s' => k (last_of l prev) s' caps
      | None => None
      end
  | Cls p =>
      match s with
      | String c s' => if p c then k (Some c) s' caps else None
      | "" => None
      end
  | Star p => star p prev s (fun prev' s' => k prev' s' caps)
  | Plus p =>
      match s with
      | String c s' =>
          if p c then star p (Some c) s' (fun prev' s' => k prev' s' caps)
          else None
      | "" => None
      end
  | Opt r1 =>
      match run r1 prev s caps k with
      | Some res => Some res
      | None => k prev s caps
      end
  | Alt r1 r2 =>
      match run r1 prev s caps k with
      | Some res => Some res
      | None => run r2 prev s caps k
      end
  | Seq r1 r2 =>
      run r1 prev s caps (fun prev' s' caps' => run r2 prev' s' caps' k)
  | Group n r1 =>
      run r1 prev s caps (fun prev' s' caps' =>
        k prev' s'
          ((n, Str.take (String.length s - String.length s') s) :: caps'))
  | Bol => if at_bol prev then k prev s caps else None
  | Eol => if at_eol s then k prev s caps else None
  end.

Definition accept : cont := fun _ s caps => Some (caps, s).

(** A match object: the text before the match, the groups, the text
    after the match and the character that ends the match. *)
Record rmatch : Type := MkMatch {
  m_before : string;
  m_caps : captures;
  m_after : string
}.

Definition group (n : nat) (m : rmatch) : string :=
  match List.find (fun e => Nat.eqb (fst e) n) (m_caps m) with
  | Some (_, v) => v
  | None => ""
  end.

(** [pattern.search]: the leftmost position at which the pattern
    matches. [before] is the text already passed, reversed. *)
Fixpoint search_go (r : regex) (before : string) (prev : option ascii)
    (s : string) : option rmatch :=
  match run r prev s [] accept with
  | Some (caps, rest) => Some (MkMatch (Str.rev before) caps rest)
  | None =>
      match s with
      | "" => None
      | String c s' => search_go r (String c before) (Some c) s'
      end
  end.

Definition search (r : regex) (s : string) : option rmatch :=
  search_go r "" None s.

(** The character before the position a match ends at. *)
Definition prev_after (prev : option ascii) (s : string) (rest : string)
  : option ascii :=
  last_of (Str.take (String.length s - String.length rest) s) prev.

(** All non-overlapping matches from left to right, as [re.finditer]
    yields them, for a pattern that matches no empty text. *)
Fixpoint finditer_go (fuel : nat) (r : regex) (prev : option ascii)
    (s : string) : list rmatch :=
  match fuel with
  | O => []
  | S fuel' =>
      match search_go r "" prev s with
      | None => []
      | Some m =>
          m :: finditer_go fuel' r (prev_after prev s (m_after m))
                 (m_after m)
      end
  end.

Definition finditer (r : regex) (s : string) : list rmatch :=
  finditer_go (String.length s) r None s.

(** [re.split(pattern, s)] for a pattern with one group: the text
    between the matches, interleaved with group 1 of each match. *)
Fixpoint split_parts (ms : list rmatch) (whole : string) : list string :=
  match ms with
  | [] => [whole]
  | m :: ms' =>
      m_before m :: group 1 m :: split_parts ms' (m_after m)
  end.

Definition split (r : regex) (s : string) : list string :=
  split_parts (finditer r s) s.

(** [pattern.findall(s)] for a pattern with one group. *)
Definition findall (r : regex) (s : string) : list string :=
  map (group 1) (finditer r s).

End Re.

(** ** The agent's patterns *)

Module Patterns.
Import Re.

Infix ">>" := Seq (at level 60, right associativity).

(** [^([^:\n]+):(\d+):(\d+):\s+(?:fatal\s+)?error:\s+(.+)$], compiled
    with [re.MULTILINE]: [ERROR_PATTERN] of [builder.py] and
    [builder_v3.py], [COMPILE_ERROR_PATTERN] of [builder_v4.py]. *)
Definition COMPILE_ERROR_PATTERN : regex :=
  Bol >> Group 1 (Plus (Chr.isnot [Chr.COLON; Chr.LF])) >> Lit ":"
      >> Group 2 (Plus Chr.isdigit) >> Lit ":"
      >> Group 3 (Plus Chr.isdigit) >> Lit ":"
      >> Plus Chr.isspace
      >> Opt (Lit "fatal" >> Plus Chr.isspace)
      >> Lit "error:" >> Plus Chr.isspace
      >> Group 4 (Plus (Chr.isnot [Chr.LF])) >> Eol.

Definition ERROR_PATTERN : regex := COMPILE_ERROR_PATTERN.

(** [(?:undefined reference to|undefined symbol:)\s+[`']?([^'\n]+)['`]?]. *)
Definition LINKER_ERROR_PATTERN : regex :=
  Alt (Lit "undefined reference to") (Lit "undefined symbol:")
    >> Plus Chr.isspace
    >> Opt (Cls (Chr.isin [Chr.BACKTICK; Chr.QUOTE]))
    >> Group 1 (Plus (Chr.isnot [Chr.QUOTE; Chr.LF]))
    >> Opt (Cls (Chr.isin [Chr.QUOTE; Chr.BACKTICK])).

(** [#include\s+Q([^Q]+)Q] where [Q] is the double quote: the
    [INCLUDE_PATTERN] of [builder_v3.py]. *)
Definition INCLUDE_PATTERN : regex :=
  Lit "#include" >> Plus Chr.isspace >> Lit Str.dquote
    >> Group 1 (Plus (Chr.isnot [Chr.DQUOTE])) >> Lit Str.dquote.

(** [FILE:\s*([^\s\n]+)], the marker the patch parser splits at. *)
Definition nonspace (c : ascii) : bool :=
  negb (Chr.isspace c) && Chr.isnot [Chr.LF] c.

Definition FILE_MARKER : regex :=
  Lit "FILE:" >> Star Chr.isspace >> Group 1 (Plus nonspace).

End Patterns.

(** ** [os.path] on POSIX *)

Module Path.

Definition SLASH : ascii := ascii_of_N 47.
Definition DOT : ascii := ascii_of_N 46.

Definition isabs (p : string) : bool := Str.startswith p "/".

Fixpoint ends_with_slash (p : string) : bool :=
  match p with
  | "" => false
  | String c "" => Chr.eqb c SLASH
  | String _ p' => ends_with_slash p'
  end.

(** [os.path.join(a, b)]. *)
Definition join (a b : string) : string :=
  if Str.startswith b "/" then b
  else if (String.eqb a "" || ends_with_slash a)%bool then a ++ b
  else a ++ "/" ++ b.

Fixpoint rstrip_slash_rev (r : string) : string :=
  match r with
  | String c r' => if Chr.eqb c SLASH then rstrip_slash_rev r' else r
  | "" => ""
  end.

(** [os.path.dirname(p)]: everything up to the last slash, the
    trailing slashes removed unless nothing but slashes is left. *)
Definition dirname (p : string) : string :=
  match Str.cut "/" (Str.rev p) with
  | None => ""
  | Some (_, head_rev) =>
      let head_rev := String SLASH head_rev in
      match rstrip_slash_rev head_rev with
      | "" => Str.rev head_rev
      | r => Str.rev r
      end
  end.

(** [os.path.splitext(p)[1]]: from the last dot of the last component,
    provided a character other than a dot precedes it there. *)
Fixpoint all_dots (s : string) : bool :=
  match s with
  | "" => true
  | String c s' => Chr.eqb c DOT && all_dots s'
  end.

Definition basename (p : string) : string :=
  match Str.cut "/" (Str.rev p) with
  | None => p
  | Some (tail_rev, _) => Str.rev tail_rev
  end.

Definition splitext_ext (p : string) : string :=
  match Str.cut "." (Str.rev (basename p)) with
  | None => ""
  | Some (ext_rev, stem_rev) =>
      if all_dots stem_rev then "" else "." ++ Str.rev ext_rev
  end.

(** [os.path.normpath(p)]. *)
Definition norm_step (initial : nat) (acc : list string) (comp : string)
  : list string :=
  if (String.eqb comp "" || String.eqb comp ".")%bool then acc
  else if negb (String.eqb comp "..") then acc ++ [comp]
  else match List.last (map Some acc) None with
       | None => if Nat.eqb initial 0 then acc ++ [comp] else acc
       | Some l =>
           if String.eqb l ".." then acc ++ [comp]
           else List.removelast acc
       end.

Definition initial_slashes (p : string) : nat :=
  if Str.startswith p "/" then
    if (Str.startswith p "//" && negb (Str.startswith p "///"))%bool
    then 2 else 1
  else 0.

Definition normpath (p : string) : string :=
  if String.eqb p "" then "." else
  let i := initial_slashes p in
  let comps := fold_left (norm_step i) (Str.split "/" p) [] in
  let body := String.concat "/" comps in
  let res := match i with 0 => body | 1 => "/" ++ body | _ => "//" ++ body end in
  if String.eqb res "" then "." else res.

End Path.

(** ** The world the agent runs in *)

(** What the agent does that can be observed from outside, apart from the
    files it leaves behind. *)
Inductive event : Type :=
| Print (text : string)                       (* a line on standard output *)
| Run (argv : list string) (ok : bool)        (* a finished child process *)
| Chat (prompt : string).                     (* a request to the model *)

Record World : Type := MkWorld {
  files : gmap string string;     (* regular files: path to text *)
  dirs : gset string;             (* directories *)
  trace : list event              (* events so far, oldest first *)
}.

(** The collaborators of the agent. Each answer may depend on everything
    that happened before, which the world records. *)
Record Env : Type := MkEnv {
  (* [subprocess.run(argv)]: [None] when the tool cannot be launched,
     else whether it exited with 0 and its merged output *)
  subprocess_run : list string -> World -> option (bool * string);
  (* [ollama.chat(...)['message']['content']] *)
  ollama_chat : string -> World -> string;
  (* [os.walk(root)]: one [(root, dirs, files)] per directory *)
  os_walk : string -> World -> list (string * list string * list string);
  (* [os.path.relpath(p, os.getcwd())] *)
  os_path_relpath : string -> string
}.

(** The exceptions that can escape a call. *)
Inductive exn : Type :=
| FileNotFoundError (path : string)
| IsADirectoryError (path : string)
| IndexError.

(** How a call ends: with a value, with an exception on its way up, or
    with [sys.exit(code)]. *)
Inductive outcome (A : Type) : Type :=
| Ret (a : A)
| Raise (e : exn)
| SysExit (code : nat).

Arguments Ret {A} a.
Arguments Raise {A} e.
Arguments SysExit {A} code.

Definition M (A : Type) : Type := World -> outcome A * World.

Definition ret {A} (a : A) : M A := fun w => (Ret a, w).

Definition bind {A B} (m : M A) (k : A -> M B) : M B :=
  fun w =>
    match m w with
    | (Ret a, w') => k a w'
    | (Raise e, w') => (Raise e, w')
    | (SysExit c, w') => (SysExit c, w')
    end.

Notation "x <- m ;; k" := (bind m (fun x => k))
  (at level 100, m at next level, right associativity).
Notation "m ;;; k" := (bind m (fun _ => k))
  (at level 100, right associativity).

Definition raise {A} (e : exn) : M A := fun w => (Raise e, w).
Definition sys_exit {A} (code : nat) : M A := fun w => (SysExit code, w).

(** [try: m except E: h] for the exceptions [catches] selects. *)
Definition try_except {A} (m : M A) (catches : exn -> bool) (h : M A) : M A :=
  fun w =>
    match m w with
    | (Raise e, w') => if catches e then h w' else (Raise e, w')
    | r => r
    end.

Definition emit (e : event) : M unit :=
  fun w => (Ret tt, MkWorld (files w) (dirs w) (trace w ++ [e])).

Definition print (text : string) : M unit := emit (Print text).

(** The value of an indexing expression, [IndexError] when it has none. *)
Definition indexed {A} (o : option A) : M A :=
  match o with
  | Some x => ret x
  | None => raise IndexError
  end.

(** [l[n]]. *)
Definition index {A} (n : nat) (l : list A) : M A := indexed (nth_error l n).

(** [for x in l: acc = body acc x]. *)
Fixpoint fold_each {A S} (l : list A) (acc : S) (body : S -> A -> M S)
  : M S :=
  match l with
  | [] => ret acc
  | x :: l' => acc' <- body acc x ;; fold_each l' acc' body
  end.

(** [for x in l: body x]. *)
Fixpoint for_each {A} (l : list A) (body : A -> M unit) : M unit :=
  match l with
  | [] => ret tt
  | x :: l' => body x ;;; for_each l' body
  end.

(** The completion signal of the process whose main function is [m]:
    the argument of [sys.exit], 1 for an uncaught exception, 0 when the
    main function returns. *)
Definition exit_status {A} (r : outcome A) : nat :=
  match r with
  | Ret _ => 0
  | Raise _ => 1
  | SysExit c => c
  end.

(** *** The file system calls *)

Module Fs.

(** [os.path.exists(p)]. *)
Definition exists_ (p : string) : M bool :=
  fun w => (Ret (bool_decide (is_Some (files w !! p))
                 || bool_decide (p ∈ dirs w)), w).

(** [open(p).read()]. *)
Definition read (p : string) : M string :=
  fun w =>
    match files w !! p with
    | Some text => (Ret text, w)
    | None =>
        if bool_decide (p ∈ dirs w) then (Raise (IsADirectoryError p), w)
        else (Raise (FileNotFoundError p), w)
    end.

(** [open(p, "w").write(text)]. *)
Definition write (p text : string) : M unit :=
  fun w =>
    if bool_decide (p ∈ dirs w) then (Raise (IsADirectoryError p), w)
    else (Ret tt, MkWorld (<[p := text]> (files w)) (dirs w) (trace w)).

(** [shutil.copy(src, dst)] for a [dst] that is not a directory. *)
Definition copy (src dst : string) : M unit :=
  text <- read src ;; write dst text.

(** [os.makedirs(p)]. *)
Definition makedirs (p : string) : M unit :=
  fun w => (Ret tt, MkWorld (files w) ({[p]} ∪ dirs w) (trace w)).

End Fs.

(** *** Python dictionaries, in insertion order *)

Module Dict.

Definition t : Type := list (string * string).

(** [d[k] = v]: an existing key keeps its place. *)
Fixpoint set (k v : string) (d : t) : t :=
  match d with
  | [] => [(k, v)]
  | (k', v') :: d' =>
      if String.eqb k' k then (k, v) :: d' else (k', v') :: set k v d'
  end.

Definition keys (d : t) : list string := map fst d.

End Dict.

(** ** What the three generations share *)

Module Common.
Section Common.
Variable E : Env.

(** [run_command(command)]: the same in the three files. *)
Definition run_command (command : list string) : M (bool * string) :=
  print ("⚙️  Running: " ++ String.concat " " command) ;;;
  fun w =>
    match subprocess_run E command w with
    | None => (Raise (FileNotFoundError (hd "" command)), w)
    | Some (ok, out) =>
        (Ret (ok, out),
         MkWorld (files w) (dirs w) (trace w ++ [Run command ok]))
    end.

(** [ollama.chat(model=..., messages=[prompt], options=...)] and the
    projection to the text of the answer. *)
Definition chat (prompt : string) : M string :=
  fun w =>
    (Ret (ollama_chat E prompt w),
     MkWorld (files w) (dirs w) (trace w ++ [Chat prompt])).

(** The code of one block of the answer, as [parse_and_apply_fixes] of
    [builder_v3.py] and [apply_fixes] of [builder_v4.py] extract it;
    [None] where an index is out of range. *)
Definition block_code (content_block : string) : option string :=
  if Str.contains "```" content_block then
    code ← nth_error (Str.split "```" content_block) 1;
    code ← (if (Str.startswith code "cpp" || Str.startswith code "c")%bool
            then nth_error (Str.split1 Str.nl code) 1
            else Some code);
    nth_error (Str.rsplit1 "```" code) 0
  else Some content_block.

End Common.
End Common.

(** ** [builder_v4.py] *)

Module V4.
Section V4.
Variable E : Env.
Import Str.

Definition BUILD_DIR : string := "build".
Definition EXTENSIONS : list string :=
  [".cpp"; ".c"; ".cc"; ".cxx"; ".hpp"; ".h"].

Definition run_command := Common.run_command E.

(** The body of the loop over [os.walk]: one directory. *)
Definition visit (sources : list string)
    (entry : string * list string * list string) : list string :=
  let '(root, _, names) := entry in
  if (contains "build" root || contains ".git" root)%bool then sources
  else
    fold_left
      (fun acc file =>
         if existsb (String.eqb (Path.splitext_ext file)) EXTENSIONS
         then (acc ++ [Path.join root file])%list
         else acc)
      names sources.

Definition get_all_source_files (root_dir : string) : M (list string) :=
  fun w => (Ret (fold_left visit (os_walk E root_dir w) []), w).

(** [symbol.split("(")[0].strip()]. *)
Definition clean (symbol : string) : string :=
  strip (hd "" (split "(" symbol)).

Definition search_symbol_in_project (symbol : string) : M Dict.t :=
  let clean_symbol := clean symbol in
  print ("🔎 Scanning project for symbol: '" ++ clean_symbol ++ "'...") ;;;
  sources <- get_all_source_files "." ;;
  fold_each sources [] (fun matches file_path =>
    try_except
      (content <- Fs.read file_path ;;
       if contains clean_symbol content
       then ret (Dict.set file_path content matches)
       else ret matches)
      (fun _ => true)
      (ret matches)).

Inductive error_type : Type := compile | linker.

Definition instruction (t : error_type) : string :=
  match t with
  | linker => lines [
      "";
      "        This is a LINKER ERROR (Undefined Symbol).";
      "        The symbol is likely declared but NOT implemented.";
      "        ";
      "        TASK:";
      "        1. Identify the missing function implementation.";
      "        2. You must IMPLEMENT the missing function in a .cpp file.";
      "        3. If the function is in a library, you might need to add it to 'src/utils.cpp' or similar.";
      "        4. Output the FULL content of the file you are modifying.";
      "        " ]
  | compile => lines [
      "";
      "        This is a COMPILATION ERROR.";
      "        TASK: Fix the syntax/logic error in the specified file.";
      "        " ]
  end.

Definition context_str (context_files : Dict.t) : string :=
  fold_left
    (fun acc '(fpath, content) =>
       acc ++ "--- FILE: " ++ fpath ++ " ---" ++ nl ++ content ++ nl ++ nl)
    context_files "".

Definition mode (t : error_type) : string :=
  match t with compile => "compile" | linker => "linker" end.

Definition get_ai_fix (context_files : Dict.t) (error_log : string)
    (t : error_type) : M string :=
  let prompt :=
    lines [""; "    You are an expert C++ Build Agent."; "    "; "    "]
    ++ instruction t
    ++ lines [""; "    "; "    ERROR LOG:"; "    "]
    ++ error_log
    ++ lines [""; "    "; "    PROJECT CONTEXT:"; "    "]
    ++ context_str context_files
    ++ lines [""; "    "; "    OUTPUT FORMAT:";
              "    FILE: <path_to_file_to_edit>"; "    ```cpp";
              "    ... full content ..."; "    ```"; "    "] in
  print ("🤖 Agent is thinking (Mode: " ++ mode t ++ ")...") ;;;
  Common.chat E prompt.

(** The body of [for i in range(1, len(parts), 2)], over what follows
    the preamble [parts[0]]. *)
Fixpoint write_blocks (parts : list string) : M unit :=
  match parts with
  | [] => ret tt
  | [_] => raise IndexError
  | name :: raw_content :: rest =>
      let filename := strip name in
      code <- indexed (Common.block_code raw_content) ;;
      print ("💾 Writing fix to: " ++ filename) ;;;
      Fs.write filename (strip code) ;;;
      write_blocks rest
  end.

Definition apply_fixes (ai_response : string) : M bool :=
  let parts := Re.split Patterns.FILE_MARKER ai_response in
  if Nat.ltb (length parts) 2 then ret false
  else write_blocks (List.tl parts) ;;; ret true.

Definition build_project : M (bool * option string) :=
  there <- Fs.exists_ BUILD_DIR ;;
  (if negb there then Fs.makedirs BUILD_DIR else ret tt) ;;;
  run_command ["cmake"; "-S"; "."; "-B"; BUILD_DIR] ;;;
  built <- run_command ["cmake"; "--build"; BUILD_DIR] ;;
  let '(success, log) := built in
  if success : bool then
    print (nl ++ "✅ Build Success!") ;;; ret (true, None)
  else
    print (nl ++ "❌ Build Failed.") ;;; ret (false, Some log).

(** The loop over the lines of the broken file that collects the
    headers it includes. *)
Definition add_header (base_dir : string) (files : Dict.t) (line : string)
  : M Dict.t :=
  if contains ("#include " ++ dquote) line then
    h_name <- index 1 (split dquote line) ;;
    let h_path := Path.join base_dir h_name in
    there <- Fs.exists_ h_path ;;
    if there : bool then
      text <- Fs.read h_path ;; ret (Dict.set h_path text files)
    else ret files
  else ret files.

Definition gather_compile (broken_file : string) : M Dict.t :=
  text <- Fs.read broken_file ;;
  let files := [(broken_file, text)] in
  let base_dir := Path.dirname broken_file in
  fold_each (splitlines text) files (add_header base_dir).

Definition gather_linker (missing_symbol : string) : M Dict.t :=
  related_files <- search_symbol_in_project missing_symbol ;;
  match related_files with
  | [] =>
      print "⚠️ Symbol not found in project text. It might be a missing library in CMakeLists.txt" ;;;
      text <- Fs.read "CMakeLists.txt" ;;
      ret (Dict.set "CMakeLists.txt" text related_files)
  | _ => ret related_files
  end.

Definition analyze_and_fix (build_log : string) : M (option string) :=
  match Re.search Patterns.COMPILE_ERROR_PATTERN build_log with
  | Some compile_match =>
      let broken_file := Re.group 1 compile_match in
      print ("👉 Compile Error in: " ++ broken_file) ;;;
      files <- gather_compile broken_file ;;
      response <- get_ai_fix files build_log compile ;;
      ret (Some response)
  | None =>
      match Re.search Patterns.LINKER_ERROR_PATTERN build_log with
      | Some linker_match =>
          let missing_symbol := Re.group 1 linker_match in
          print ("👉 Linker Error: Undefined symbol '" ++ missing_symbol ++ "'") ;;;
          related_files <- gather_linker missing_symbol ;;
          response <- get_ai_fix related_files build_log linker ;;
          ret (Some response)
      | None =>
          print "⚠️ Unknown error type. Cannot fix." ;;;
          ret None
      end
  end.

(** The verdict of the two tests of [analyze_and_fix] on the log: the
    compile pattern first, the linker pattern when it finds nothing. *)
Inductive diagnosis : Type :=
| CompileError (broken_file : string)
| LinkError (missing_symbol : string)
| Unknown.

Definition diagnose (build_log : string) : diagnosis :=
  match Re.search Patterns.COMPILE_ERROR_PATTERN build_log with
  | Some compile_match => CompileError (Re.group 1 compile_match)
  | None =>
      match Re.search Patterns.LINKER_ERROR_PATTERN build_log with
      | Some linker_match => LinkError (Re.group 1 linker_match)
      | None => Unknown
      end
  end.

Definition MAX_ATTEMPTS : nat := 5.

(** [if fix_response:]: neither [None] nor the empty text. *)
Definition truthy (fix_response : option string) : bool :=
  match fix_response with
  | None | Some "" => false
  | Some _ => true
  end.

(** The line that opens an attempt. *)
Definition banner (attempt : nat) : string :=
  nl ++ "=== Attempt " ++ pretty attempt ++ "/" ++ pretty MAX_ATTEMPTS
     ++ " ===".

(** One turn of the loop of [main]. *)
Definition attempt_body (attempt : nat) : M unit :=
  print (banner attempt) ;;;
  built <- build_project ;;
  let '(success, log) := built in
  if success : bool then sys_exit 0
  else
    fix_response <- analyze_and_fix (default "" log) ;;
    if truthy fix_response
    then apply_fixes (default "" fix_response) ;;; ret tt
    else print "❌ Agent could not generate a fix." ;;; sys_exit 1.

Definition main : M unit :=
  for_each (seq 1 MAX_ATTEMPTS) attempt_body.

End V4.
End V4.

(** ** [builder_v3.py] *)

Module V3.
Section V3.
Variable E : Env.
Import Str.

Definition BUILD_DIR : string := "build".

Definition run_command := Common.run_command E.

Definition find_culprit_file (build_log : string)
  : option (string * string * string) :=
  match Re.search Patterns.ERROR_PATTERN build_log with
  | Some m => Some (Re.group 1 m, Re.group 2 m, Re.group 4 m)
  | None => None
  end.

(** The body of the loop of [get_related_headers]. *)
Definition add_header (source_dir : string) (headers : Dict.t)
    (header_path : string) : M Dict.t :=
  let full_path := Path.normpath (Path.join source_dir header_path) in
  there <- Fs.exists_ full_path ;;
  if there : bool then
    text <- Fs.read full_path ;; ret (Dict.set full_path text headers)
  else ret headers.

Definition get_related_headers (source_code source_dir : string)
  : M Dict.t :=
  let matches := Re.findall Patterns.INCLUDE_PATTERN source_code in
  fold_each matches [] (add_header source_dir).

Definition context_str (source_path source_code : string)
    (headers : Dict.t) : string :=
  fold_left
    (fun acc '(path, content) =>
       acc ++ "--- LINKED HEADER: " ++ path ++ " ---" ++ nl
           ++ content ++ nl ++ nl)
    headers
    ("--- MAIN SOURCE FILE: " ++ source_path ++ " ---" ++ nl
       ++ source_code ++ nl ++ nl).

Definition get_ai_fix (source_path source_code : string)
    (headers : Dict.t) (error_log : string) : M string :=
  print ("🤖 Analyzing " ++ source_path ++ " and "
           ++ pretty (length headers) ++ " related headers...") ;;;
  let prompt :=
    lines [""; "    You are an expert C++ Build Agent. The build failed.";
           "    "; "    CONTEXT:"; "    "]
    ++ context_str source_path source_code headers
    ++ lines [""; "    "; "    ERROR LOG:"; "    "]
    ++ error_log
    ++ lines [""; "    "; "    INSTRUCTIONS:";
              "    1. You may need to modify the Source File, the Header File, or BOTH.";
              "    2. If you need to add a method (like a getter) to a class, add it to the Header.";
              "    3. Output the FULL content of ANY file you modify.";
              "    4. Use this specific format for your output:";
              "    "; "    FILE: <path_to_file>"; "    ```cpp";
              "    ... full new content of file ..."; "    ```"; "    ";
              "    (Repeat the above block for every file that needs changing)";
              "    "] in
  Common.chat E prompt.

(** One turn of the loop of [parse_and_apply_fixes]: a file name and
    the block that follows it. *)
Definition rewrite_file (name content_block : string) : M unit :=
  let filename := strip name in
  code <- indexed (Common.block_code content_block) ;;
  print ("📝 Agent is rewriting: " ++ filename) ;;;
  there <- Fs.exists_ filename ;;
  (if there : bool then Fs.copy filename (filename ++ ".bak")
   else ret tt) ;;;
  Fs.write filename (strip code).

Fixpoint rewrite_files (parts : list string) : M unit :=
  match parts with
  | [] => ret tt
  | [_] => raise IndexError
  | name :: content_block :: rest =>
      rewrite_file name content_block ;;; rewrite_files rest
  end.

Definition parse_and_apply_fixes (ai_response : string) : M bool :=
  let parts := Re.split Patterns.FILE_MARKER ai_response in
  if Nat.ltb (length parts) 2 then
    print "⚠️  AI did not return valid file format." ;;; ret false
  else rewrite_files (List.tl parts) ;;; ret true.

Definition is_FileNotFoundError (e : exn) : bool :=
  match e with FileNotFoundError _ => true | _ => false end.

(** [build_project], first half: from the check for [CMakeLists.txt]
    to the end of the build command. [None] when there is no
    [CMakeLists.txt], else the verdict and the log of the build. *)
Definition build : M (option (bool * string)) :=
  cmakelists <- Fs.exists_ "CMakeLists.txt" ;;
  if negb cmakelists then
    print "❌ No CMakeLists.txt found." ;;; ret None
  else
    there <- Fs.exists_ BUILD_DIR ;;
    (if negb there then Fs.makedirs BUILD_DIR else ret tt) ;;;
    print "configure..." ;;;
    run_command ["cmake"; "-S"; "."; "-B"; BUILD_DIR] ;;;
    print "building..." ;;;
    built <- run_command ["cmake"; "--build"; BUILD_DIR] ;;
    ret (Some built).

(** [build_project], second half: steps 1 to 5, after a failed build. *)
Definition repair (build_log : string) : M bool :=
  print (nl ++ "❌ Build Failed.") ;;;
  match find_culprit_file build_log with
  | None =>
      print "⚠️  Could not identify source file." ;;;
      print (tail 500 build_log) ;;;
      ret false
  | Some (file_path, line, msg) =>
      print ("👉 Error in: " ++ file_path ++ " (Line " ++ line
               ++ "): " ++ msg) ;;;
      opened <- try_except
                  (text <- Fs.read file_path ;; ret (Some text))
                  is_FileNotFoundError
                  (print ("❌ Cannot open " ++ file_path) ;;; ret None) ;;
      match opened with
      | None => ret false
      | Some source_code =>
          headers <- get_related_headers source_code
                       (Path.dirname file_path) ;;
          ai_response <- get_ai_fix file_path source_code headers
                           build_log ;;
          parse_and_apply_fixes ai_response ;;;
          ret false
      end
  end.

Definition build_project : M bool :=
  built <- build ;;
  match built with
  | None => ret false
  | Some (true, _) => print (nl ++ "✅ Build Successful!") ;;; ret true
  | Some (false, build_log) => repair build_log
  end.

Definition MAX_ATTEMPTS : nat := 5.

(** The line that opens an attempt. *)
Definition banner (attempt : nat) : string :=
  nl ++ "[Attempt " ++ pretty attempt ++ "/" ++ pretty MAX_ATTEMPTS ++ "]".

(** One turn of the loop of [main]. *)
Definition attempt_body (attempt : nat) : M unit :=
  print (banner attempt) ;;;
  success <- build_project ;;
  if success : bool then sys_exit 0 else ret tt.

Definition main : M unit :=
  for_each (seq 1 MAX_ATTEMPTS) attempt_body ;;;
  print (nl ++ "❌ Max attempts reached.") ;;;
  sys_exit 1.

End V3.
End V3.

(** ** [builder.py] *)

Module V1.
Section V1.
Variable E : Env.
Import Str.

Definition BUILD_DIR : string := "build".

Definition run_command := Common.run_command E.

Definition find_culprit_file (build_log : string)
  : option (string * string * string) :=
  match Re.search Patterns.ERROR_PATTERN build_log with
  | Some m =>
      let file_path := Re.group 1 m in
      let file_path :=
        if Path.isabs file_path then os_path_relpath E file_path
        else file_path in
      Some (file_path, Re.group 2 m, Re.group 4 m)
  | None => None
  end.

Definition get_ai_fix (code_content error_log file_path : string)
  : M string :=
  print ("🤖 Agent is analyzing " ++ file_path ++ "...") ;;;
  let prompt :=
    lines [""; "    You are an expert C++ developer using CMake.";
           "    The build failed for file: "]
    ++ file_path
    ++ lines [""; "    "; "    --- CODE CONTENT ---"; "    "]
    ++ code_content
    ++ lines [""; "    "; "    --- BUILD ERROR ---"; "    "]
    ++ error_log
    ++ lines [""; "    "; "    **INSTRUCTIONS:**";
              "    1. Fix the error in the code.";
              "    2. Maintain existing logic and style.";
              "    3. Output ONLY the complete, fixed file content inside a markdown block.";
              "    "] in
  Common.chat E prompt.

Definition extract_code (response_text : string) : M string :=
  if contains "```" response_text then
    fenced <- index 1 (split "```" response_text) ;;
    body <- index 1 (split1 nl fenced) ;;
    code <- index 0 (rsplit1 "```" body) ;;
    ret (strip code)
  else ret response_text.

Definition is_FileNotFoundError (e : exn) : bool :=
  match e with FileNotFoundError _ => true | _ => false end.

(** [build_project], steps 1 and 2: the check for [CMakeLists.txt] and
    the configure command. [None] when there is no [CMakeLists.txt],
    else the verdict and the log of the configure command. *)
Definition configure : M (option (bool * string)) :=
  cmakelists <- Fs.exists_ "CMakeLists.txt" ;;
  if negb cmakelists then
    print "❌ No CMakeLists.txt found. Is this a CMake project?" ;;;
    ret None
  else
    there <- Fs.exists_ BUILD_DIR ;;
    (if negb there then Fs.makedirs BUILD_DIR else ret tt) ;;;
    print "configure..." ;;;
    configured <- run_command ["cmake"; "-S"; "."; "-B"; BUILD_DIR] ;;
    ret (Some configured).

(** [build_project], step 3: the build command. *)
Definition build : M (bool * string) :=
  print "building..." ;;;
  run_command ["cmake"; "--build"; BUILD_DIR].

(** [build_project], steps 4 to 8, after a failed build. *)
Definition repair (build_log : string) : M bool :=
  print (nl ++ "❌ Build Failed. Analyzing errors...") ;;;
  match find_culprit_file build_log with
  | None =>
      print "⚠️  Could not automatically identify the source file from the error log." ;;;
      print "Here is the log tail:" ;;;
      print (tail 500 build_log) ;;;
      ret false
  | Some (file_path, line, msg) =>
      print ("👉 Error found in: " ++ file_path ++ " (Line " ++ line
               ++ ")") ;;;
      print ("👉 Error message: " ++ msg) ;;;
      opened <- try_except
                  (text <- Fs.read file_path ;; ret (Some text))
                  is_FileNotFoundError
                  (print ("❌ Could not open source file: "
                            ++ file_path) ;;; ret None) ;;
      match opened with
      | None => ret false
      | Some original_code =>
          ai_response <- get_ai_fix original_code build_log file_path ;;
          fixed_code <- extract_code ai_response ;;
          Fs.copy file_path (file_path ++ ".bak") ;;;
          Fs.write file_path fixed_code ;;;
          print ("✨ Applied fix to " ++ file_path) ;;;
          ret false
      end
  end.

Definition build_project : M bool :=
  configured <- configure ;;
  match configured with
  | None => ret false
  | Some (false, config_log) =>
      print "❌ CMake Configuration Failed!" ;;;
      print config_log ;;;
      ret false
  | Some (true, _) =>
      built <- build ;;
      let '(success, build_log) := built in
      if success : bool then
        print (nl ++ "✅ Build Successful! No errors found.") ;;; ret true
      else repair build_log
  end.

Definition MAX_ATTEMPTS : nat := 3.

(** The line that opens an attempt. *)
Definition banner (attempt : nat) : string :=
  nl ++ "[Attempt " ++ pretty attempt ++ "/" ++ pretty MAX_ATTEMPTS ++ "]".

(** [while attempt <= MAX_ATTEMPTS], [remaining] being the number of
    turns left, [MAX_ATTEMPTS + 1 - attempt]. *)
Fixpoint main_loop (remaining attempt : nat) : M unit :=
  match remaining with
  | O => ret tt
  | S remaining' =>
      print (banner attempt) ;;;
      success <- build_project ;;
      if success : bool then
        print ("🚀 Project built successfully on attempt "
                 ++ pretty attempt ++ "!") ;;;
        sys_exit 0
      else main_loop remaining' (S attempt)
  end.

Definition main : M unit :=
  main_loop (MAX_ATTEMPTS + 1 - 1) 1 ;;;
  print (nl ++ "❌ Failed to fix project after maximum attempts.") ;;;
  sys_exit 1.

End V1.
End V1.

(** ** Observations on a trace *)

Module Obs.

Definition CONFIGURE : list string := ["cmake"; "-S"; "."; "-B"; "build"].
Definition BUILD : list string := ["cmake"; "--build"; "build"].

Definition is_chat (e : event) : bool :=
  match e with Chat _ => true | _ => false end.

Definition is_run (argv : list string) (e : event) : bool :=
  match e with
  | Run argv' _ => bool_decide (argv' = argv)
  | _ => false
  end.

Definition is_run_with (argv : list string) (ok : bool) (e : event) : bool :=
  match e with
  | Run argv' ok' => bool_decide (argv' = argv) && Bool.eqb ok' ok
  | _ => false
  end.

Definition count (f : event -> bool) (t : list event) : nat :=
  length (List.filter f t).

(** The events that follow the first one [f] selects. *)
Fixpoint after (f : event -> bool) (t : list event) : list event :=
  match t with
  | [] => []
  | e :: t' => if f e then t' else after f t'
  end.

(** Running [m] as the main function of a process started in [w]:
    the completion signal and the world it leaves. *)
Definition run_process {A} (m : M A) (w : World) : nat * World :=
  let '(r, w') := m w in (exit_status r, w').

End Obs.

(** ** Scenarios *)

Module Scenario.
Import Str.

(** A build tool whose two commands always end the same way. *)
Definition tool (configure build : bool * string)
  : list string -> World -> option (bool * string) :=
  fun argv _ =>
    if bool_decide (argv = Obs.BUILD) then Some build else Some configure.

Definition env (configure build : bool * string) (answer : string) : Env :=
  {| subprocess_run := tool configure build;
     ollama_chat := fun _ _ => answer;
     os_walk := fun _ _ => [];
     os_path_relpath := fun p => p |}.

Definition tree (l : list (string * string)) : World :=
  MkWorld (list_to_map l) ∅ [].

Definition compile_log : string :=
  "main.cpp:1:12: error: expected '}' at end of input" ++ nl.

Definition patch : string :=
  lines ["FILE: main.cpp"; "```cpp"; "int main(){ return 0; }"; "```"].

Definition project : World :=
  tree [("CMakeLists.txt", "project(demo)"); ("main.cpp", "int main(){")].

(** The build never succeeds, whatever the model proposes. *)
Definition stuck : Env := env (true, "-- Configuring done") (false, compile_log) patch.

(** The configure command fails; the build command fails with a
    compile error. *)
Definition unconfigured : Env :=
  env (false, "CMake Error: no compiler") (false, compile_log) patch.

(** The model answers with the empty text. *)
Definition mute : Env := env (true, "") (false, compile_log) "".

(** The model answers in prose. *)
Definition chatty : Env :=
  env (true, "") (false, compile_log) "I am sorry, I cannot fix this.".


Definition link_log : string := "undefined reference to `Foo::bar(int)'".

(** The configure command fails the first time it is run and succeeds
    from then on; the build command fails with a compile error. *)
Definition flaky : Env :=
  {| subprocess_run := fun argv w =>
       if bool_decide (argv = Obs.BUILD) then Some (false, compile_log)
       else if Nat.eqb (Obs.count (Obs.is_run Obs.CONFIGURE) (trace w)) 0
            then Some (false, "CMake Error: no compiler")
            else Some (true, "-- Configuring done");
     ollama_chat := fun _ _ => patch;
     os_walk := fun _ _ => [];
     os_path_relpath := fun p => p |}.

(** An include directive for the header [h]. *)
Definition include (h : string) : string :=
  "#include " ++ dquote ++ h ++ dquote.



(** A culprit that includes the same header twice. *)
Definition twice_text : string :=
  lines [include "a.h"; include "a.h"; include "gone.h"; "int main(){}"].

Definition twice : World :=
  tree [("main.cpp", twice_text); ("a.h", "#pragma once")].



(** Both grammars match, the linker phrase first in the text. *)
Definition mixed_log : string :=
  lines ["main.o: undefined reference to `helper()'";
         "util.cpp:7:3: error: 'y' was not declared in this scope"].

End Scenario.

(** ** Vocabulary of the statements *)

(** [os.path.splitext(file)[1] in EXTENSIONS]. *)
Definition source_name (file : string) : bool :=
  existsb (String.eqb (Path.splitext_ext file)) V4.EXTENSIONS.

(** The test that makes the scan pass over a directory. *)
Definition skipped (root : string) : bool :=
  Str.contains "build" root || Str.contains ".git" root.

(** Every character of [s] is in the class [p]. *)
Fixpoint all_in (p : ascii -> bool) (s : string) : bool :=
  match s with
  | "" => true
  | String c s' => p c && all_in p s'
  end.

(** [s] is empty or begins with a character outside the class [p]. *)
Definition stops (p : ascii -> bool) (s : string) : bool :=
  match s with
  | "" => true
  | String c _ => negb (p c)
  end.

(** [m] leaves the observation [obs] of the world as it found it. *)
Definition keeps {X A} (obs : World -> X) (m : M A) : Prop :=
  forall w, obs (snd (m w)) = obs w.

(** The number of events of the trace that [f] selects. *)
Definition counting (f : event -> bool) (w : World) : nat :=
  Obs.count f (trace w).

(** The world after the lines [texts] have been printed in [w]. *)
Definition say (w : World) (texts : list string) : World :=
  MkWorld (files w) (dirs w) (trace w ++ map Print texts).

(** The exception [open(p)] raises in [w] when [p] is no regular file. *)
Definition read_error (w : World) (p : string) : exn :=
  if bool_decide (p ∈ dirs w) then IsADirectoryError p
  else FileNotFoundError p.

(** The path the include line [line] resolves to, none when [line] is no
    include line for the loop of [analyze_and_fix] in [builder_v4.py]. *)
Definition v4_line_targets (base_dir line : string) : list string :=
  if Str.contains ("#include " ++ Str.dquote) line
  then [Path.join base_dir (nth 1 (Str.split Str.dquote line) "")]
  else [].

(** The paths the include lines of the culprit resolve to, in the order
    of the lines. *)
Definition v4_include_targets (base_dir text : string) : list string :=
  flat_map (v4_line_targets base_dir) (Str.splitlines text).


(** [p] is a regular file of [w]. *)
Definition is_file (w : World) (p : string) : bool :=
  bool_decide (is_Some (files w !! p)).


(** The dictionary [acc] after the files among [targets] have been
    entered in it, one after the other. *)
Definition collect (w : World) (acc : Dict.t) (targets : list string)
  : Dict.t :=
  fold_left
    (fun d p =>
       match files w !! p with
       | Some text => Dict.set p text d
       | None => d
       end)
    targets acc.

(** A continuation that returns no more text than it is given. *)
Definition shrinking (k : Re.cont) : Prop :=
  forall prev s caps c rest,
    k prev s caps = Some (c, rest) -> String.length rest <= String.length s.

(** A pattern each match of which takes at least one character. *)
Definition consuming (r : Re.regex) : Prop :=
  forall prev s c rest,
    Re.run r prev s [] Re.accept = Some (c, rest) ->
    String.length rest < String.length s.

(** A build command has ended with success in the history of [w]. *)
Definition succeeded (w : World) : Prop :=
  0 < Obs.count (Obs.is_run_with Obs.BUILD true) (trace w).

(** [m] never ends with [sys.exit]. *)
Definition no_exit {A} (m : M A) : Prop :=
  forall w c, fst (m w) <> SysExit c.

(** Whatever [m] returns satisfies [Q]. *)
Definition returns_only {A} (Q : A -> Prop) (m : M A) : Prop :=
  forall w a w', m w = (Ret a, w') -> Q a.

(** The character [c] does not occur in [s]. *)
Definition lacks (c : ascii) (s : string) : bool :=
  all_in (fun x => negb (Chr.eqb c x)) s.

(** The files the symbol search keeps among [sources]: those it can read
    and whose text holds the symbol, entered one after the other. *)
Definition symbol_matches (w : World) (clean_symbol : string)
    (matches : Dict.t) (sources : list string) : Dict.t :=
  fold_left
    (fun d p =>
       match files w !! p with
       | Some text =>
           if Str.contains clean_symbol text then Dict.set p text d else d
       | None => d
       end)
    sources matches.

(** [m] adds at most [n] events that [f] selects to the trace. *)
Definition grows {A} (f : event -> bool) (n : nat) (m : M A) : Prop :=
  forall w, counting f (snd (m w)) <= counting f w + n.


(** * Properties *)

(** ** Strings *)

Section StringFacts.

Lemma append_cons (c : ascii) (s t : string) :
  String c s ++ t = String c (s ++ t).
Proof. reflexivity. Qed.

Lemma length_append (s t : string) :
  String.length (s ++ t) = String.length s + String.length t.
Proof.
  induction s as [|c s IH]; [reflexivity|].
  rewrite append_cons. simpl. now rewrite IH.
Qed.

Lemma append_nil_r (s : string) : s ++ "" = s.
Proof.
  induction s as [|c s IH]; [reflexivity|].
  rewrite append_cons. now rewrite IH.
Qed.

Lemma append_assoc (s t u : string) : (s ++ t) ++ u = s ++ t ++ u.
Proof.
  induction s as [|c s IH]; [reflexivity|].
  rewrite !append_cons. now rewrite IH.
Qed.

(** A path and its backup are two different paths. *)
Lemma bak_neq (p : string) : p <> p ++ ".bak".
Proof.
  intros Heq. apply (f_equal String.length) in Heq.
  rewrite length_append in Heq. simpl in Heq. lia.
Qed.

End StringFacts.

(** ** Lists taken two elements at a time *)

Lemma pairs_ind {A} (P : list A -> Prop) :
  P [] -> (forall x, P [x]) -> (forall x y l, P l -> P (x :: y :: l)) ->
  forall l, P l.
Proof.
  intros Hnil Hone Hstep l.
  assert (H : P l /\ forall x, P (x :: l)).
  { induction l as [|y l [IH1 IH2]]; [now split|].
    split; [apply IH2|]. intros x. now apply Hstep. }
  apply H.
Qed.

(** ** The monad *)

Section MonadFacts.

Lemma bind_ret {A B} (m : M A) (k : A -> M B) (w w' : World) (a : A) :
  m w = (Ret a, w') -> bind m k w = k a w'.
Proof. intros H. unfold bind. now rewrite H. Qed.

Lemma bind_raise {A B} (m : M A) (k : A -> M B) (w w' : World) (e : exn) :
  m w = (Raise e, w') -> bind m k w = (Raise e, w').
Proof. intros H. unfold bind. now rewrite H. Qed.

Lemma bind_exit {A B} (m : M A) (k : A -> M B) (w w' : World) (c : nat) :
  m w = (SysExit c, w') -> bind m k w = (SysExit c, w').
Proof. intros H. unfold bind. now rewrite H. Qed.

(** The loop goes on to its next turn exactly when the body returns. *)
Lemma for_each_next {A} (x : A) (l : list A) (body : A -> M unit)
    (w w' : World) :
  body x w = (Ret tt, w') ->
  for_each (x :: l) body w = for_each l body w'.
Proof. intros H. simpl. unfold bind. now rewrite H. Qed.


Lemma for_each_exit {A} (x : A) (l : list A) (body : A -> M unit)
    (w w' : World) (c : nat) :
  body x w = (SysExit c, w') ->
  for_each (x :: l) body w = (SysExit c, w').
Proof. intros H. simpl. unfold bind. now rewrite H. Qed.

End MonadFacts.

(** ** Classification of the build log ([builder_v4.py]) *)

Section Classification.
Variable E : Env.

(** [analyze_and_fix] does what [diagnose] decides. *)
Lemma analyze_and_fix_diagnose (build_log : string) (w : World) :
  V4.analyze_and_fix E build_log w =
  match V4.diagnose build_log with
  | V4.CompileError broken_file =>
      (print ("👉 Compile Error in: " ++ broken_file) ;;;
       files <- V4.gather_compile broken_file ;;
       response <- V4.get_ai_fix E files build_log V4.compile ;;
       ret (Some response)) w
  | V4.LinkError missing_symbol =>
      (print ("👉 Linker Error: Undefined symbol '" ++ missing_symbol ++ "'") ;;;
       related_files <- V4.gather_linker E missing_symbol ;;
       response <- V4.get_ai_fix E related_files build_log V4.linker ;;
       ret (Some response)) w
  | V4.Unknown =>
      (print "⚠️ Unknown error type. Cannot fix." ;;; ret None) w
  end.
Proof.
  unfold V4.analyze_and_fix, V4.diagnose.
  destruct (Re.search Patterns.COMPILE_ERROR_PATTERN build_log);
    [reflexivity|].
  destruct (Re.search Patterns.LINKER_ERROR_PATTERN build_log);
    reflexivity.
Qed.

End Classification.

(** C5. Whenever the compile-error pattern finds a match in the log, the
    verdict is the compile error it names and the model is asked in compile
    mode about that file, also when the linker pattern matches the same
    log, wherever the two matches lie. *)
Theorem compile_error_takes_precedence
    (E : Env) (build_log : string) (compile_match linker_match : Re.rmatch) :
  Re.search Patterns.COMPILE_ERROR_PATTERN build_log = Some compile_match ->
  Re.search Patterns.LINKER_ERROR_PATTERN build_log = Some linker_match ->
  V4.diagnose build_log = V4.CompileError (Re.group 1 compile_match)
  /\ forall w,
       V4.analyze_and_fix E build_log w =
       (print ("👉 Compile Error in: " ++ Re.group 1 compile_match) ;;;
        files <- V4.gather_compile (Re.group 1 compile_match) ;;
        response <- V4.get_ai_fix E files build_log V4.compile ;;
        ret (Some response)) w.
Proof.
  intros Hc _.
  assert (Hd : V4.diagnose build_log
               = V4.CompileError (Re.group 1 compile_match)).
  { unfold V4.diagnose. now rewrite Hc. }
  split; [exact Hd|].
  intros w. rewrite analyze_and_fix_diagnose. now rewrite Hd.
Qed.

Lemma compile_error_takes_precedence_witness :
  V4.diagnose Scenario.mixed_log = V4.CompileError "util.cpp".
Proof.
  edestruct (compile_error_takes_precedence Scenario.stuck Scenario.mixed_log)
    as [Hd _]; [vm_compute; reflexivity | vm_compute; reflexivity |].
  exact Hd.
Defined.

(** C4, as the specification states it, fails: the symbol the verdict
    carries for the log [undefined reference to `Foo::bar(int)'] is not the
    bare [Foo::bar]. *)
Lemma link_symbol_not_stripped_by_diagnosis :
  V4.diagnose Scenario.link_log <> V4.LinkError "Foo::bar".
Proof. vm_compute. discriminate. Qed.

(** C4, amended. For that log the verdict is a link error whose symbol is
    the captured text with its argument list, [Foo::bar(int)]; the argument
    list is removed later, by the symbol search, which looks for
    [Foo::bar]. *)
Theorem link_symbol_stripped_by_search :
  V4.diagnose Scenario.link_log = V4.LinkError "Foo::bar(int)"
  /\ V4.clean "Foo::bar(int)" = "Foo::bar"
  /\ forall w,
       trace (snd (V4.search_symbol_in_project Scenario.stuck "Foo::bar(int)" w))
       = (trace w ++ [Print "🔎 Scanning project for symbol: 'Foo::bar'..."])%list.
Proof.
  split; [vm_compute; reflexivity|].
  split; [vm_compute; reflexivity|].
  intros w. reflexivity.
Qed.

(** ** The completion signal *)

(** C3, where [builder_v4.py] departs from it. The build fails on each of
    the five attempts and no attempt succeeds, yet [main] of
    [builder_v4.py] returns from its loop and the process ends with
    signal 0; [main] of [builder_v3.py] and of [builder.py] end the same
    session with [sys.exit(1)]. *)
Theorem v4_exhausted_attempts_exit_zero :
  (let '(signal, w) := Obs.run_process (V4.main Scenario.stuck) Scenario.project in
   signal = 0
   /\ Obs.count (Obs.is_run Obs.BUILD) (trace w) = V4.MAX_ATTEMPTS
   /\ Obs.count (Obs.is_run_with Obs.BUILD true) (trace w) = 0)
  /\ fst (Obs.run_process (V3.main Scenario.stuck) Scenario.project) = 1
  /\ fst (Obs.run_process (V1.main Scenario.stuck) Scenario.project) = 1.
Proof. vm_compute. repeat split; reflexivity. Qed.

(** ** Backups *)

Section Backups.

(** [parse_and_apply_fixes] of [builder_v3.py], one entry whose target
    exists: the old text goes to the backup, the new text to the
    target. *)
Lemma v3_rewrite_existing (name block code old : string) (w : World) :
  let filename := Str.strip name in
  Common.block_code block = Some code ->
  files w !! filename = Some old ->
  filename ∉ dirs w ->
  filename ++ ".bak" ∉ dirs w ->
  exists w',
    V3.rewrite_file name block w = (Ret tt, w')
    /\ files w' !! (filename ++ ".bak") = Some old
    /\ files w' !! filename = Some (Str.strip code)
    /\ forall p, p <> filename -> p <> filename ++ ".bak" ->
                 files w' !! p = files w !! p.
Proof.
  intros filename Hcode Hold Hdir Hbak.
  unfold V3.rewrite_file. fold filename. rewrite Hcode.
  unfold indexed, bind, ret, print, emit, Fs.exists_, Fs.copy, bind,
    Fs.read, Fs.write.
  repeat (simpl; rewrite ?Hold, ?(bool_decide_eq_false_2 _ Hbak),
            ?(bool_decide_eq_false_2 _ Hdir)).
  eexists. split; [reflexivity|]. simpl.
  repeat split.
  - rewrite lookup_insert_ne by apply bak_neq. apply lookup_insert_eq.
  - apply lookup_insert_eq.
  - intros p Hp Hpb. now rewrite !lookup_insert_ne by congruence.
Qed.

(** The same, for a target that does not exist yet: the file is created
    and no backup is written. *)
Lemma v3_rewrite_new (name block code : string) (w : World) :
  let filename := Str.strip name in
  Common.block_code block = Some code ->
  files w !! filename = None ->
  filename ∉ dirs w ->
  exists w',
    V3.rewrite_file name block w = (Ret tt, w')
    /\ files w' !! filename = Some (Str.strip code)
    /\ forall p, p <> filename -> files w' !! p = files w !! p.
Proof.
  intros filename Hcode Hnone Hdir.
  unfold V3.rewrite_file. fold filename. rewrite Hcode.
  unfold indexed, bind, ret, print, emit, Fs.exists_, Fs.write.
  repeat (simpl; rewrite ?Hnone, ?(bool_decide_eq_false_2 _ Hdir)).
  eexists. split; [reflexivity|]. simpl. split.
  - apply lookup_insert_eq.
  - intros p Hp. now rewrite lookup_insert_ne by congruence.
Qed.

(** [apply_fixes] of [builder_v4.py] writes the files it is told to
    write and nothing else: no path other than a target changes. *)
Lemma v4_write_blocks_frame (parts : list string) (w w' : World)
    (r : outcome unit) (p : string) :
  V4.write_blocks parts w = (r, w') ->
  (forall name, In name parts -> p <> Str.strip name) ->
  files w' !! p = files w !! p.
Proof.
  revert w. induction parts as [|name|name raw rest IH] using pairs_ind;
    intros w Hrun Hp; simpl in Hrun.
  - now inversion Hrun.
  - now inversion Hrun.
  - unfold bind, indexed in Hrun.
    destruct (Common.block_code raw) as [code|]; simpl in Hrun;
      [|now inversion Hrun].
    unfold ret, print, emit, Fs.write in Hrun. simpl in Hrun.
    destruct (bool_decide (Str.strip name ∈ dirs w)); simpl in Hrun;
      [now inversion Hrun|].
    apply IH in Hrun.
    + rewrite Hrun. simpl. apply lookup_insert_ne.
      intros Heq. apply (Hp name); [now left | now symmetry].
    + intros n Hn. apply Hp. now right; right.
Qed.

End Backups.

(** C1, where [builder_v4.py] departs from it. [main.cpp] exists when the
    patch for it is applied. [apply_fixes] of [builder_v4.py] overwrites
    it and leaves no [main.cpp.bak]; [parse_and_apply_fixes] of
    [builder_v3.py], given the same answer in the same tree, leaves a
    [main.cpp.bak] with the text the file had before. *)
Theorem v4_apply_fixes_leaves_no_backup :
  files Scenario.project !! "main.cpp" = Some "int main(){"
  /\ (let '(r, w) := V4.apply_fixes Scenario.patch Scenario.project in
      r = Ret true
      /\ files w !! "main.cpp" = Some "int main(){ return 0; }"
      /\ files w !! "main.cpp.bak" = None)
  /\ (let '(r, w) := V3.parse_and_apply_fixes Scenario.patch Scenario.project in
      r = Ret true
      /\ files w !! "main.cpp" = Some "int main(){ return 0; }"
      /\ files w !! "main.cpp.bak" = Some "int main(){").
Proof. vm_compute. repeat split; reflexivity. Qed.

(** ** The scan of the tree ([builder_v4.py]) *)

Section Scan.

Lemma source_name_spec (file : string) :
  source_name file = true <-> In (Path.splitext_ext file) V4.EXTENSIONS.
Proof.
  unfold source_name. rewrite existsb_exists. split.
  - intros (x & Hin & Heq). apply String.eqb_eq in Heq. now subst.
  - intros Hin. eexists. split; [exact Hin|]. apply String.eqb_refl.
Qed.

Lemma in_collected (root : string) (names acc : list string) (p : string) :
  In p (fold_left
          (fun acc file =>
             if source_name file then (acc ++ [Path.join root file])%list
             else acc) names acc)
  <-> In p acc
      \/ exists file, In file names /\ source_name file = true
                      /\ p = Path.join root file.
Proof.
  revert acc. induction names as [|file names IH]; intros acc; simpl.
  - split; [now left|]. intros [H|(f & [] & _)]. exact H.
  - rewrite IH. destruct (source_name file) eqn:Hs.
    + rewrite in_app_iff. simpl. split.
      * intros [[H|[H|[]]]|(f & Hf & Hok & Hp)].
        -- now left.
        -- right. exists file. auto.
        -- right. exists f. auto.
      * intros [H|(f & [Hf|Hf] & Hok & Hp)].
        -- now left; left.
        -- subst f. left. right. left. now symmetry.
        -- right. exists f. auto.
    + split.
      * intros [H|(f & Hf & Hok & Hp)]; [now left|].
        right. exists f. auto.
      * intros [H|(f & [Hf|Hf] & Hok & Hp)]; [now left| |].
        -- subst f. congruence.
        -- right. exists f. auto.
Qed.

Lemma visit_skipped (sources : list string) (root : string)
    (ds names : list string) :
  skipped root = true -> V4.visit sources (root, ds, names) = sources.
Proof. unfold skipped, V4.visit. now intros ->. Qed.

Lemma in_visited (entries : list (string * list string * list string))
    (acc : list string) (p : string) :
  In p (fold_left V4.visit entries acc)
  <-> In p acc
      \/ exists root ds names file,
           In (root, ds, names) entries /\ skipped root = false
           /\ In file names /\ source_name file = true
           /\ p = Path.join root file.
Proof.
  revert acc. induction entries as [|[[root ds] names] entries IH];
    intros acc; cbn [fold_left].
  - split; [now left|]. intros [H|(?&?&?&?&[]&_)]. exact H.
  - rewrite IH. cbn [In]. unfold V4.visit. fold (skipped root).
    destruct (skipped root) eqn:Hskip.
    + split.
      * intros [H|(r & d & n & f & Hin & Hrest)]; [now left|].
        right. exists r, d, n, f. split; [now right|exact Hrest].
      * intros [H|(r & d & n & f & [Heq|Hin] & Hs & Hrest)]; [now left| |].
        -- inversion Heq; subst. congruence.
        -- right. exists r, d, n, f. auto.
    + change (fold_left _ names acc) with
        (fold_left (fun acc file =>
           if source_name file then (acc ++ [Path.join root file])%list
           else acc) names acc).
      rewrite in_collected. split.
      * intros [[H|(f & Hf & Hok & Hp)]|(r & d & n & f & Hin & Hrest)].
        -- now left.
        -- right. exists root, ds, names, f. auto.
        -- right. exists r, d, n, f. split; [now right|exact Hrest].
      * intros [H|(r & d & n & f & [Heq|Hin] & Hs & Hf & Hok & Hp)].
        -- now left; left.
        -- inversion Heq; subst. left. right. exists f. auto.
        -- right. exists r, d, n, f. auto.
Qed.

End Scan.

(** C10. The scan of [get_all_source_files] returns exactly the source
    files of the directories whose path contains neither [build] nor
    [.git] as a substring. A directory whose path contains one of them
    contributes nothing, whatever it holds: [./rebuild] and
    [./buildings/src] are passed over like [./build] and [./.git]. *)
Theorem scan_skips_build_and_git
    (E : Env) (root_dir : string) (w : World) (p : string) :
  V4.get_all_source_files E root_dir w
    = (Ret (fold_left V4.visit (os_walk E root_dir w) []), w)
  /\ (In p (fold_left V4.visit (os_walk E root_dir w) [])
      <-> exists root ds names file,
            In (root, ds, names) (os_walk E root_dir w)
            /\ Str.contains "build" root = false
            /\ Str.contains ".git" root = false
            /\ In file names
            /\ In (Path.splitext_ext file) V4.EXTENSIONS
            /\ p = Path.join root file)
  /\ (forall sources ds names,
        V4.visit sources ("./rebuild", ds, names) = sources
        /\ V4.visit sources ("./buildings/src", ds, names) = sources
        /\ V4.visit sources ("./build", ds, names) = sources
        /\ V4.visit sources ("./.git/hooks", ds, names) = sources).
Proof.
  split; [reflexivity|]. split.
  - rewrite in_visited. split.
    + intros [[]|(r & d & n & f & Hin & Hs & Hf & Hok & Hp)].
      exists r, d, n, f. apply orb_false_elim in Hs as [Hb Hg].
      apply source_name_spec in Hok. repeat split; assumption.
    + intros (r & d & n & f & Hin & Hb & Hg & Hf & Hok & Hp).
      right. exists r, d, n, f. unfold skipped. rewrite Hb, Hg.
      apply source_name_spec in Hok. repeat split; assumption.
  - intros sources ds names.
    repeat split; apply visit_skipped; vm_compute; reflexivity.
Qed.

(** ** The matcher *)

Section Matcher.
Import Re.
Local Arguments Chr.eqb : simpl never.

Lemma strip_prefix_app (p s : string) : Str.strip_prefix p (p ++ s) = Some s.
Proof.
  induction p as [|c p IH]; [reflexivity|].
  rewrite append_cons. simpl. unfold Chr.eqb. now rewrite Ascii.eqb_refl.
Qed.

Lemma rev_onto_app (s acc : string) :
  Str.rev_onto s acc = Str.rev_onto s "" ++ acc.
Proof.
  revert acc. induction s as [|c s IH]; intros acc; [reflexivity|].
  simpl. rewrite (IH (String c acc)), (IH (String c "")).
  now rewrite append_assoc.
Qed.


Lemma take_app (u v : string) :
  Str.take (String.length (u ++ v) - String.length v) (u ++ v) = u.
Proof.
  rewrite length_append.
  replace (String.length u + String.length v - String.length v)
    with (String.length u) by lia.
  induction u as [|c u IH]; simpl.
  - now destruct v.
  - now rewrite IH.
Qed.

(** A greedy repetition takes the whole run of the class when what
    follows the run is accepted there. *)
Lemma star_run (p : ascii -> bool) (u v : string) (prev : option ascii)
    (k : option ascii -> string -> option result) (r : result) :
  all_in p u = true -> stops p v = true ->
  k (last_of u prev) v = Some r ->
  star p prev (u ++ v) k = Some r.
Proof.
  revert prev. induction u as [|c u IH]; intros prev Hall Hstop Hk.
  - simpl in *. destruct v as [|d v]; simpl; [exact Hk|].
    simpl in Hstop. apply negb_true_iff in Hstop. now rewrite Hstop.
  - simpl in Hall. apply andb_true_iff in Hall as [Hc Hall].
    rewrite append_cons. simpl. rewrite Hc.
    now rewrite (IH (Some c) Hall Hstop Hk).
Qed.

Lemma nonspace_not_space (c : ascii) :
  Patterns.nonspace c = true -> Chr.isspace c = false.
Proof.
  unfold Patterns.nonspace. intros H. apply andb_true_iff in H as [H _].
  now apply negb_true_iff in H.
Qed.

(** The marker pattern matches at a marker, wherever it stands. *)
Lemma marker_matches (path post : string) (prev : option ascii) :
  path <> "" -> all_in Patterns.nonspace path = true ->
  stops Patterns.nonspace post = true ->
  run Patterns.FILE_MARKER prev ("FILE: " ++ path ++ post) [] accept
  = Some ([(1, path)], post).
Proof.
  intros Hne Hall Hstop.
  destruct path as [|c path]; [congruence|].
  simpl in Hall. apply andb_true_iff in Hall as [Hc Hall].
  unfold Patterns.FILE_MARKER.
  change ("FILE: " ++ String c path ++ post)
    with ("FILE:" ++ " " ++ String c path ++ post).
  cbn [run]. rewrite strip_prefix_app.
  rewrite (star_run Chr.isspace " " (String c path ++ post) _ _
             ([(1, String c path)], post)); [reflexivity|reflexivity| |].
  - rewrite append_cons. simpl. now rewrite (nonspace_not_space c Hc).
  - rewrite append_cons at 1. rewrite Hc.
    apply star_run; [exact Hall|exact Hstop|].
    unfold accept. now rewrite take_app.
Qed.

(** No marker begins inside a text that does not contain [FILE:], even
    when a marker follows the text. *)
Lemma marker_not_before (q rest : string) (prev : option ascii) :
  q <> "" -> Str.startswith q "FILE:" = false ->
  run Patterns.FILE_MARKER prev (q ++ String "F" rest) [] accept = None.
Proof.
  intros Hne Hq. unfold Patterns.FILE_MARKER. cbn [run].
  assert (Hs : Str.strip_prefix "FILE:" (q ++ String "F" rest) = None);
    [|now rewrite Hs].
  unfold Str.startswith in Hq.
  destruct q as [|c1 q]; [congruence|]. clear Hne.
  rewrite append_cons. simpl in *.
  destruct (Chr.eqb "F" c1); [|reflexivity].
  destruct q as [|c2 q]; [reflexivity|]. rewrite append_cons. simpl in *.
  destruct (Chr.eqb "I" c2); [|reflexivity].
  destruct q as [|c3 q]; [reflexivity|]. rewrite append_cons. simpl in *.
  destruct (Chr.eqb "L" c3); [|reflexivity].
  destruct q as [|c4 q]; [reflexivity|]. rewrite append_cons. simpl in *.
  destruct (Chr.eqb "E" c4); [|reflexivity].
  destruct q as [|c5 q]; [reflexivity|]. rewrite append_cons. simpl in *.
  destruct (Chr.eqb ":" c5); [discriminate|reflexivity].
Qed.

Lemma contains_cons (needle : string) (c : ascii) (s : string) :
  Str.contains needle (String c s) = false ->
  Str.startswith (String c s) needle = false /\ Str.contains needle s = false.
Proof.
  simpl. destruct (Str.startswith (String c s) needle); [discriminate|].
  now split.
Qed.

Lemma search_go_unfold (r : regex) (before : string) (prev : option ascii)
    (s : string) :
  search_go r before prev s =
  match run r prev s [] accept with
  | Some (caps, rest) => Some (MkMatch (Str.rev before) caps rest)
  | None =>
      match s with
      | "" => None
      | String c s' => search_go r (String c before) (Some c) s'
      end
  end.
Proof. destruct s; reflexivity. Qed.

Lemma search_finds_marker (pre path post before : string)
    (prev : option ascii) :
  Str.contains "FILE:" pre = false ->
  path <> "" -> all_in Patterns.nonspace path = true ->
  stops Patterns.nonspace post = true ->
  search_go Patterns.FILE_MARKER before prev (pre ++ "FILE: " ++ path ++ post)
  = Some (MkMatch (Str.rev before ++ pre) [(1, path)] post).
Proof.
  intros Hpre Hne Hall Hstop. revert before prev Hpre.
  induction pre as [|c pre IH]; intros before prev Hpre.
  - change ("" ++ "FILE: " ++ path ++ post) with ("FILE: " ++ path ++ post).
    rewrite search_go_unfold, marker_matches by assumption.
    now rewrite append_nil_r.
  - apply contains_cons in Hpre as [Hstart Hrest].
    rewrite search_go_unfold.
    change ("FILE: " ++ path ++ post)
      with (String "F" ("ILE: " ++ path ++ post)).
    rewrite marker_not_before by (congruence || assumption).
    change (String "F" ("ILE: " ++ path ++ post))
      with ("FILE: " ++ path ++ post).
    rewrite append_cons.
    rewrite IH by assumption.
    do 2 f_equal. unfold Str.rev. simpl.
    rewrite (rev_onto_app before (String c "")).
    now rewrite append_assoc.
Qed.

End Matcher.

(** ** What a call leaves unchanged *)

Section Keeps.
Context {X : Type} (obs : World -> X).

Lemma keeps_ret {A} (a : A) : keeps obs (ret a).
Proof. now intros w. Qed.

Lemma keeps_raise {A} (e : exn) : keeps obs (@raise A e).
Proof. now intros w. Qed.

Lemma keeps_sys_exit {A} (c : nat) : keeps obs (@sys_exit A c).
Proof. now intros w. Qed.

Lemma keeps_bind {A B} (m : M A) (k : A -> M B) :
  keeps obs m -> (forall a, keeps obs (k a)) -> keeps obs (bind m k).
Proof.
  intros Hm Hk w. unfold bind. specialize (Hm w).
  destruct (m w) as [[a|e|c] w1]; simpl in *; [|assumption..].
  now rewrite Hk.
Qed.

Lemma keeps_indexed {A} (o : option A) : keeps obs (indexed o).
Proof. destruct o; now intros w. Qed.

Lemma keeps_index {A} (n : nat) (l : list A) : keeps obs (index n l).
Proof. apply keeps_indexed. Qed.

Lemma keeps_exists (p : string) : keeps obs (Fs.exists_ p).
Proof. now intros w. Qed.

Lemma keeps_read (p : string) : keeps obs (Fs.read p).
Proof.
  intros w. unfold Fs.read.
  destruct (files w !! p); [reflexivity|].
  now destruct (bool_decide (p ∈ dirs w)).
Qed.

Lemma keeps_try_except {A} (m h : M A) (catches : exn -> bool) :
  keeps obs m -> keeps obs h -> keeps obs (try_except m catches h).
Proof.
  intros Hm Hh w. unfold try_except. specialize (Hm w).
  destruct (m w) as [[a|e|c] w1]; simpl in *; try assumption.
  destruct (catches e); simpl; [|assumption]. now rewrite Hh.
Qed.

Lemma keeps_fold_each {A S} (l : list A) (acc : S) (body : S -> A -> M S) :
  (forall acc x, keeps obs (body acc x)) ->
  keeps obs (fold_each l acc body).
Proof.
  intros Hbody. revert acc.
  induction l as [|x l IH]; intros acc; simpl.
  - apply keeps_ret.
  - apply keeps_bind; [apply Hbody|]. intros acc'. apply IH.
Qed.

Lemma keeps_if {A} (b : bool) (m1 m2 : M A) :
  keeps obs m1 -> keeps obs m2 -> keeps obs (if b then m1 else m2).
Proof. now destruct b. Qed.

End Keeps.

(** What never touches a file. *)
Section KeepsFiles.
Variable E : Env.

Lemma files_print (text : string) : keeps files (print text).
Proof. now intros w. Qed.

Lemma files_makedirs (p : string) : keeps files (Fs.makedirs p).
Proof. now intros w. Qed.

Lemma files_run_command (argv : list string) :
  keeps files (Common.run_command E argv).
Proof.
  apply keeps_bind; [apply files_print|]. intros _ w.
  now destruct (subprocess_run E argv w) as [[ok out]|].
Qed.

Lemma files_chat (prompt : string) : keeps files (Common.chat E prompt).
Proof. now intros w. Qed.

End KeepsFiles.

(** What adds no event of a given kind to the trace. *)
Section KeepsCount.
Variable E : Env.
Variable f : event -> bool.

Lemma count_app (t1 t2 : list event) :
  Obs.count f (t1 ++ t2) = Obs.count f t1 + Obs.count f t2.
Proof. unfold Obs.count. now rewrite List.filter_app, length_app. Qed.

Lemma count_print (text : string) :
  f (Print text) = false -> keeps (counting f) (print text).
Proof.
  intros Hf w. unfold counting. simpl. rewrite count_app.
  unfold Obs.count at 2. simpl. rewrite Hf. simpl. lia.
Qed.

Lemma count_makedirs (p : string) : keeps (counting f) (Fs.makedirs p).
Proof. now intros w. Qed.

Lemma count_write (p text : string) : keeps (counting f) (Fs.write p text).
Proof.
  intros w. unfold Fs.write. now destruct (bool_decide (p ∈ dirs w)).
Qed.

Lemma count_run_command (argv : list string) :
  (forall text, f (Print text) = false) ->
  (forall ok, f (Run argv ok) = false) ->
  keeps (counting f) (Common.run_command E argv).
Proof.
  intros Hp Hr. apply keeps_bind; [now apply count_print|]. intros _ w.
  destruct (subprocess_run E argv w) as [[ok out]|]; [|reflexivity].
  unfold counting. simpl. rewrite count_app.
  unfold Obs.count at 2. simpl. rewrite Hr. simpl. lia.
Qed.

End KeepsCount.

Create HintDb keeps.

#[local] Hint Resolve keeps_ret keeps_raise keeps_sys_exit keeps_indexed
  keeps_index keeps_exists keeps_read files_print files_makedirs
  files_run_command files_chat count_print count_makedirs count_write
  count_run_command : keeps.

Ltac keeps :=
  repeat first
    [ progress auto with keeps
    | apply keeps_bind; [|intros ?]
    | apply keeps_if
    | apply keeps_try_except
    | apply keeps_fold_each; intros ? ?
    | match goal with
      | |- keeps _ (match ?x with _ => _ end) => destruct x
      | |- keeps _ (let '(_, _) := ?x in _) => destruct x
      end ].

Section AgentKeeps.
Variable E : Env.

Lemma v4_build_project_keeps_files : keeps files (V4.build_project E).
Proof. unfold V4.build_project, V4.run_command. keeps. Qed.

Lemma v4_gather_compile_keeps_files (broken_file : string) :
  keeps files (V4.gather_compile broken_file).
Proof. unfold V4.gather_compile. keeps. Qed.

Lemma v4_gather_linker_keeps_files (symbol : string) :
  keeps files (V4.gather_linker E symbol).
Proof.
  unfold V4.gather_linker, V4.search_symbol_in_project,
    V4.get_all_source_files.
  keeps. now intros w.
Qed.

Hint Resolve v4_gather_compile_keeps_files v4_gather_linker_keeps_files
  : keeps.

Lemma v4_analyze_and_fix_keeps_files (build_log : string) :
  keeps files (V4.analyze_and_fix E build_log).
Proof. unfold V4.analyze_and_fix, V4.get_ai_fix. keeps. Qed.

End AgentKeeps.

(** ** Markers in the answer of the model *)

(** C9, as the specification states it, fails. The text below has no
    marker at the start of a line, and still the marker in the middle of
    its only line opens an entry: the parser names [a.cpp] and
    [apply_fixes] writes that file. *)
Lemma marker_in_mid_line_begins_entry :
  let text := "Please see FILE: a.cpp for details" in
  Re.search (Re.Seq Re.Bol Patterns.FILE_MARKER) text = None
  /\ Re.split Patterns.FILE_MARKER text
     = ["Please see "; "a.cpp"; " for details"]
  /\ (let '(r, w) := V4.apply_fixes text (Scenario.tree []) in
      r = Ret true /\ files w !! "a.cpp" = Some "for details")
  /\ (let '(r, w) := V3.parse_and_apply_fixes text (Scenario.tree []) in
      r = Ret true /\ files w !! "a.cpp" = Some "for details").
Proof. vm_compute. repeat split; reflexivity. Qed.

(** C9, amended. A marker [FILE: path] is recognised wherever it stands
    in the answer, at the start of a line or in the middle of one: the
    first marker of the text opens the first entry, under the path it
    names, and the text before it is the preamble. *)
Theorem marker_recognised_anywhere (pre path post : string) :
  Str.contains "FILE:" pre = false ->
  path <> "" ->
  all_in Patterns.nonspace path = true ->
  stops Patterns.nonspace post = true ->
  exists rest,
    Re.split Patterns.FILE_MARKER (pre ++ "FILE: " ++ path ++ post)
    = pre :: path :: rest.
Proof.
  intros Hpre Hne Hall Hstop.
  unfold Re.split, Re.finditer.
  assert (Hlen : exists n,
            String.length (pre ++ "FILE: " ++ path ++ post) = S n).
  { rewrite length_append.
    change ("FILE: " ++ path ++ post)
      with (String "F" ("ILE: " ++ path ++ post)).
    cbn [String.length]. rewrite Nat.add_succ_r. eexists. reflexivity. }
  destruct Hlen as [n ->]. cbn [Re.finditer_go]. unfold Re.search.
  rewrite (search_finds_marker pre path post "" None) by assumption.
  cbn [Re.split_parts Re.m_before Re.m_after]. eexists. reflexivity.
Qed.

Lemma marker_recognised_anywhere_witness :
  exists rest,
    Re.split Patterns.FILE_MARKER
      ("Please see " ++ "FILE: " ++ "a.cpp" ++ " for details")
    = "Please see " :: "a.cpp" :: rest.
Proof.
  apply (marker_recognised_anywhere "Please see " "a.cpp" " for details");
    [reflexivity | discriminate | reflexivity | reflexivity].
Defined.

(** An answer without a marker is split into one part: itself. *)
Lemma no_marker_one_part (response : string) :
  Re.finditer Patterns.FILE_MARKER response = [] ->
  Re.split Patterns.FILE_MARKER response = [response].
Proof. unfold Re.split. now intros ->. Qed.

(** C6, as the specification states it, fails. The empty answer has no
    marker; [main] of [builder_v4.py] takes it for no answer at all and
    ends the session with signal 1 in the first attempt. *)
Lemma empty_answer_ends_session :
  Re.finditer Patterns.FILE_MARKER "" = []
  /\ fst (V4.attempt_body Scenario.mute 1 Scenario.project) = SysExit 1
  /\ (let '(signal, w) :=
        Obs.run_process (V4.main Scenario.mute) Scenario.project in
      signal = 1 /\ Obs.count (Obs.is_run Obs.BUILD) (trace w) = 1).
Proof. vm_compute. repeat split; reflexivity. Qed.

(** C6, amended. For every answer of the model that is not empty and
    holds no marker, [apply_fixes] returns [False] without raising and
    without touching the world; the attempt in which the answer arrives
    changes no file, and the loop of [main] goes on to its next turn. *)
Theorem no_marker_answer_is_skipped
    (E : Env) (attempt : nat) (later : list nat) (w w1 w2 : World)
    (build_log response : string) :
  V4.build_project E (snd (print (V4.banner attempt) w))
    = (Ret (false, Some build_log), w1) ->
  V4.analyze_and_fix E build_log w1 = (Ret (Some response), w2) ->
  Re.finditer Patterns.FILE_MARKER response = [] ->
  response <> "" ->
  V4.apply_fixes response w2 = (Ret false, w2)
  /\ V4.attempt_body E attempt w = (Ret tt, w2)
  /\ for_each (attempt :: later) (V4.attempt_body E) w
     = for_each later (V4.attempt_body E) w2
  /\ files w2 = files w.
Proof.
  intros Hbuild Hfix Hnone Hne.
  assert (Happly : V4.apply_fixes response w2 = (Ret false, w2)).
  { unfold V4.apply_fixes. now rewrite (no_marker_one_part _ Hnone). }
  assert (Hbody : V4.attempt_body E attempt w = (Ret tt, w2)).
  { unfold V4.attempt_body.
    unfold bind at 1. cbn [print emit]. unfold bind at 1.
    cbn [print emit snd] in Hbuild. rewrite Hbuild.
    change (default "" (Some build_log)) with build_log.
    rewrite (bind_ret _ _ _ _ _ Hfix).
    destruct response as [|c response]; [congruence|].
    change (V4.truthy (Some (String c response))) with true.
    change (default "" (Some (String c response)))
      with (String c response).
    cbv beta iota. now rewrite (bind_ret _ _ _ _ _ Happly). }
  repeat split; [exact Happly|exact Hbody|now apply for_each_next|].
  pose proof (v4_analyze_and_fix_keeps_files E build_log w1) as H2.
  rewrite Hfix in H2. simpl in H2. rewrite H2.
  pose proof (v4_build_project_keeps_files E
                (snd (print (V4.banner attempt) w))) as H1.
  rewrite Hbuild in H1. exact H1.
Qed.

Lemma no_marker_answer_is_skipped_witness :
  exists w2,
    V4.attempt_body Scenario.chatty 1 Scenario.project = (Ret tt, w2)
    /\ files w2 = files Scenario.project.
Proof.
  edestruct (no_marker_answer_is_skipped Scenario.chatty 1 [] Scenario.project)
    as (_ & Hbody & _ & Hfiles).
  - vm_compute. reflexivity.
  - vm_compute. reflexivity.
  - vm_compute. reflexivity.
  - discriminate.
  - eexists. split; [exact Hbody|exact Hfiles].
Defined.

(** ** A failed configure step *)

Section Configure.
Variable E : Env.

Lemma v1_configure_keeps_files : keeps files (V1.configure E).
Proof. unfold V1.configure, V1.run_command. keeps. Qed.

Lemma v1_configure_keeps_chats : keeps (counting Obs.is_chat) (V1.configure E).
Proof. unfold V1.configure, V1.run_command. keeps. Qed.

Lemma v1_configure_keeps_builds :
  keeps (counting (Obs.is_run Obs.BUILD)) (V1.configure E).
Proof. unfold V1.configure, V1.run_command. keeps. Qed.

End Configure.

(** C2, as the specification states it, fails. In [builder_v4.py] the
    verdict of the configure command is dropped: after each failed
    configure step the build is run and the model is consulted. In
    [builder.py] a failed configure step does not end the session: the
    command is run again in the second and in the third attempt, and when
    it succeeds there the model is consulted in the same session. *)
Lemma failed_configure_not_terminal :
  (let '(_, w) := Obs.run_process (V4.main Scenario.unconfigured)
                    Scenario.project in
   Obs.count (Obs.is_run_with Obs.CONFIGURE false) (trace w) = 5
   /\ Obs.count (Obs.is_run Obs.BUILD)
        (Obs.after (Obs.is_run_with Obs.CONFIGURE false) (trace w)) = 5
   /\ Obs.count Obs.is_chat
        (Obs.after (Obs.is_run_with Obs.CONFIGURE false) (trace w)) = 5)
  /\ (let '(_, w) := Obs.run_process (V1.main Scenario.unconfigured)
                       Scenario.project in
      Obs.count (Obs.is_run Obs.CONFIGURE)
        (Obs.after (Obs.is_run_with Obs.CONFIGURE false) (trace w)) = 2)
  /\ (let '(_, w) := Obs.run_process (V1.main Scenario.flaky)
                       Scenario.project in
      Obs.count (Obs.is_run_with Obs.CONFIGURE false) (trace w) = 1
      /\ Obs.count Obs.is_chat
           (Obs.after (Obs.is_run_with Obs.CONFIGURE false) (trace w)) = 2).
Proof. vm_compute. repeat split; reflexivity. Qed.

(** C2, amended. In [builder.py], when the configure command exits
    non-zero the attempt ends there: [build_project] reports the failure
    with the log of the command and returns [False], the build command is
    not run, the model is not consulted and no file changes in that
    attempt; the loop of [main] then goes on to the next attempt. *)
Theorem v1_failed_configure_ends_attempt
    (E : Env) (attempt remaining : nat) (w w1 : World) (config_log : string) :
  V1.configure E (snd (print (V1.banner attempt) w))
    = (Ret (Some (false, config_log)), w1) ->
  let w2 := MkWorld (files w1) (dirs w1)
              (trace w1 ++ [Print "❌ CMake Configuration Failed!";
                            Print config_log]) in
  V1.build_project E (snd (print (V1.banner attempt) w)) = (Ret false, w2)
  /\ V1.main_loop E (S remaining) attempt w
     = V1.main_loop E remaining (S attempt) w2
  /\ counting (Obs.is_run Obs.BUILD) w2 = counting (Obs.is_run Obs.BUILD) w
  /\ counting Obs.is_chat w2 = counting Obs.is_chat w
  /\ files w2 = files w.
Proof.
  intros Hconf w2.
  assert (Hbuild : V1.build_project E (snd (print (V1.banner attempt) w))
                   = (Ret false, w2)).
  { unfold V1.build_project. rewrite (bind_ret _ _ _ _ _ Hconf).
    cbv [bind print emit ret]. cbn [files dirs trace]. subst w2.
    now rewrite <- List.app_assoc. }
  split; [exact Hbuild|]. split.
  { cbn [V1.main_loop]. unfold bind at 1. cbn [print emit].
    cbn [print emit snd] in Hbuild. now rewrite (bind_ret _ _ _ _ _ Hbuild). }
  pose proof (v1_configure_keeps_builds E
                (snd (print (V1.banner attempt) w))) as Hb.
  pose proof (v1_configure_keeps_chats E
                (snd (print (V1.banner attempt) w))) as Hc.
  pose proof (v1_configure_keeps_files E
                (snd (print (V1.banner attempt) w))) as Hf.
  rewrite Hconf in Hb, Hc, Hf. simpl in Hf.
  unfold counting in *. cbn [snd trace print emit] in Hb, Hc.
  subst w2. cbn [trace files]. rewrite !count_app in *.
  unfold Obs.count in *. simpl in *. repeat split; [lia|lia|exact Hf].
Qed.

Lemma v1_failed_configure_ends_attempt_witness :
  exists w2,
    V1.main_loop Scenario.unconfigured 3 1 Scenario.project
    = V1.main_loop Scenario.unconfigured 2 2 w2
    /\ counting Obs.is_chat w2 = 0
    /\ files w2 = files Scenario.project.
Proof.
  edestruct (v1_failed_configure_ends_attempt Scenario.unconfigured 1 2
               Scenario.project)
    as (_ & Hloop & _ & Hchat & Hfiles).
  - vm_compute. reflexivity.
  - eexists. split; [exact Hloop|]. split; [exact Hchat|exact Hfiles].
Defined.

(** ** A culprit file that cannot be read *)

Section Culprit.
Variable E : Env.

Lemma print_say (text : string) (w : World) :
  print text w = (Ret tt, say w [text]).
Proof. reflexivity. Qed.

Lemma say_say (w : World) (l1 l2 : list string) :
  say (say w l1) l2 = say w (l1 ++ l2).
Proof.
  unfold say. simpl. now rewrite map_app, List.app_assoc.
Qed.

Lemma read_missing (p : string) (w : World) :
  files w !! p = None -> Fs.read p w = (Raise (read_error w p), w).
Proof.
  intros H. unfold Fs.read, read_error. rewrite H.
  now destruct (bool_decide (p ∈ dirs w)).
Qed.




End Culprit.




(** ** Gathering the headers of the culprit *)

Section Gather.




(** *** The second field of a split line *)

Lemma cut_unfold (sep s : string) :
  Str.cut sep s =
  match Str.strip_prefix sep s with
  | Some rest => Some ("", rest)
  | None =>
      match s with
      | "" => None
      | String c s' =>
          match Str.cut sep s' with
          | Some (a, b) => Some (String c a, b)
          | None => None
          end
      end
  end.
Proof. destruct s; reflexivity. Qed.

Lemma cut_cons_some (sep : string) (c : ascii) (s : string) :
  is_Some (Str.cut sep s) -> is_Some (Str.cut sep (String c s)).
Proof.
  intros [[a b] H]. rewrite cut_unfold.
  destruct (Str.strip_prefix sep (String c s)); [eauto|].
  rewrite H. eauto.
Qed.

Lemma cut_after_prefix (sep pre s r : string) :
  Str.strip_prefix (pre ++ sep) s = Some r -> is_Some (Str.cut sep s).
Proof.
  revert s. induction pre as [|c pre IH]; intros s H.
  - change ("" ++ sep) with sep in H. rewrite cut_unfold, H. eauto.
  - rewrite append_cons in H. destruct s as [|b s]; [discriminate|].
    simpl in H. destruct (Chr.eqb c b); [|discriminate].
    apply cut_cons_some. now apply IH.
Qed.

Lemma cut_when_contains (sep pre s : string) :
  Str.contains (pre ++ sep) s = true -> is_Some (Str.cut sep s).
Proof.
  induction s as [|c s IH]; intros H.
  - simpl in H. unfold Str.startswith in H.
    destruct (Str.strip_prefix (pre ++ sep) "") eqn:Hp; [|discriminate].
    now apply cut_after_prefix in Hp.
  - simpl in H. unfold Str.startswith in H.
    destruct (Str.strip_prefix (pre ++ sep) (String c s)) eqn:Hp.
    + now apply cut_after_prefix in Hp.
    + apply cut_cons_some. now apply IH.
Qed.

Lemma split_fuel_nonempty (n : nat) (sep s : string) :
  Str.split_fuel n sep s <> [].
Proof.
  destruct n; simpl; destruct (Str.cut sep s) as [[a b]|]; discriminate.
Qed.

(** A line that contains the needle of the include test has a second
    field when split at the double quote: [line.split(Q)[1]] raises
    nothing. *)
Lemma second_field (sep pre line : string) :
  Str.contains (pre ++ sep) line = true ->
  nth_error (Str.split sep line) 1 = Some (nth 1 (Str.split sep line) "").
Proof.
  intros H. apply cut_when_contains in H as [[a b] Hcut].
  unfold Str.split.
  destruct (String.length line) as [|n]; simpl; rewrite Hcut;
    [reflexivity|].
  pose proof (split_fuel_nonempty n sep b) as Hne.
  destruct (Str.split_fuel n sep b); [congruence|reflexivity].
Qed.

End Gather.

Section Headers.

Lemma collect_app (w : World) (acc : Dict.t) (t1 t2 : list string) :
  collect w acc (t1 ++ t2) = collect w (collect w acc t1) t2.
Proof. unfold collect. apply fold_left_app. Qed.

Lemma exists_spec (p : string) (w : World) :
  p ∉ dirs w -> Fs.exists_ p w = (Ret (is_file w p), w).
Proof.
  intros Hdir. unfold Fs.exists_, is_file.
  now rewrite (bool_decide_eq_false_2 _ Hdir), orb_false_r.
Qed.

(** Looking at one target: it is entered when it is a file. *)
Lemma enter_target (p : string) (acc : Dict.t) (w : World) :
  p ∉ dirs w ->
  (there <- Fs.exists_ p ;;
   if there : bool then
     text <- Fs.read p ;; ret (Dict.set p text acc)
   else ret acc) w
  = (Ret (collect w acc [p]), w).
Proof.
  intros Hdir. rewrite (bind_ret _ _ _ _ _ (exists_spec p w Hdir)).
  unfold is_file, collect, Fs.read, bind, ret. simpl.
  destruct (files w !! p) as [text|] eqn:Hp.
  - rewrite bool_decide_eq_true_2 by eauto. now rewrite Hp.
  - now rewrite bool_decide_eq_false_2 by (intros [? ?]; discriminate).
Qed.

Lemma v4_add_header_step (base_dir line : string) (acc : Dict.t)
    (w : World) :
  (forall p, In p (v4_line_targets base_dir line) -> p ∉ dirs w) ->
  V4.add_header base_dir acc line w
  = (Ret (collect w acc (v4_line_targets base_dir line)), w).
Proof.
  unfold V4.add_header, v4_line_targets. intros Hdir.
  destruct (Str.contains ("#include " ++ Str.dquote) line) eqn:Hinc;
    [|reflexivity].
  unfold index. rewrite (second_field _ _ _ Hinc). unfold indexed.
  unfold bind at 1. unfold ret at 1.
  apply enter_target. apply Hdir. now left.
Qed.

Lemma v4_headers_collected (base_dir : string) (lines : list string)
    (acc : Dict.t) (w : World) :
  (forall p, In p (flat_map (v4_line_targets base_dir) lines) -> p ∉ dirs w) ->
  fold_each lines acc (V4.add_header base_dir) w
  = (Ret (collect w acc (flat_map (v4_line_targets base_dir) lines)), w).
Proof.
  revert acc. induction lines as [|line lines IH]; intros acc Hdir;
    [reflexivity|].
  cbn [fold_each flat_map]. rewrite collect_app.
  erewrite bind_ret.
  - apply IH. intros p Hp. apply Hdir. simpl. apply in_or_app. now right.
  - apply v4_add_header_step. intros p Hp. apply Hdir. simpl.
    apply in_or_app. now left.
Qed.

Lemma v3_headers_collected (source_dir : string) (names : list string)
    (acc : Dict.t) (w : World) :
  let resolve := fun h => Path.normpath (Path.join source_dir h) in
  (forall p, In p (map resolve names) -> p ∉ dirs w) ->
  fold_each names acc (V3.add_header source_dir) w
  = (Ret (collect w acc (map resolve names)), w).
Proof.
  intros resolve. revert acc.
  induction names as [|name names IH]; intros acc Hdir; [reflexivity|].
  cbn [fold_each map].
  change (resolve name :: map resolve names)
    with ([resolve name] ++ map resolve names)%list.
  rewrite collect_app. erewrite bind_ret.
  - apply IH. intros p Hp. apply Hdir. now right.
  - unfold V3.add_header. apply enter_target. apply Hdir. now left.
Qed.

End Headers.




(** ** The fuel of the splitting functions is enough

    [Str.split], [Re.finditer] and with it [Re.split] and [Re.findall]
    count their turns down from the length of the text. Each turn takes at
    least one character from the text, so the count never runs out: any
    larger count gives the same result. *)

Section Fuel.
Import Re.

Lemma strip_prefix_length (p s r : string) :
  Str.strip_prefix p s = Some r ->
  String.length s = String.length p + String.length r.
Proof.
  revert s. induction p as [|a p IH]; intros s H.
  - simpl in H. now inversion H.
  - destruct s as [|b s]; [discriminate|]. simpl in H.
    destruct (Chr.eqb a b); [|discriminate].
    simpl. now rewrite (IH s H).
Qed.

Lemma cut_length (sep s a b : string) :
  Str.cut sep s = Some (a, b) ->
  String.length s = String.length a + String.length sep + String.length b.
Proof.
  revert a b. induction s as [|c s IH]; intros a b H; rewrite cut_unfold in H.
  - destruct (Str.strip_prefix sep "") eqn:Hp; [|discriminate].
    inversion H; subst. apply strip_prefix_length in Hp. simpl in *. lia.
  - destruct (Str.strip_prefix sep (String c s)) eqn:Hp.
    + inversion H; subst. apply strip_prefix_length in Hp. simpl in *. lia.
    + destruct (Str.cut sep s) as [[a' b']|]; [|discriminate].
      inversion H; subst. simpl. rewrite (IH a' b eq_refl). lia.
Qed.

Lemma split_fuel_enough (sep s : string) (n m : nat) :
  sep <> "" -> String.length s <= n -> String.length s <= m ->
  Str.split_fuel n sep s = Str.split_fuel m sep s.
Proof.
  intros Hsep. assert (Hpos : 0 < String.length sep).
  { destruct sep; [congruence|simpl; lia]. }
  revert m s. induction n as [|n IH]; intros m s Hn Hm.
  - destruct s; [|simpl in Hn; lia].
    assert (Hc : Str.cut sep "" = None).
    { destruct (Str.cut sep "") as [[a b]|] eqn:Hc; [|reflexivity].
      apply cut_length in Hc. simpl in Hc. lia. }
    destruct m; cbn [Str.split_fuel]; now rewrite Hc.
  - cbn [Str.split_fuel]. destruct (Str.cut sep s) as [[a b]|] eqn:Hc.
    + pose proof (cut_length _ _ _ _ Hc) as Hlen.
      destruct m as [|m]; [lia|]. cbn [Str.split_fuel]. rewrite Hc.
      f_equal. apply IH; lia.
    + destruct m; cbn [Str.split_fuel]; now rewrite Hc.
Qed.

Lemma star_shrinks (p : ascii -> bool) (s : string) (prev : option ascii)
    (k : option ascii -> string -> option result) (c : captures)
    (rest : string) :
  (forall prev' s' c' rest',
      k prev' s' = Some (c', rest') ->
      String.length rest' <= String.length s') ->
  star p prev s k = Some (c, rest) ->
  String.length rest <= String.length s.
Proof.
  intros Hk. revert prev. induction s as [|a s IH]; intros prev H; simpl in H.
  - now apply Hk in H.
  - destruct (p a).
    + destruct (star p (Some a) s k) as [[c' rest']|] eqn:Hs.
      * inversion H; subst. apply IH in Hs. simpl. lia.
      * now apply Hk in H.
    + now apply Hk in H.
Qed.

Lemma run_shrinks (r : regex) (k : cont) :
  shrinking k -> shrinking (fun prev s caps => run r prev s caps k).
Proof.
  revert k. induction r as [l|p|p|p|r IH|r1 IH1 r2 IH2|r1 IH1 r2 IH2|n r IH| |];
    intros k Hk prev s caps c rest H; simpl in H.
  - destruct (Str.strip_prefix l s) as [s'|] eqn:Hp; [|discriminate].
    apply Hk in H. apply strip_prefix_length in Hp. lia.
  - destruct s as [|a s]; [discriminate|].
    destruct (p a); [|discriminate]. apply Hk in H. simpl. lia.
  - apply star_shrinks in H; [exact H|]. intros ? ? ? ? H'. now apply Hk in H'.
  - destruct s as [|a s]; [discriminate|].
    destruct (p a); [|discriminate].
    apply star_shrinks in H; [simpl; lia|].
    intros ? ? ? ? H'. now apply Hk in H'.
  - destruct (run r prev s caps k) as [[c' rest']|] eqn:Hr.
    + inversion H; subst. now apply (IH k Hk) in Hr.
    + now apply Hk in H.
  - destruct (run r1 prev s caps k) as [[c' rest']|] eqn:Hr.
    + inversion H; subst. now apply (IH1 k Hk) in Hr.
    + now apply (IH2 k Hk) in H.
  - apply (IH1 (fun prev' s' caps' => run r2 prev' s' caps' k)) in H;
      [exact H|]. now apply IH2.
  - apply (IH (fun prev' s' caps' =>
                 k prev' s'
                   ((n, Str.take (String.length s - String.length s') s)
                      :: caps'))) in H; [exact H|].
    intros ? ? ? ? ? H'. now apply Hk in H'.
  - destruct (at_bol prev); [|discriminate]. now apply Hk in H.
  - destruct (at_eol s); [|discriminate]. now apply Hk in H.
Qed.

Lemma accept_shrinking : shrinking accept.
Proof. intros prev s caps c rest H. inversion H; subst. lia. Qed.

(** A pattern that begins with a literal text takes that text. *)
Lemma literal_first_consuming (l : string) (r : regex) :
  l <> "" -> consuming (Seq (Lit l) r).
Proof.
  intros Hl prev s c rest H. simpl in H.
  destruct (Str.strip_prefix l s) as [s'|] eqn:Hp; [|discriminate].
  apply (run_shrinks r accept accept_shrinking) in H.
  apply strip_prefix_length in Hp.
  destruct l; [congruence|]. simpl in Hp. lia.
Qed.

Lemma file_marker_consuming : consuming Patterns.FILE_MARKER.
Proof. now apply literal_first_consuming. Qed.

Lemma include_pattern_consuming : consuming Patterns.INCLUDE_PATTERN.
Proof. now apply literal_first_consuming. Qed.

Lemma search_go_after (r : regex) (s before : string) (prev : option ascii)
    (m : rmatch) :
  consuming r -> search_go r before prev s = Some m ->
  String.length (m_after m) < String.length s.
Proof.
  intros Hr. revert before prev.
  induction s as [|a s IH]; intros before prev H; rewrite search_go_unfold in H.
  - destruct (run r prev "" [] accept) as [[c rest]|] eqn:Hrun;
      [|discriminate].
    apply Hr in Hrun. simpl in Hrun. lia.
  - destruct (run r prev (String a s) [] accept) as [[c rest]|] eqn:Hrun.
    + inversion H; subst. now apply Hr in Hrun.
    + apply IH in H. simpl. lia.
Qed.

Lemma finditer_go_enough (r : regex) (n m : nat) (s : string)
    (prev : option ascii) :
  consuming r -> String.length s <= n -> String.length s <= m ->
  finditer_go n r prev s = finditer_go m r prev s.
Proof.
  intros Hr. revert m s prev. induction n as [|n IH]; intros m s prev Hn Hm.
  - destruct m as [|m]; [reflexivity|]. simpl.
    destruct (search_go r "" prev s) as [mm|] eqn:Hs; [|reflexivity].
    apply (search_go_after r s "" prev mm Hr) in Hs. lia.
  - simpl. destruct (search_go r "" prev s) as [mm|] eqn:Hs.
    + pose proof (search_go_after r s "" prev mm Hr Hs) as Hlt.
      destruct m as [|m]; [lia|]. simpl. rewrite Hs.
      f_equal. apply IH; lia.
    + destruct m as [|m]; [reflexivity|]. simpl. now rewrite Hs.
Qed.

(** The count [Str.split] starts from is enough. *)
Lemma split_fuel_total (sep s : string) (n : nat) :
  sep <> "" -> String.length s <= n ->
  Str.split_fuel n sep s = Str.split sep s.
Proof. intros Hsep Hn. now apply split_fuel_enough. Qed.

(** The count [Re.finditer] starts from is enough for the marker of the
    patch parser and for the include pattern. *)
Lemma finditer_fuel_total (r : regex) (s : string) (n : nat) :
  r = Patterns.FILE_MARKER \/ r = Patterns.INCLUDE_PATTERN ->
  String.length s <= n ->
  finditer_go n r None s = finditer r s.
Proof.
  intros Hr Hn. unfold finditer. apply finditer_go_enough; [|exact Hn|lia].
  destruct Hr as [-> | ->];
    [apply file_marker_consuming | apply include_pattern_consuming].
Qed.

End Fuel.

(** ** The completion signal of [builder_v3.py] and [builder.py]

    In the two older files, for every environment, the process ends with
    signal 0 only after a build command has succeeded. *)

Section NoExit.

Lemma no_exit_ret {A} (a : A) : no_exit (ret a).
Proof. intros w c. discriminate. Qed.

Lemma no_exit_raise {A} (e : exn) : no_exit (@raise A e).
Proof. intros w c. discriminate. Qed.

Lemma no_exit_bind {A B} (m : M A) (k : A -> M B) :
  no_exit m -> (forall a, no_exit (k a)) -> no_exit (bind m k).
Proof.
  intros Hm Hk w c. unfold bind. specialize (Hm w).
  destruct (m w) as [[a|e|c'] w1]; simpl in *.
  - apply Hk.
  - discriminate.
  - exfalso. now apply (Hm c').
Qed.

Lemma no_exit_emit (e : event) : no_exit (emit e).
Proof. intros w c. discriminate. Qed.

Lemma no_exit_print (text : string) : no_exit (print text).
Proof. apply no_exit_emit. Qed.

Lemma no_exit_indexed {A} (o : option A) : no_exit (indexed o).
Proof. destruct o; intros w c; discriminate. Qed.

Lemma no_exit_exists (p : string) : no_exit (Fs.exists_ p).
Proof. intros w c. discriminate. Qed.

Lemma no_exit_read (p : string) : no_exit (Fs.read p).
Proof.
  intros w c. unfold Fs.read. destruct (files w !! p); [discriminate|].
  destruct (bool_decide (p ∈ dirs w)); discriminate.
Qed.

Lemma no_exit_write (p text : string) : no_exit (Fs.write p text).
Proof.
  intros w c. unfold Fs.write.
  destruct (bool_decide (p ∈ dirs w)); discriminate.
Qed.

Lemma no_exit_copy (src dst : string) : no_exit (Fs.copy src dst).
Proof.
  apply no_exit_bind; [apply no_exit_read|]. intros a. apply no_exit_write.
Qed.

Lemma no_exit_makedirs (p : string) : no_exit (Fs.makedirs p).
Proof. intros w c. discriminate. Qed.

Lemma no_exit_run_command (E : Env) (argv : list string) :
  no_exit (Common.run_command E argv).
Proof.
  apply no_exit_bind; [apply no_exit_print|]. intros _ w c.
  destruct (subprocess_run E argv w) as [[ok out]|]; discriminate.
Qed.

Lemma no_exit_chat (E : Env) (prompt : string) :
  no_exit (Common.chat E prompt).
Proof. intros w c. discriminate. Qed.

Lemma no_exit_try_except {A} (m h : M A) (catches : exn -> bool) :
  no_exit m -> no_exit h -> no_exit (try_except m catches h).
Proof.
  intros Hm Hh w c. unfold try_except. specialize (Hm w).
  destruct (m w) as [[a|e|c'] w1]; simpl in *; try discriminate.
  - destruct (catches e); [apply Hh|discriminate].
  - exfalso. now apply (Hm c').
Qed.

Lemma no_exit_fold_each {A S} (l : list A) (acc : S) (body : S -> A -> M S) :
  (forall acc x, no_exit (body acc x)) -> no_exit (fold_each l acc body).
Proof.
  intros Hbody. revert acc. induction l as [|x l IH]; intros acc; simpl.
  - apply no_exit_ret.
  - apply no_exit_bind; [apply Hbody|]. intros acc'. apply IH.
Qed.

Lemma no_exit_if {A} (b : bool) (m1 m2 : M A) :
  no_exit m1 -> no_exit m2 -> no_exit (if b then m1 else m2).
Proof. now destruct b. Qed.

End NoExit.

Create HintDb no_exit.

#[local] Hint Resolve no_exit_ret no_exit_raise no_exit_print no_exit_indexed
  no_exit_exists no_exit_read no_exit_write no_exit_copy no_exit_makedirs
  no_exit_run_command no_exit_chat : no_exit.

Ltac no_exit :=
  repeat first
    [ progress auto with no_exit
    | apply no_exit_bind; [|intros ?]
    | apply no_exit_if
    | apply no_exit_try_except
    | apply no_exit_fold_each; intros ? ?
    | match goal with
      | |- no_exit (match ?x with _ => _ end) => destruct x
      | |- no_exit (let '(_, _) := ?x in _) => destruct x
      end ].

Section NoExitAgent.
Variable E : Env.

Lemma v3_rewrite_files_no_exit (parts : list string) :
  no_exit (V3.rewrite_files parts).
Proof.
  induction parts as [|x|x y parts IH] using pairs_ind; simpl.
  - apply no_exit_ret.
  - apply no_exit_raise.
  - apply no_exit_bind; [|intros _; exact IH].
    unfold V3.rewrite_file. no_exit.
Qed.

Lemma v3_build_no_exit : no_exit (V3.build E).
Proof. unfold V3.build, V3.run_command. no_exit. Qed.

Lemma v3_repair_no_exit (build_log : string) : no_exit (V3.repair E build_log).
Proof.
  unfold V3.repair, V3.get_related_headers, V3.get_ai_fix,
    V3.parse_and_apply_fixes.
  no_exit. apply v3_rewrite_files_no_exit.
Qed.

Lemma v3_build_project_no_exit : no_exit (V3.build_project E).
Proof.
  unfold V3.build_project.
  apply no_exit_bind; [apply v3_build_no_exit|]. intros [[[|] log]|].
  - no_exit.
  - apply v3_repair_no_exit.
  - no_exit.
Qed.

Lemma v1_configure_no_exit : no_exit (V1.configure E).
Proof. unfold V1.configure, V1.run_command. no_exit. Qed.

Lemma v1_build_no_exit : no_exit (V1.build E).
Proof. unfold V1.build, V1.run_command. no_exit. Qed.

Lemma v1_repair_no_exit (build_log : string) : no_exit (V1.repair E build_log).
Proof.
  unfold V1.repair, V1.get_ai_fix, V1.extract_code, index. no_exit.
Qed.

Lemma v1_build_project_no_exit : no_exit (V1.build_project E).
Proof.
  unfold V1.build_project.
  apply no_exit_bind; [apply v1_configure_no_exit|]. intros [[[|] log]|].
  - apply no_exit_bind; [apply v1_build_no_exit|]. intros [[|] build_log].
    + no_exit.
    + apply v1_repair_no_exit.
  - no_exit.
  - no_exit.
Qed.

End NoExitAgent.

Section Returns.

Lemma bind_inv {A B} (m : M A) (k : A -> M B) (w w' : World) (b : B) :
  bind m k w = (Ret b, w') ->
  exists a w1, m w = (Ret a, w1) /\ k a w1 = (Ret b, w').
Proof.
  unfold bind. destruct (m w) as [[a|e|c] w1]; intros H;
    try discriminate. eauto.
Qed.

Lemma returns_ret {A} (Q : A -> Prop) (a : A) : Q a -> returns_only Q (ret a).
Proof. intros HQ w a' w' H. inversion H; subst. exact HQ. Qed.

Lemma returns_bind {A B} (Q : B -> Prop) (m : M A) (k : A -> M B) :
  (forall a, returns_only Q (k a)) -> returns_only Q (bind m k).
Proof.
  intros Hk w b w' H. apply bind_inv in H as (a & w1 & _ & H).
  now apply (Hk a w1 b w').
Qed.

Lemma for_each_exit_inv {A} (l : list A) (body : A -> M unit)
    (w w' : World) (c : nat) :
  for_each l body w = (SysExit c, w') ->
  exists x w0, In x l /\ body x w0 = (SysExit c, w').
Proof.
  revert w. induction l as [|x l IH]; intros w H; simpl in H.
  - discriminate.
  - unfold bind in H. destruct (body x w) as [[[]|e|c'] w1] eqn:Hx.
    + apply IH in H as (y & w0 & Hin & Hy). exists y, w0. split; [now right|exact Hy].
    + discriminate.
    + inversion H; subst. exists x, w. split; [now left|exact Hx].
Qed.

End Returns.

Section Success.
Variable E : Env.

Lemma succeeded_app (w : World) (t : list event) :
  succeeded w -> succeeded (MkWorld (files w) (dirs w) (trace w ++ t)).
Proof.
  unfold succeeded. simpl. rewrite count_app. lia.
Qed.

Lemma succeeded_print (text : string) (w w' : World) (r : outcome unit) :
  succeeded w -> print text w = (r, w') -> succeeded w'.
Proof.
  intros Hs H. inversion H; subst. now apply succeeded_app.
Qed.

(** A build command that reports success leaves its mark on the trace. *)
Lemma run_build_succeeded (w w' : World) (out : string) :
  Common.run_command E Obs.BUILD w = (Ret (true, out), w') -> succeeded w'.
Proof.
  intros H. unfold Common.run_command in H.
  apply bind_inv in H as ([] & w1 & _ & H).
  destruct (subprocess_run E Obs.BUILD w1) as [[ok out']|]; [|discriminate].
  inversion H; subst. unfold succeeded. simpl. rewrite count_app.
  unfold Obs.count at 2. simpl. lia.
Qed.

(** [builder_v3.py] *)

Lemma v3_build_succeeded (w w' : World) (log : string) :
  V3.build E w = (Ret (Some (true, log)), w') -> succeeded w'.
Proof.
  intros H. unfold V3.build in H.
  apply bind_inv in H as (cmakelists & w1 & _ & H).
  destruct cmakelists; simpl in H.
  - repeat (apply bind_inv in H as (? & ? & ? & H)).
    inversion H; subst.
    match goal with
    | Hrun : V3.run_command E _ _ = (Ret (true, _), _) |- _ =>
        now apply run_build_succeeded in Hrun
    end.
  - apply bind_inv in H as (? & ? & _ & H). discriminate.
Qed.

Lemma v3_repair_returns_false (build_log : string) :
  returns_only (fun b => b = false) (V3.repair E build_log).
Proof.
  unfold V3.repair. apply returns_bind. intros _.
  destruct (V3.find_culprit_file build_log) as [[[file_path line] msg]|].
  - apply returns_bind. intros _. apply returns_bind. intros [source_code|].
    + repeat (apply returns_bind; intros ?). now apply returns_ret.
    + now apply returns_ret.
  - repeat (apply returns_bind; intros ?). now apply returns_ret.
Qed.

Lemma v3_build_project_true (w w' : World) :
  V3.build_project E w = (Ret true, w') -> succeeded w'.
Proof.
  intros H. unfold V3.build_project in H.
  apply bind_inv in H as (built & w1 & Hbuild & H).
  destruct built as [[[|] log]|].
  - apply v3_build_succeeded in Hbuild.
    apply bind_inv in H as ([] & w2 & Hprint & H).
    inversion H; subst. now apply (succeeded_print _ _ _ _ Hbuild Hprint).
  - now apply v3_repair_returns_false in H.
  - discriminate.
Qed.

Lemma v3_attempt_exit (attempt : nat) (w w' : World) (c : nat) :
  V3.attempt_body E attempt w = (SysExit c, w') -> c = 0 /\ succeeded w'.
Proof.
  unfold V3.attempt_body, bind. cbn [print emit]. intros H.
  destruct (V3.build_project E _) as [[[|]|e|c'] w1] eqn:Hb;
    try discriminate.
  - inversion H; subst. split; [reflexivity|].
    now apply v3_build_project_true in Hb.
  - exfalso. eapply (v3_build_project_no_exit E). now rewrite Hb.
Qed.

(** The process of [builder_v3.py] ends with signal 0 only after a
    successful build, with signal 1 in every other case. *)
Lemma v3_signal_zero_only_after_success (w : World) :
  let '(signal, w') := Obs.run_process (V3.main E) w in
  (signal = 0 /\ succeeded w') \/ signal = 1.
Proof.
  unfold Obs.run_process, V3.main. unfold bind at 1.
  destruct (for_each _ _ w) as [[[]|e|c] w1] eqn:Hloop; simpl.
  - now right.
  - now right.
  - left. apply for_each_exit_inv in Hloop as (x & w0 & _ & Hx).
    now apply v3_attempt_exit in Hx.
Qed.

(** [builder.py] *)

Lemma v1_build_succeeded (w w' : World) (log : string) :
  V1.build E w = (Ret (true, log), w') -> succeeded w'.
Proof.
  intros H. unfold V1.build in H.
  apply bind_inv in H as ([] & w1 & _ & H).
  now apply run_build_succeeded in H.
Qed.

Lemma v1_repair_returns_false (build_log : string) :
  returns_only (fun b => b = false) (V1.repair E build_log).
Proof.
  unfold V1.repair. apply returns_bind. intros _.
  destruct (V1.find_culprit_file E build_log) as [[[file_path line] msg]|].
  - do 2 (apply returns_bind; intros _).
    apply returns_bind. intros [original_code|].
    + repeat (apply returns_bind; intros ?). now apply returns_ret.
    + now apply returns_ret.
  - repeat (apply returns_bind; intros ?). now apply returns_ret.
Qed.

Lemma v1_build_project_true (w w' : World) :
  V1.build_project E w = (Ret true, w') -> succeeded w'.
Proof.
  intros H. unfold V1.build_project in H.
  apply bind_inv in H as (configured & w1 & _ & H).
  destruct configured as [[[|] config_log]|].
  - apply bind_inv in H as ([[|] build_log] & w2 & Hbuild & H).
    + apply v1_build_succeeded in Hbuild.
      apply bind_inv in H as ([] & w3 & Hprint & H).
      inversion H; subst. now apply (succeeded_print _ _ _ _ Hbuild Hprint).
    + now apply v1_repair_returns_false in H.
  - repeat (apply bind_inv in H as (? & ? & _ & H)). discriminate.
  - discriminate.
Qed.

Lemma v1_main_loop_exit (remaining attempt : nat) (w w' : World) (c : nat) :
  V1.main_loop E remaining attempt w = (SysExit c, w') ->
  c = 0 /\ succeeded w'.
Proof.
  revert attempt w. induction remaining as [|n IH]; intros attempt w H;
    simpl in H; [discriminate|].
  unfold bind at 1 in H. cbn [print emit] in H. unfold bind at 1 in H.
  destruct (V1.build_project E _) as [[[|]|e|c'] w1] eqn:Hb;
    try discriminate.
  - apply v1_build_project_true in Hb.
    unfold bind in H. cbn [print emit sys_exit] in H.
    inversion H; subst. split; [reflexivity|]. now apply succeeded_app.
  - now apply IH in H.
  - exfalso. eapply (v1_build_project_no_exit E). now rewrite Hb.
Qed.

(** The same for the process of [builder.py]. *)
Lemma v1_signal_zero_only_after_success (w : World) :
  let '(signal, w') := Obs.run_process (V1.main E) w in
  (signal = 0 /\ succeeded w') \/ signal = 1.
Proof.
  unfold Obs.run_process, V1.main. unfold bind at 1.
  destruct (V1.main_loop E _ _ w) as [[[]|e|c] w1] eqn:Hloop; simpl.
  - now right.
  - now right.
  - left. now apply v1_main_loop_exit in Hloop.
Qed.

End Success.

(** * Further properties of the code *)

(** ** Cutting and splitting texts *)

Section Cutting.
Local Arguments Chr.eqb : simpl never.

Lemma all_in_app (p : ascii -> bool) (a b : string) :
  all_in p (a ++ b) = all_in p a && all_in p b.
Proof.
  induction a as [|c a IH]; [reflexivity|].
  rewrite append_cons. simpl. rewrite IH. now rewrite andb_assoc.
Qed.

Lemma all_in_rev_onto (p : ascii -> bool) (s acc : string) :
  all_in p (Str.rev_onto s acc) = all_in p s && all_in p acc.
Proof.
  revert acc. induction s as [|c s IH]; intros acc; [reflexivity|].
  simpl. rewrite IH. simpl. now destruct (p c), (all_in p s).
Qed.

Lemma all_in_rev (p : ascii -> bool) (s : string) :
  all_in p (Str.rev s) = all_in p s.
Proof. unfold Str.rev. rewrite all_in_rev_onto. simpl. apply andb_true_r. Qed.


(** A separator cannot begin where its first character does not occur. *)
Lemma cut_lacks (c : ascii) (sep s : string) :
  lacks c s = true -> Str.cut (String c sep) s = None.
Proof.
  induction s as [|x s IH]; intros H; [reflexivity|].
  unfold lacks in *. simpl in H. apply andb_true_iff in H as [Hx Hs].
  apply negb_true_iff in Hx. rewrite cut_unfold. simpl. rewrite Hx.
  now rewrite (IH Hs).
Qed.

(** The first occurrence of the separator is the one that follows a text
    without its first character. *)
Lemma cut_fresh (c : ascii) (sep a b : string) :
  lacks c a = true ->
  Str.cut (String c sep) (a ++ String c sep ++ b) = Some (a, b).
Proof.
  induction a as [|x a IH]; intros H.
  - change ("" ++ String c sep ++ b) with (String c sep ++ b).
    rewrite cut_unfold. now rewrite strip_prefix_app.
  - unfold lacks in *. simpl in H. apply andb_true_iff in H as [Hx Ha].
    apply negb_true_iff in Hx. rewrite append_cons, cut_unfold.
    simpl. rewrite Hx. now rewrite (IH Ha).
Qed.

Lemma contains_lacks (c : ascii) (needle s : string) :
  lacks c s = true -> Str.contains (String c needle) s = false.
Proof.
  induction s as [|x s IH]; intros H; [reflexivity|].
  unfold lacks in *. simpl in H. apply andb_true_iff in H as [Hx Hs].
  apply negb_true_iff in Hx. simpl. unfold Str.startswith. simpl.
  rewrite Hx. now apply IH.
Qed.

Lemma contains_app (needle a b : string) :
  Str.contains needle (a ++ needle ++ b) = true.
Proof.
  induction a as [|x a IH].
  - change ("" ++ needle ++ b) with (needle ++ b).
    destruct (needle ++ b) eqn:Hs; simpl; unfold Str.startswith;
      rewrite <- Hs, strip_prefix_app; reflexivity.
  - rewrite append_cons. simpl. rewrite IH.
    now destruct (Str.startswith (String x (a ++ needle ++ b)) needle).
Qed.

Lemma split_fuel_unfold (n : nat) (sep s : string) :
  Str.split_fuel n sep s =
  match Str.cut sep s with
  | None => [s]
  | Some (a, b) =>
      match n with
      | O => [a; b]
      | S n' => a :: Str.split_fuel n' sep b
      end
  end.
Proof. destruct n; reflexivity. Qed.

Lemma length_with_separator (c : ascii) (sep a r : string) :
  String.length (a ++ String c sep ++ r)
  = S (String.length a + String.length (sep ++ r)).
Proof.
  rewrite length_append, append_cons. cbn [String.length]. lia.
Qed.

(** The field between the first two separators. *)
Lemma split_second (c : ascii) (sep a b rest : string) :
  lacks c a = true -> lacks c b = true ->
  nth_error
    (Str.split (String c sep) (a ++ String c sep ++ b ++ String c sep ++ rest))
    1
  = Some b.
Proof.
  intros Ha Hb. unfold Str.split. rewrite length_with_separator.
  rewrite split_fuel_unfold, (cut_fresh c sep a _ Ha).
  rewrite split_fuel_unfold, (cut_fresh c sep b _ Hb).
  rewrite length_append, length_with_separator.
  now rewrite Nat.add_succ_r, Nat.add_succ_r.
Qed.

(** The field after the only separator. *)
Lemma split_second_last (c : ascii) (sep a b : string) :
  lacks c a = true -> lacks c b = true ->
  nth_error (Str.split (String c sep) (a ++ String c sep ++ b)) 1 = Some b.
Proof.
  intros Ha Hb. unfold Str.split. rewrite length_with_separator.
  rewrite split_fuel_unfold, (cut_fresh c sep a _ Ha).
  now rewrite split_fuel_unfold, (cut_lacks c sep b Hb).
Qed.

(** [rsplit] at a separator that does not occur. *)
Lemma rsplit1_lacks (s : string) :
  lacks Chr.BACKTICK s = true -> Str.rsplit1 "```" s = [s].
Proof.
  intros H. unfold Str.rsplit1.
  change (Str.rev "```") with (String Chr.BACKTICK "``").
  rewrite cut_lacks; [reflexivity|].
  unfold lacks. now rewrite all_in_rev.
Qed.




End Cutting.

(** ** The code of a fenced block *)

Section Fences.
Local Arguments Chr.eqb : simpl never.

Lemma bind_ret_l {A B} (a : A) (k : A -> M B) (w : World) :
  bind (ret a) k w = k a w.
Proof. reflexivity. Qed.

Lemma fence_literal : "```" = String Chr.BACKTICK "``".
Proof. reflexivity. Qed.

Lemma lacks_app (c : ascii) (a b : string) :
  lacks c (a ++ b) = lacks c a && lacks c b.
Proof. apply all_in_app. Qed.

Lemma startswith_c (tag rest : string) :
  (Str.startswith (tag ++ Str.nl ++ rest) "cpp"
   || Str.startswith (tag ++ Str.nl ++ rest) "c")%bool
  = Str.startswith tag "c".
Proof.
  destruct tag as [|t tag]; [reflexivity|].
  rewrite append_cons. unfold Str.startswith. simpl.
  destruct (Chr.eqb "c" t); [apply orb_true_r|reflexivity].
Qed.

(** The text between the first two fences. *)
Lemma first_fenced (pre code post : string) :
  lacks Chr.BACKTICK pre = true -> lacks Chr.BACKTICK code = true ->
  nth_error (Str.split "```" (pre ++ "```" ++ code ++ "```" ++ post)) 1
  = Some code.
Proof. intros Hp Hc. rewrite fence_literal. now apply split_second. Qed.

End Fences.

(** X1. The block that follows a marker holds a fenced region whose first
    line is a language tag. When the tag begins with [c] ([cpp], [c],
    [cc]), the code kept is the text between the end of that line and the
    closing fence. Any other tag ([hpp], [h], [python]) is not taken for a
    tag: it stays in the code, as its first line, and with it in the file
    that is written. *)
Theorem fenced_block_is_extracted (pre tag body post : string) :
  lacks Chr.BACKTICK pre = true ->
  lacks Chr.BACKTICK tag = true ->
  lacks Chr.BACKTICK body = true ->
  lacks Chr.LF tag = true ->
  Common.block_code (pre ++ "```" ++ tag ++ Str.nl ++ body ++ "```" ++ post)
  = Some (if Str.startswith tag "c" then body else tag ++ Str.nl ++ body).
Proof.
  intros Hpre Htag Hbody Hline.
  assert (Hcode : lacks Chr.BACKTICK (tag ++ Str.nl ++ body) = true).
  { rewrite !lacks_app, Htag, Hbody. reflexivity. }
  unfold Common.block_code. rewrite contains_app.
  replace (pre ++ "```" ++ tag ++ Str.nl ++ body ++ "```" ++ post)
    with (pre ++ "```" ++ (tag ++ Str.nl ++ body) ++ "```" ++ post)
    by now rewrite !append_assoc.
  rewrite (first_fenced _ _ _ Hpre Hcode). cbn [mbind option_bind].
  rewrite startswith_c.
  destruct (Str.startswith tag "c").
  - unfold Str.split1, Str.nl. rewrite (cut_fresh Chr.LF "" tag body Hline).
    cbn [nth_error mbind option_bind]. now rewrite (rsplit1_lacks _ Hbody).
  - cbn [mbind option_bind]. now rewrite (rsplit1_lacks _ Hcode).
Qed.

Lemma fenced_block_is_extracted_witness :
  Common.block_code
    ("Here is the header:" ++ Str.nl ++ "```" ++ "hpp" ++ Str.nl
       ++ "struct B;" ++ Str.nl ++ "```" ++ " Done.")
  = Some ("hpp" ++ Str.nl ++ "struct B;" ++ Str.nl).
Proof.
  apply (fenced_block_is_extracted ("Here is the header:" ++ Str.nl) "hpp"
           ("struct B;" ++ Str.nl) " Done."); reflexivity.
Defined.

(** X2. [extract_code] of [builder.py] on an answer with a fenced region:
    the first line after the opening fence is dropped, whatever it holds,
    and the result is the text up to the closing fence, trimmed. An answer
    in which no backtick occurs comes back as it is, untrimmed. *)
Theorem fenced_answer_is_extracted (pre tag body post plain : string)
    (w : World) :
  lacks Chr.BACKTICK pre = true ->
  lacks Chr.BACKTICK tag = true ->
  lacks Chr.BACKTICK body = true ->
  lacks Chr.LF tag = true ->
  lacks Chr.BACKTICK plain = true ->
  V1.extract_code (pre ++ "```" ++ tag ++ Str.nl ++ body ++ "```" ++ post) w
  = (Ret (Str.strip body), w)
  /\ V1.extract_code plain w = (Ret plain, w).
Proof.
  intros Hpre Htag Hbody Hline Hplain. split.
  - assert (Hcode : lacks Chr.BACKTICK (tag ++ Str.nl ++ body) = true).
    { rewrite !lacks_app, Htag, Hbody. reflexivity. }
    unfold V1.extract_code. rewrite contains_app.
    replace (pre ++ "```" ++ tag ++ Str.nl ++ body ++ "```" ++ post)
      with (pre ++ "```" ++ (tag ++ Str.nl ++ body) ++ "```" ++ post)
      by now rewrite !append_assoc.
    unfold index. rewrite (first_fenced _ _ _ Hpre Hcode).
    cbn [indexed]. rewrite bind_ret_l.
    unfold Str.split1, Str.nl. rewrite (cut_fresh Chr.LF "" tag body Hline).
    cbn [nth_error indexed]. rewrite bind_ret_l.
    now rewrite (rsplit1_lacks _ Hbody).
  - unfold V1.extract_code. rewrite fence_literal.
    now rewrite (contains_lacks _ _ _ Hplain).
Qed.

Lemma fenced_answer_is_extracted_witness :
  V1.extract_code
    ("Fixed:" ++ Str.nl ++ "```" ++ "cpp" ++ Str.nl
       ++ "int main(){ return 0; }" ++ Str.nl ++ "```" ++ "") Scenario.project
  = (Ret "int main(){ return 0; }", Scenario.project)
  /\ V1.extract_code "int main(){}" Scenario.project
     = (Ret "int main(){}", Scenario.project).
Proof.
  apply (fenced_answer_is_extracted ("Fixed:" ++ Str.nl) "cpp"
           ("int main(){ return 0; }" ++ Str.nl) "" "int main(){}");
    reflexivity.
Defined.

(** X3. A fenced region without a line break makes the parser raise
    [IndexError]: in [builder.py] always, in [builder_v3.py] and
    [builder_v4.py] when the text between the fences begins with [c], which
    the parser takes for a language tag. *)
Theorem fence_without_newline_raises (pre code post : string) (w : World) :
  lacks Chr.BACKTICK pre = true ->
  lacks Chr.BACKTICK code = true ->
  lacks Chr.LF code = true ->
  V1.extract_code (pre ++ "```" ++ code ++ "```" ++ post) w
  = (Raise IndexError, w)
  /\ (Str.startswith code "c" = true ->
      Common.block_code (pre ++ "```" ++ code ++ "```" ++ post) = None
      /\ V4.write_blocks ["a.cpp"; pre ++ "```" ++ code ++ "```" ++ post] w
         = (Raise IndexError, w)
      /\ V3.rewrite_files ["a.cpp"; pre ++ "```" ++ code ++ "```" ++ post] w
         = (Raise IndexError, w)).
Proof.
  intros Hpre Hcode Hline.
  assert (Hcut : Str.split1 Str.nl code = [code]).
  { unfold Str.split1, Str.nl. now rewrite (cut_lacks Chr.LF "" code Hline). }
  split.
  - unfold V1.extract_code. rewrite contains_app. unfold index.
    rewrite (first_fenced _ _ _ Hpre Hcode).
    cbn [indexed]. rewrite bind_ret_l. now rewrite Hcut.
  - intros Hc.
    assert (Hnone : Common.block_code (pre ++ "```" ++ code ++ "```" ++ post)
                    = None).
    { unfold Common.block_code. rewrite contains_app.
      rewrite (first_fenced _ _ _ Hpre Hcode). cbn [mbind option_bind].
      rewrite Hc, orb_true_r. now rewrite Hcut. }
    split; [exact Hnone|]. split.
    + cbn [V4.write_blocks]. now rewrite Hnone.
    + cbn [V3.rewrite_files]. unfold V3.rewrite_file. now rewrite Hnone.
Qed.

Lemma fence_without_newline_raises_witness :
  V1.extract_code ("Use " ++ "```" ++ "char c = 0;" ++ "```" ++ " here.")
    Scenario.project
  = (Raise IndexError, Scenario.project)
  /\ Common.block_code ("Use " ++ "```" ++ "char c = 0;" ++ "```" ++ " here.")
     = None.
Proof.
  destruct (fence_without_newline_raises "Use " "char c = 0;" " here."
              Scenario.project) as [H1 H2]; try reflexivity.
  split; [exact H1|]. now apply H2.
Defined.

(** ** The patterns on well-formed lines *)

Section Components.
Import Re.
Local Arguments Chr.eqb : simpl never.

Lemma all_in_nonempty_stops (p : ascii -> bool) (u v : string) :
  u <> "" -> stops p u = true -> stops p (u ++ v) = true.
Proof. destruct u as [|c u]; [congruence|]. now rewrite append_cons. Qed.

Lemma run_seq (r1 r2 : regex) (prev : option ascii) (s : string)
    (caps : captures) (k : cont) :
  run (Seq r1 r2) prev s caps k
  = run r1 prev s caps (fun prev' s' caps' => run r2 prev' s' caps' k).
Proof. reflexivity. Qed.

Lemma run_lit (l v : string) (prev : option ascii) (caps : captures)
    (k : cont) :
  run (Lit l) prev (l ++ v) caps k = k (last_of l prev) v caps.
Proof. cbn [run]. now rewrite strip_prefix_app. Qed.

Lemma run_plus (p : ascii -> bool) (u v : string) (prev : option ascii)
    (caps : captures) (k : cont) (r : result) :
  u <> "" -> all_in p u = true -> stops p v = true ->
  k (last_of u prev) v caps = Some r ->
  run (Plus p) prev (u ++ v) caps k = Some r.
Proof.
  intros Hne Hall Hstop Hk. destruct u as [|c u]; [congruence|].
  simpl in Hall. apply andb_true_iff in Hall as [Hc Hall].
  rewrite append_cons. cbn [run]. rewrite Hc.
  now apply star_run.
Qed.

Lemma run_group_plus (n : nat) (p : ascii -> bool) (u v : string)
    (prev : option ascii) (caps : captures) (k : cont) (r : result) :
  u <> "" -> all_in p u = true -> stops p v = true ->
  k (last_of u prev) v ((n, u) :: caps) = Some r ->
  run (Group n (Plus p)) prev (u ++ v) caps k = Some r.
Proof.
  intros Hne Hall Hstop Hk. cbn [run].
  apply (run_plus p u v prev caps
           (fun prev' s' caps' =>
              k prev' s'
                ((n, Str.take (String.length (u ++ v) - String.length s')
                       (u ++ v)) :: caps'))); try assumption.
  now rewrite take_app.
Qed.

Lemma run_opt_skip (r1 : regex) (prev : option ascii) (s : string)
    (caps : captures) (k : cont) :
  run r1 prev s caps k = None ->
  run (Opt r1) prev s caps k = k prev s caps.
Proof. intros H. cbn [run]. now rewrite H. Qed.

Lemma run_opt_take (r1 : regex) (prev : option ascii) (s : string)
    (caps : captures) (k : cont) (r : result) :
  run r1 prev s caps k = Some r ->
  run (Opt r1) prev s caps k = Some r.
Proof. intros H. cbn [run]. now rewrite H. Qed.

Lemma search_at_start (r : regex) (s rest : string) (caps : captures) :
  run r None s [] accept = Some (caps, rest) ->
  search r s = Some (MkMatch "" caps rest).
Proof.
  intros H. unfold search. rewrite search_go_unfold. now rewrite H.
Qed.

Lemma at_eol_stops (rest : string) :
  at_eol rest = true -> stops (Chr.isnot [Chr.LF]) rest = true.
Proof.
  destruct rest as [|c rest]; [reflexivity|]. simpl. intros H.
  unfold Chr.isnot. simpl. rewrite H. reflexivity.
Qed.

(** The tail of the compile pattern, from the word [error:] on. *)
Lemma run_error_tail (msg rest : string) (prev : option ascii)
    (caps : captures) :
  msg <> "" -> all_in (Chr.isnot [Chr.LF]) msg = true ->
  stops Chr.isspace msg = true -> at_eol rest = true ->
  run (Seq (Lit "error:")
         (Seq (Plus Chr.isspace)
            (Seq (Group 4 (Plus (Chr.isnot [Chr.LF]))) Eol)))
    prev ("error: " ++ msg ++ rest) caps accept
  = Some ((4, msg) :: caps, rest).
Proof.
  intros Hne Hall Hstop Heol.
  change ("error: " ++ msg ++ rest) with ("error:" ++ " " ++ msg ++ rest).
  rewrite run_seq, run_lit, run_seq.
  apply run_plus;
    [discriminate|reflexivity|now apply all_in_nonempty_stops|].
  rewrite run_seq.
  apply run_group_plus; try assumption; [now apply at_eol_stops|].
  cbn [run]. now rewrite Heol.
Qed.

Lemma run_bol (prev : option ascii) (s : string) (caps : captures)
    (k : cont) :
  at_bol prev = true -> run Bol prev s caps k = k prev s caps.
Proof. intros H. cbn [run]. now rewrite H. Qed.

(** The compile pattern on a diagnostic line at the head of the log. *)
Lemma run_compile_pattern (path line col msg rest : string) (fatal : bool) :
  path <> "" -> all_in (Chr.isnot [Chr.COLON; Chr.LF]) path = true ->
  line <> "" -> all_in Chr.isdigit line = true ->
  col <> "" -> all_in Chr.isdigit col = true ->
  msg <> "" -> all_in (Chr.isnot [Chr.LF]) msg = true ->
  stops Chr.isspace msg = true -> at_eol rest = true ->
  run Patterns.COMPILE_ERROR_PATTERN None
    (path ++ ":" ++ line ++ ":" ++ col ++ ": "
       ++ (if fatal then "fatal " else "") ++ "error: " ++ msg ++ rest)
    [] accept
  = Some ([(4, msg); (3, col); (2, line); (1, path)], rest).
Proof.
  intros Hp Hpath Hl Hline Hc Hcol Hm Hmsg Hstop Heol.
  unfold Patterns.COMPILE_ERROR_PATTERN.
  rewrite run_seq, run_bol by reflexivity.
  rewrite run_seq. apply run_group_plus; [assumption..|reflexivity|].
  cbv beta. rewrite run_seq, run_lit.
  rewrite run_seq. apply run_group_plus; [assumption..|reflexivity|].
  cbv beta. rewrite run_seq, run_lit.
  rewrite run_seq. apply run_group_plus; [assumption..|reflexivity|].
  cbv beta.
  change (": " ++ (if fatal then "fatal " else "") ++ "error: " ++ msg ++ rest)
    with (":" ++ " " ++ (if fatal then "fatal " else "") ++ "error: "
            ++ msg ++ rest).
  rewrite run_seq, run_lit. rewrite run_seq.
  destruct fatal.
  - change ("fatal " ++ "error: " ++ msg ++ rest)
      with ("fatal" ++ " " ++ "error: " ++ msg ++ rest).
    apply run_plus; [discriminate|reflexivity|reflexivity|].
    rewrite run_seq. apply run_opt_take.
    rewrite run_seq, run_lit.
    apply run_plus; [discriminate|reflexivity|reflexivity|].
    now apply run_error_tail.
  - change ("" ++ "error: " ++ msg ++ rest) with ("error: " ++ msg ++ rest).
    apply run_plus; [discriminate|reflexivity|reflexivity|].
    rewrite run_seq, run_opt_skip by reflexivity.
    now apply run_error_tail.
Qed.

End Components.

(** X4. A diagnostic in the format of GCC and Clang at the head of the
    log, [path:line:column: error: message] or the same with [fatal
    error:], is read back field by field: [find_culprit_file] of
    [builder_v3.py] returns the path, the line and the message, and
    [analyze_and_fix] of [builder_v4.py] takes the build for a compile
    error in that path. The path is any text without colon or line break,
    the message any text of one line that does not begin with white
    space. *)
Theorem diagnostic_line_is_parsed
    (path line col msg rest : string) (fatal : bool) :
  path <> "" -> all_in (Chr.isnot [Chr.COLON; Chr.LF]) path = true ->
  line <> "" -> all_in Chr.isdigit line = true ->
  col <> "" -> all_in Chr.isdigit col = true ->
  msg <> "" -> all_in (Chr.isnot [Chr.LF]) msg = true ->
  stops Chr.isspace msg = true -> Re.at_eol rest = true ->
  let log := path ++ ":" ++ line ++ ":" ++ col ++ ": "
               ++ (if fatal then "fatal " else "") ++ "error: " ++ msg
               ++ rest in
  V3.find_culprit_file log = Some (path, line, msg)
  /\ V4.diagnose log = V4.CompileError path.
Proof.
  intros Hp Hpath Hl Hline Hc Hcol Hm Hmsg Hstop Heol log.
  pose proof (run_compile_pattern path line col msg rest fatal
                Hp Hpath Hl Hline Hc Hcol Hm Hmsg Hstop Heol) as Hrun.
  apply search_at_start in Hrun. fold log in Hrun.
  unfold V3.find_culprit_file, V4.diagnose, Patterns.ERROR_PATTERN.
  rewrite Hrun. split; reflexivity.
Qed.

Lemma diagnostic_line_is_parsed_witness :
  V3.find_culprit_file
    ("src/io.cpp" ++ ":" ++ "42" ++ ":" ++ "7" ++ ": " ++ "fatal "
       ++ "error: " ++ "cfg.h: No such file or directory"
       ++ (Str.nl ++ "compilation terminated."))
  = Some ("src/io.cpp", "42", "cfg.h: No such file or directory").
Proof.
  apply (diagnostic_line_is_parsed "src/io.cpp" "42" "7"
           "cfg.h: No such file or directory"
           (Str.nl ++ "compilation terminated.") true);
    (discriminate || reflexivity).
Defined.

(** ** The linker pattern *)

Section Linker.
Import Re.
Local Arguments Chr.eqb : simpl never.

Lemma chr_eqb_sym (a b : ascii) : Chr.eqb a b = Chr.eqb b a.
Proof.
  unfold Chr.eqb.
  destruct (Ascii.eqb_spec a b), (Ascii.eqb_spec b a); congruence.
Qed.

(** A literal that failed on [q] still fails when [q] is followed by a
    character the literal does not hold. *)
Lemma strip_prefix_none_app (c : ascii) (l q m : string) :
  lacks c l = true -> Str.strip_prefix l q = None ->
  Str.strip_prefix l (q ++ String c m) = None.
Proof.
  revert q. induction l as [|a l IH]; intros q Hl H; [discriminate|].
  unfold lacks in Hl. simpl in Hl. apply andb_true_iff in Hl as [Ha Hl].
  apply negb_true_iff in Ha.
  destruct q as [|b q].
  - change ("" ++ String c m) with (String c m). simpl.
    now rewrite chr_eqb_sym, Ha.
  - rewrite append_cons. simpl in *.
    destruct (Chr.eqb a b); [|reflexivity]. now apply IH.
Qed.

(** A literal whose first character does not come back in it cannot
    begin inside a text in which it does not begin, whatever follows. *)
Lemma literal_not_before (c : ascii) (l q m : string) :
  lacks c l = true -> q <> "" ->
  Str.strip_prefix (String c l) q = None ->
  Str.strip_prefix (String c l) (q ++ String c m) = None.
Proof.
  intros Hl Hq H. destruct q as [|b q]; [congruence|].
  rewrite append_cons. simpl in *.
  destruct (Chr.eqb c b); [|reflexivity]. now apply strip_prefix_none_app.
Qed.

Lemma strip_prefix_longer (l1 l2 q : string) :
  Str.strip_prefix l1 q = None -> Str.strip_prefix (l1 ++ l2) q = None.
Proof.
  revert q. induction l1 as [|a l1 IH]; intros q H; [discriminate|].
  rewrite append_cons. destruct q as [|b q]; [reflexivity|]. simpl in *.
  destruct (Chr.eqb a b); [|reflexivity]. now apply IH.
Qed.

Lemma run_alt_left (r1 r2 : regex) (prev : option ascii) (s : string)
    (caps : captures) (k : cont) (r : result) :
  run r1 prev s caps k = Some r -> run (Alt r1 r2) prev s caps k = Some r.
Proof. intros H. cbn [run]. now rewrite H. Qed.

Lemma run_alt_right (r1 r2 : regex) (prev : option ascii) (s : string)
    (caps : captures) (k : cont) :
  run r1 prev s caps k = None ->
  run (Alt r1 r2) prev s caps k = run r2 prev s caps k.
Proof. intros H. cbn [run]. now rewrite H. Qed.

Lemma run_cls (p : ascii -> bool) (c : ascii) (v : string)
    (prev : option ascii) (caps : captures) (k : cont) :
  p c = true -> run (Cls p) prev (String c v) caps k = k (Some c) v caps.
Proof. intros H. cbn [run]. now rewrite H. Qed.

(** No match of the linker pattern begins inside a text in which the
    word [undefined] does not begin, even when the phrase follows. *)
Lemma linker_not_before (q m : string) (prev : option ascii) :
  q <> "" -> Str.startswith q "undefined" = false ->
  run Patterns.LINKER_ERROR_PATTERN prev (q ++ String "u" m) [] accept = None.
Proof.
  intros Hq Hstart. unfold Str.startswith in Hstart.
  destruct (Str.strip_prefix "undefined" q) eqn:Hu; [discriminate|].
  unfold Patterns.LINKER_ERROR_PATTERN. rewrite run_seq.
  assert (H1 : Str.strip_prefix "undefined reference to" (q ++ String "u" m)
               = None).
  { apply literal_not_before; [reflexivity|exact Hq|].
    now apply (strip_prefix_longer "undefined" " reference to"). }
  assert (H2 : Str.strip_prefix "undefined symbol:" (q ++ String "u" m)
               = None).
  { apply literal_not_before; [reflexivity|exact Hq|].
    now apply (strip_prefix_longer "undefined" " symbol:"). }
  cbn [run]. now rewrite H1, H2.
Qed.

(** The search passes over a text without the word [undefined] and finds
    the match that begins right after it. *)
Lemma search_linker_after (pre text rest before : string)
    (prev : option ascii) (caps : captures) :
  Str.contains "undefined" pre = false ->
  (forall prev', run Patterns.LINKER_ERROR_PATTERN prev' (String "u" text)
                   [] accept = Some (caps, rest)) ->
  search_go Patterns.LINKER_ERROR_PATTERN before prev (pre ++ String "u" text)
  = Some (MkMatch (Str.rev before ++ pre) caps rest).
Proof.
  intros Hpre Hrun. revert before prev Hpre.
  induction pre as [|c pre IH]; intros before prev Hpre.
  - change ("" ++ String "u" text) with (String "u" text).
    rewrite search_go_unfold, Hrun. now rewrite append_nil_r.
  - apply contains_cons in Hpre as [Hstart Hrest].
    rewrite search_go_unfold.
    rewrite linker_not_before by (congruence || assumption).
    rewrite append_cons. rewrite IH by assumption.
    do 2 f_equal. unfold Str.rev. simpl.
    rewrite (rev_onto_app before (String c "")).
    now rewrite append_assoc.
Qed.

(** The pattern on the message of GNU ld. *)
Lemma run_linker_gnu (sym tail : string) (prev : option ascii) :
  sym <> "" -> all_in (Chr.isnot [Chr.QUOTE; Chr.LF]) sym = true ->
  run Patterns.LINKER_ERROR_PATTERN prev
    ("undefined reference to `" ++ sym ++ "'" ++ tail) [] accept
  = Some ([(1, sym)], tail).
Proof.
  intros Hne Hsym. unfold Patterns.LINKER_ERROR_PATTERN.
  change ("undefined reference to `" ++ sym ++ "'" ++ tail)
    with ("undefined reference to" ++ " " ++ "`" ++ sym ++ "'" ++ tail).
  rewrite run_seq. apply run_alt_left. rewrite run_lit.
  rewrite run_seq. apply run_plus; [discriminate|reflexivity|reflexivity|].
  rewrite run_seq. apply run_opt_take.
  change ("`" ++ sym ++ "'" ++ tail) with (String "`" (sym ++ "'" ++ tail)).
  rewrite run_cls by reflexivity. rewrite run_seq.
  apply run_group_plus; [assumption|assumption|reflexivity|].
  reflexivity.
Qed.

End Linker.

(** X5. A line of GNU ld, [undefined reference to], back quote, symbol,
    quote, is found wherever it stands in a log that has no compile error
    and does not hold the word [undefined] before it: the verdict of
    [analyze_and_fix] is a link error for the text between the quotes,
    the argument list included. *)
Theorem link_line_is_parsed (pre sym tail : string) :
  Str.contains "undefined" pre = false ->
  sym <> "" -> all_in (Chr.isnot [Chr.QUOTE; Chr.LF]) sym = true ->
  let log := pre ++ "undefined reference to `" ++ sym ++ "'" ++ tail in
  Re.search Patterns.COMPILE_ERROR_PATTERN log = None ->
  V4.diagnose log = V4.LinkError sym.
Proof.
  intros Hpre Hne Hsym log Hcompile.
  assert (Hsearch : Re.search Patterns.LINKER_ERROR_PATTERN log
                    = Some (Re.MkMatch pre [(1, sym)] tail)).
  { unfold Re.search, log.
    change ("undefined reference to `" ++ sym ++ "'" ++ tail)
      with (String "u" ("ndefined reference to `" ++ sym ++ "'" ++ tail)).
    rewrite (search_linker_after pre _ tail "" None [(1, sym)]);
      [reflexivity|exact Hpre|].
    intros prev'. now apply run_linker_gnu. }
  unfold V4.diagnose. now rewrite Hcompile, Hsearch.
Qed.

Lemma link_line_is_parsed_witness :
  V4.diagnose
    (("/usr/bin/ld: main.o: in function `main':" ++ Str.nl
        ++ "main.cpp:(.text+0x5): ")
       ++ "undefined reference to `" ++ "Foo::bar(int)" ++ "'"
       ++ (Str.nl ++ "collect2: error: ld returned 1 exit status"))
  = V4.LinkError "Foo::bar(int)".
Proof.
  apply (link_line_is_parsed
           ("/usr/bin/ld: main.o: in function `main':" ++ Str.nl
              ++ "main.cpp:(.text+0x5): ")
           "Foo::bar(int)"
           (Str.nl ++ "collect2: error: ld returned 1 exit status"));
    [reflexivity|discriminate|reflexivity|vm_compute; reflexivity].
Defined.

(** X6. The symbol the scan of the tree looks for is the captured symbol
    up to its first opening parenthesis, trimmed: an argument list is cut
    off, and a symbol without parenthesis is only trimmed. *)
Theorem clean_cuts_arguments (name args : string) :
  lacks "("%char name = true ->
  V4.clean (name ++ "(" ++ args) = Str.strip name
  /\ V4.clean name = Str.strip name.
Proof.
  intros Hname. unfold V4.clean, Str.split. split.
  - rewrite split_fuel_unfold.
    change "(" with (String "("%char "") at 1 2.
    rewrite (cut_fresh "("%char "" name args Hname).
    now destruct (String.length _).
  - rewrite split_fuel_unfold.
    change "(" with (String "("%char "").
    now rewrite (cut_lacks "("%char "" name Hname).
Qed.

Lemma clean_cuts_arguments_witness :
  V4.clean ("std::vector<int>::at " ++ "(" ++ "unsigned long) const")
  = "std::vector<int>::at"
  /\ V4.clean "std::vector<int>::at " = "std::vector<int>::at".
Proof.
  apply (clean_cuts_arguments "std::vector<int>::at " "unsigned long) const").
  reflexivity.
Defined.

(** ** Bundles *)

Section Bundles.

Lemma in_dict_set (k v : string) (d : Dict.t) (x : string * string) :
  In x (Dict.set k v d) -> x = (k, v) \/ In x d.
Proof.
  induction d as [|[k0 v0] d IH]; simpl.
  - intros [H|[]]. now left.
  - destruct (String.eqb k0 k).
    + intros [H|H]; [now left|now right; right].
    + intros [H|H]; [now right; left|].
      destruct (IH H) as [H'|H']; [now left|now right; right].
Qed.

(** In a dictionary that holds texts of files of [w], entering the text
    of a file adds that entry and drops none. *)
Lemma in_dict_set_files (w : World) (k v : string) (d : Dict.t)
    (x : string * string) :
  (forall k' v', In (k', v') d -> files w !! k' = Some v') ->
  files w !! k = Some v ->
  (In x (Dict.set k v d) <-> x = (k, v) \/ In x d).
Proof.
  intros Hd Hk. split; [apply in_dict_set|].
  induction d as [|[k0 v0] d IH]; simpl.
  - intros [H|[]]. now left.
  - assert (Hd' : forall k' v', In (k', v') d -> files w !! k' = Some v').
    { intros k' v' Hin. apply Hd. now right. }
    destruct (String.eqb_spec k0 k) as [->|Hne].
    + assert (v0 = v).
      { specialize (Hd k v0 (or_introl eq_refl)). congruence. }
      subst v0. intros [H|[H|H]]; [now left|now left|now right].
    + intros [H|[H|H]].
      * right. apply IH; [exact Hd'|now left].
      * now left.
      * right. apply IH; [exact Hd'|now right].
Qed.

Lemma keys_dict_set (k v : string) (d : Dict.t) :
  Dict.keys (Dict.set k v d)
  = if existsb (fun k' => String.eqb k' k) (Dict.keys d)
    then Dict.keys d else (Dict.keys d ++ [k])%list.
Proof.
  induction d as [|[k0 v0] d IH]; [reflexivity|].
  simpl. destruct (String.eqb_spec k0 k) as [->|Hne]; [reflexivity|].
  simpl. rewrite IH. now destruct (existsb _ (Dict.keys d)).
Qed.

Lemma nodup_dict_set (k v : string) (d : Dict.t) :
  List.NoDup (Dict.keys d) -> List.NoDup (Dict.keys (Dict.set k v d)).
Proof.
  intros Hnd. rewrite keys_dict_set.
  destruct (existsb _ (Dict.keys d)) eqn:Hex; [exact Hnd|].
  apply List.NoDup_app; [exact Hnd| |].
  - repeat constructor. intros [].
  - intros x Hx [Heq|[]]. subst x.
    assert (existsb (fun k' => String.eqb k' k) (Dict.keys d) = true);
      [|congruence].
    apply existsb_exists. exists k. split; [exact Hx|apply String.eqb_refl].
Qed.

Lemma head_dict_set (k v k0 v0 : string) (d : Dict.t) :
  exists v0' d',
    Dict.set k v ((k0, v0) :: d) = (k0, v0') :: d'
    /\ (v0' = v0 \/ (k0 = k /\ v0' = v)).
Proof.
  simpl. destruct (String.eqb_spec k0 k) as [->|Hne]; eauto 6.
Qed.

Lemma collect_step (w : World) (acc : Dict.t) (p : string)
    (targets : list string) :
  collect w acc (p :: targets)
  = collect w (match files w !! p with
               | Some text => Dict.set p text acc
               | None => acc
               end) targets.
Proof. reflexivity. Qed.

Lemma nodup_collect (w : World) (targets : list string) (acc : Dict.t) :
  List.NoDup (Dict.keys acc) -> List.NoDup (Dict.keys (collect w acc targets)).
Proof.
  revert acc. induction targets as [|p targets IH]; intros acc Hnd;
    [exact Hnd|].
  rewrite collect_step. apply IH.
  destruct (files w !! p); [now apply nodup_dict_set|exact Hnd].
Qed.

Lemma in_collect (w : World) (targets : list string) (acc : Dict.t)
    (k v : string) :
  In (k, v) (collect w acc targets) ->
  In (k, v) acc \/ (In k targets /\ files w !! k = Some v).
Proof.
  revert acc. induction targets as [|p targets IH]; intros acc H;
    [now left|].
  rewrite collect_step in H. apply IH in H as [H|[H1 H2]].
  - destruct (files w !! p) as [text|] eqn:Hp; [|now left].
    apply in_dict_set in H as [H|H]; [|now left].
    inversion H; subst. right. split; [now left|exact Hp].
  - right. split; [now right|exact H2].
Qed.

Lemma head_collect (w : World) (targets : list string) (k0 v0 : string)
    (d : Dict.t) :
  files w !! k0 = Some v0 ->
  exists d', collect w ((k0, v0) :: d) targets = (k0, v0) :: d'.
Proof.
  intros Hk. revert d. induction targets as [|p targets IH]; intros d;
    [eauto|].
  rewrite collect_step. destruct (files w !! p) as [text|] eqn:Hp; [|apply IH].
  destruct (head_dict_set p text k0 v0 d) as (v0' & d' & -> & [->|[-> ->]]).
  - apply IH.
  - assert (text = v0) by congruence. subst text. apply IH.
Qed.

(** One line of the culprit, when the loop gets past it. *)
Lemma v4_add_header_ret (base_dir line : string) (acc acc' : Dict.t)
    (w w' : World) :
  V4.add_header base_dir acc line w = (Ret acc', w') ->
  w' = w /\ acc' = collect w acc (v4_line_targets base_dir line).
Proof.
  unfold V4.add_header, v4_line_targets.
  destruct (Str.contains ("#include " ++ Str.dquote) line) eqn:Hinc.
  - unfold index. rewrite (second_field _ _ _ Hinc). cbn [indexed].
    rewrite bind_ret_l. unfold bind, Fs.exists_, Fs.read, ret, collect.
    cbn [fold_left].
    destruct (files w !! _) as [text|] eqn:Hp.
    + rewrite bool_decide_eq_true_2 by eauto. simpl. rewrite Hp.
      intros H. now inversion H.
    + rewrite bool_decide_eq_false_2 by (intros [? ?]; discriminate).
      simpl. destruct (bool_decide (_ ∈ dirs w)); simpl.
      * rewrite Hp. now destruct (bool_decide _).
      * intros H. now inversion H.
  - intros H. now inversion H.
Qed.

Lemma v4_headers_ret (base_dir : string) (lines : list string)
    (acc d : Dict.t) (w w' : World) :
  fold_each lines acc (V4.add_header base_dir) w = (Ret d, w') ->
  w' = w /\ d = collect w acc (flat_map (v4_line_targets base_dir) lines).
Proof.
  revert acc. induction lines as [|line lines IH]; intros acc H.
  - simpl in H. now inversion H.
  - cbn [fold_each] in H. cbn [flat_map]. rewrite collect_app.
    apply bind_inv in H as (acc' & w1 & Hstep & H).
    apply v4_add_header_ret in Hstep as [-> ->]. now apply IH.
Qed.

End Bundles.

(** X7. Whenever [analyze_and_fix] of [builder_v4.py] gets past the
    reading of the culprit and its headers, it has changed nothing and
    the bundle it sends is well formed: the culprit comes first, no path
    comes twice, every entry holds the text the file has on disk, and
    every path other than the culprit is the target of one of its include
    lines. *)
Theorem compile_bundle_is_well_formed
    (broken_file : string) (bundle : Dict.t) (w w' : World) :
  V4.gather_compile broken_file w = (Ret bundle, w') ->
  w' = w
  /\ (exists text rest,
        files w !! broken_file = Some text
        /\ bundle = (broken_file, text) :: rest
        /\ forall k v, In (k, v) rest ->
             In k (v4_include_targets (Path.dirname broken_file) text))
  /\ List.NoDup (Dict.keys bundle)
  /\ forall k v, In (k, v) bundle -> files w !! k = Some v.
Proof.
  intros H. unfold V4.gather_compile in H.
  apply bind_inv in H as (text & w1 & Hread & H).
  assert (Htext : files w !! broken_file = Some text /\ w1 = w).
  { unfold Fs.read in Hread. destruct (files w !! broken_file);
      [now inversion Hread|].
    destruct (bool_decide _); discriminate. }
  destruct Htext as [Htext ->].
  apply v4_headers_ret in H as [-> ->].
  fold (v4_include_targets (Path.dirname broken_file) text).
  set (targets := v4_include_targets (Path.dirname broken_file) text).
  assert (Hentries : forall k v,
            In (k, v) (collect w [(broken_file, text)] targets) ->
            files w !! k = Some v
            /\ ((k, v) = (broken_file, text) \/ In k targets)).
  { intros k v Hin. apply in_collect in Hin as [[Hin|[]]|[Hin Hf]].
    - inversion Hin; subst. split; [exact Htext|now left].
    - split; [exact Hf|now right]. }
  split; [reflexivity|]. split; [|split].
  - destruct (head_collect w targets broken_file text [] Htext) as [rest Hrest].
    exists text, rest. split; [exact Htext|]. split; [exact Hrest|].
    intros k v Hin.
    assert (Hnd : List.NoDup (Dict.keys (collect w [(broken_file, text)] targets))).
    { apply nodup_collect. repeat constructor. intros []. }
    rewrite Hrest in Hnd. simpl in Hnd. inversion Hnd as [|? ? Hnotin _]; subst.
    destruct (Hentries k v) as [_ [Heq|Hin']].
    + rewrite Hrest. now right.
    + inversion Heq; subst. exfalso. apply Hnotin.
      unfold Dict.keys. apply in_map_iff. now exists (broken_file, text).
    + exact Hin'.
  - apply nodup_collect. repeat constructor. intros [].
  - intros k v Hin. now apply Hentries.
Qed.

Lemma compile_bundle_is_well_formed_witness :
  exists bundle,
    V4.gather_compile "main.cpp" Scenario.twice = (Ret bundle, Scenario.twice)
    /\ List.NoDup (Dict.keys bundle).
Proof.
  eexists. split; [vm_compute; reflexivity|].
  eapply (compile_bundle_is_well_formed "main.cpp" _ Scenario.twice).
  vm_compute. reflexivity.
Defined.

(** ** The search for a symbol *)

Section SymbolSearch.
Variable E : Env.

(** One file of the scan: a file that cannot be read is passed over. *)
Lemma search_step (clean_symbol file_path : string) (matches : Dict.t)
    (w : World) :
  try_except
    (content <- Fs.read file_path ;;
     if Str.contains clean_symbol content
     then ret (Dict.set file_path content matches)
     else ret matches)
    (fun _ => true)
    (ret matches) w
  = (Ret (symbol_matches w clean_symbol matches [file_path]), w).
Proof.
  unfold try_except, bind, Fs.read, ret, symbol_matches. cbn [fold_left].
  destruct (files w !! file_path) as [text|].
  - now destruct (Str.contains clean_symbol text).
  - now destruct (bool_decide (file_path ∈ dirs w)).
Qed.

Lemma symbol_matches_app (w : World) (clean_symbol : string)
    (matches : Dict.t) (l1 l2 : list string) :
  symbol_matches w clean_symbol matches (l1 ++ l2)
  = symbol_matches w clean_symbol (symbol_matches w clean_symbol matches l1)
      l2.
Proof. unfold symbol_matches. apply fold_left_app. Qed.

Lemma search_loop (clean_symbol : string) (sources : list string)
    (matches : Dict.t) (w : World) :
  fold_each sources matches (fun matches file_path =>
    try_except
      (content <- Fs.read file_path ;;
       if Str.contains clean_symbol content
       then ret (Dict.set file_path content matches)
       else ret matches)
      (fun _ => true)
      (ret matches)) w
  = (Ret (symbol_matches w clean_symbol matches sources), w).
Proof.
  revert matches. induction sources as [|p sources IH]; intros matches;
    [reflexivity|].
  cbn [fold_each]. rewrite (bind_ret _ _ _ _ _ (search_step _ _ _ w)).
  rewrite IH.
  change (p :: sources) with ([p] ++ sources)%list.
  now rewrite symbol_matches_app.
Qed.

Lemma symbol_matches_step (w : World) (clean_symbol : string)
    (matches : Dict.t) (p : string) (sources : list string) :
  symbol_matches w clean_symbol matches (p :: sources)
  = symbol_matches w clean_symbol
      (match files w !! p with
       | Some text =>
           if Str.contains clean_symbol text
           then Dict.set p text matches else matches
       | None => matches
       end) sources.
Proof. reflexivity. Qed.

Lemma in_symbol_matches (w : World) (clean_symbol : string)
    (sources : list string) (matches : Dict.t) (k v : string) :
  (forall k' v', In (k', v') matches -> files w !! k' = Some v') ->
  (In (k, v) (symbol_matches w clean_symbol matches sources)
   <-> In (k, v) matches
       \/ (In k sources /\ files w !! k = Some v
           /\ Str.contains clean_symbol v = true)).
Proof.
  revert matches. induction sources as [|p sources IH]; intros matches Hm.
  - simpl. split; [now left|]. now intros [H|[[] _]].
  - rewrite symbol_matches_step.
    destruct (files w !! p) as [text|] eqn:Hp.
    + destruct (Str.contains clean_symbol text) eqn:Hc.
      * rewrite IH.
        -- rewrite (in_dict_set_files w p text matches (k, v) Hm Hp).
           split.
           ++ intros [[H|H]|(H1 & H2 & H3)].
              ** inversion H; subst. right. split; [now left|now split].
              ** now left.
              ** right. split; [now right|now split].
           ++ intros [H|([H|H] & H2 & H3)].
              ** left. now right.
              ** subst p. left. left. congruence.
              ** right. now split.
        -- intros k' v' Hin.
           apply (in_dict_set_files w p text matches (k', v') Hm Hp) in Hin
             as [Hin|Hin]; [inversion Hin; now subst|now apply Hm].
      * rewrite (IH matches Hm). split.
        -- intros [H|(H1 & H2 & H3)]; [now left|].
           right. split; [now right|now split].
        -- intros [H|([H|H] & H2 & H3)]; [now left| |].
           ++ subst p. congruence.
           ++ right. now split.
    + rewrite (IH matches Hm). split.
      * intros [H|(H1 & H2 & H3)]; [now left|].
        right. split; [now right|now split].
      * intros [H|([H|H] & H2 & H3)]; [now left| |].
        -- subst p. congruence.
        -- right. now split.
Qed.

Lemma nodup_symbol_matches (w : World) (clean_symbol : string)
    (sources : list string) (matches : Dict.t) :
  List.NoDup (Dict.keys matches) ->
  List.NoDup (Dict.keys (symbol_matches w clean_symbol matches sources)).
Proof.
  revert matches. induction sources as [|p sources IH]; intros matches Hnd;
    [exact Hnd|].
  rewrite symbol_matches_step.
  apply IH. destruct (files w !! p) as [text|]; [|exact Hnd].
  destruct (Str.contains clean_symbol text); [|exact Hnd].
  now apply nodup_dict_set.
Qed.

End SymbolSearch.

(** X8. The search for the missing symbol never fails and changes
    nothing but the output: whatever the walk of the tree lists, a file
    that cannot be read is passed over. What it returns is exactly the
    scanned files that can be read and whose text holds the cleaned
    symbol, each once, with the text it has on disk. *)
Theorem symbol_search_is_exact (E : Env) (symbol : string) (w : World) :
  let w1 := say w ["🔎 Scanning project for symbol: '" ++ V4.clean symbol
                     ++ "'..."] in
  exists matches,
    V4.search_symbol_in_project E symbol w = (Ret matches, w1)
    /\ List.NoDup (Dict.keys matches)
    /\ forall path text,
         In (path, text) matches
         <-> In path (fold_left V4.visit (os_walk E "." w1) [])
             /\ files w !! path = Some text
             /\ Str.contains (V4.clean symbol) text = true.
Proof.
  intros w1. eexists. split; [|split].
  - unfold V4.search_symbol_in_project.
    rewrite (bind_ret _ _ _ _ _ (print_say _ w)). fold w1.
    unfold V4.get_all_source_files. unfold bind at 1.
    apply search_loop.
  - apply nodup_symbol_matches. constructor.
  - intros path text.
    rewrite in_symbol_matches by (intros ? ? []).
    change (files w1) with (files w). split.
    + now intros [[]|H].
    + intros H. now right.
Qed.

(** X9. When the symbol is found in no file, the bundle of a link error
    is the build descriptor alone, [CMakeLists.txt]; when that file does
    not exist either, the read raises and the exception leaves
    [analyze_and_fix]. When the symbol is found, the bundle is what the
    search returns and the build descriptor is not read. *)
Theorem link_bundle_falls_back
    (E : Env) (symbol : string) (w w1 : World) (matches : Dict.t) :
  V4.search_symbol_in_project E symbol w = (Ret matches, w1) ->
  let w2 := say w1 ["⚠️ Symbol not found in project text. It might be a missing library in CMakeLists.txt"] in
  V4.gather_linker E symbol w =
  match matches with
  | [] =>
      match files w1 !! "CMakeLists.txt" with
      | Some text => (Ret [("CMakeLists.txt", text)], w2)
      | None => (Raise (read_error w1 "CMakeLists.txt"), w2)
      end
  | _ :: _ => (Ret matches, w1)
  end.
Proof.
  intros Hsearch w2. unfold V4.gather_linker.
  rewrite (bind_ret _ _ _ _ _ Hsearch).
  destruct matches as [|entry matches]; [|reflexivity].
  rewrite (bind_ret _ _ _ _ _ (print_say _ w1)). fold w2.
  destruct (files w1 !! "CMakeLists.txt") as [text|] eqn:Hc.
  - unfold bind, Fs.read. change (files w2) with (files w1). now rewrite Hc.
  - unfold bind. rewrite read_missing by exact Hc. reflexivity.
Qed.

Lemma link_bundle_falls_back_witness :
  fst (V4.gather_linker Scenario.stuck "Foo::bar(int)" Scenario.project)
  = Ret [("CMakeLists.txt", "project(demo)")]
  /\ fst (V4.gather_linker Scenario.stuck "Foo::bar(int)" (Scenario.tree []))
     = Raise (FileNotFoundError "CMakeLists.txt").
Proof.
  split.
  - erewrite (link_bundle_falls_back Scenario.stuck "Foo::bar(int)"
                Scenario.project); [|vm_compute; reflexivity].
    vm_compute. reflexivity.
  - erewrite (link_bundle_falls_back Scenario.stuck "Foo::bar(int)"
                (Scenario.tree [])); [|vm_compute; reflexivity].
    vm_compute. reflexivity.
Defined.

(** ** Failures the agent cannot place *)

Section Unplaced.
Variable E : Env.

Lemma say_nil (w : World) : say w [] = w.
Proof. destruct w. unfold say. simpl. now rewrite List.app_nil_r. Qed.

(** A loop whose turns only print, as long as [P] holds. *)
Lemma for_each_say {A} (P : World -> Prop) (body : A -> M unit)
    (lines : A -> list string) (l : list A) (w : World) :
  (forall x w, P w -> body x w = (Ret tt, say w (lines x))) ->
  (forall w texts, P w -> P (say w texts)) ->
  P w ->
  for_each l body w = (Ret tt, say w (flat_map lines l)).
Proof.
  intros Hbody Hsay. revert w. induction l as [|x l IH]; intros w HP.
  - simpl. now rewrite say_nil.
  - rewrite (for_each_next x l body w _ (Hbody x w HP)).
    rewrite IH by now apply Hsay. cbn [flat_map]. now rewrite say_say.
Qed.

End Unplaced.

(** X10. In [builder_v4.py], when the log of a failed build matches
    neither pattern, the attempt ends the session: nothing is gathered,
    the model is not consulted, two lines are printed and the process ends
    with signal 1. *)
Theorem unknown_failure_ends_v4_session
    (E : Env) (attempt : nat) (later : list nat) (w w1 : World)
    (build_log : string) :
  V4.build_project E (snd (print (V4.banner attempt) w))
    = (Ret (false, Some build_log), w1) ->
  V4.diagnose build_log = V4.Unknown ->
  Obs.run_process (for_each (attempt :: later) (V4.attempt_body E)) w
  = (1, say w1 ["⚠️ Unknown error type. Cannot fix.";
                "❌ Agent could not generate a fix."]).
Proof.
  intros Hbuild Hd. unfold Obs.run_process.
  erewrite for_each_exit; [reflexivity|].
  unfold V4.attempt_body. unfold bind at 1. cbn [print emit].
  cbn [print emit snd] in Hbuild. rewrite (bind_ret _ _ _ _ _ Hbuild).
  change (default "" (Some build_log)) with build_log.
  unfold bind at 1. rewrite analyze_and_fix_diagnose, Hd.
  cbv [bind print emit ret V4.truthy sys_exit]. cbn [files dirs trace].
  unfold say. cbn [map files dirs trace]. now rewrite <- List.app_assoc.
Qed.

Lemma unknown_failure_ends_v4_session_witness :
  fst (Obs.run_process
         (V4.main (Scenario.env (true, "") (false, "make: *** [all] Error 2")
                     Scenario.patch))
         Scenario.project)
  = 1.
Proof.
  unfold V4.main. change (seq 1 V4.MAX_ATTEMPTS) with (1 :: seq 2 4).
  erewrite unknown_failure_ends_v4_session;
    [reflexivity|vm_compute; reflexivity|vm_compute; reflexivity].
Defined.

(** *** Logs in which a pattern cannot match *)

Section Needles.
Import Re.
Variable needle : string.

Lemma contains_starts (s : string) :
  Str.contains needle s = false -> Str.startswith s needle = false.
Proof.
  destruct s; simpl; now destruct (Str.startswith _ needle).
Qed.

Lemma contains_tail (c : ascii) (s : string) :
  Str.contains needle (String c s) = false -> Str.contains needle s = false.
Proof. intros H. now apply contains_cons in H. Qed.

Lemma strip_prefix_keeps_lack (l s s' : string) :
  Str.strip_prefix l s = Some s' ->
  Str.contains needle s = false -> Str.contains needle s' = false.
Proof.
  revert s. induction l as [|a l IH]; intros s H Hs.
  - simpl in H. now inversion H; subst.
  - destruct s as [|b s]; [discriminate|]. simpl in H.
    destruct (Chr.eqb a b); [|discriminate].
    apply (IH s H). now apply contains_tail in Hs.
Qed.

Lemma star_needs (p : ascii -> bool)
    (k : option ascii -> string -> option result) :
  (forall prev s, Str.contains needle s = false -> k prev s = None) ->
  forall s prev, Str.contains needle s = false -> star p prev s k = None.
Proof.
  intros Hk. induction s as [|c s IH]; intros prev Hs; cbn [star].
  - now apply Hk.
  - destruct (p c); [|now apply Hk].
    rewrite IH by now apply contains_tail in Hs. now apply Hk.
Qed.

(** A pattern finds nothing in a text without [needle] when what follows
    it cannot. *)
Lemma run_needs (r : regex) (k : cont) :
  (forall prev s caps, Str.contains needle s = false -> k prev s caps = None) ->
  forall prev s caps,
    Str.contains needle s = false -> run r prev s caps k = None.
Proof.
  revert k.
  induction r as [l|p|p|p|r IH|r1 IH1 r2 IH2|r1 IH1 r2 IH2|n r IH| |];
    intros k Hk prev s caps Hs; cbn [run].
  - destruct (Str.strip_prefix l s) as [s'|] eqn:Hp; [|reflexivity].
    apply Hk. now apply (strip_prefix_keeps_lack l s).
  - destruct s as [|c s]; [reflexivity|].
    destruct (p c); [|reflexivity]. apply Hk. now apply contains_tail in Hs.
  - apply star_needs; [|exact Hs]. intros prev' s' Hs'. now apply Hk.
  - destruct s as [|c s]; [reflexivity|].
    destruct (p c); [|reflexivity].
    apply star_needs; [|now apply contains_tail in Hs].
    intros prev' s' Hs'. now apply Hk.
  - rewrite (IH k Hk) by exact Hs. now apply Hk.
  - rewrite (IH1 k Hk) by exact Hs. now apply IH2.
  - apply IH1; [|exact Hs]. intros prev' s' caps' Hs'. now apply IH2.
  - apply IH; [|exact Hs]. intros prev' s' caps' Hs'. now apply Hk.
  - destruct (at_bol prev); [|reflexivity]. now apply Hk.
  - destruct (at_eol s); [|reflexivity]. now apply Hk.
Qed.

Lemma seq_needs (r1 r2 : regex) (k : cont) :
  (forall prev s caps,
     Str.contains needle s = false -> run r2 prev s caps k = None) ->
  forall prev s caps,
    Str.contains needle s = false -> run (Seq r1 r2) prev s caps k = None.
Proof.
  intros H2 prev s caps Hs. rewrite run_seq.
  now apply (run_needs r1).
Qed.

(** A pattern that goes through a literal text that begins with [needle]
    finds nothing in a text without [needle]. *)
Lemma literal_needs (more : string) (k : cont) :
  forall prev s caps,
    Str.contains needle s = false ->
    run (Lit (needle ++ more)) prev s caps k = None.
Proof.
  intros prev s caps Hs. cbn [run].
  apply contains_starts in Hs. unfold Str.startswith in Hs.
  destruct (Str.strip_prefix needle s) eqn:Hn; [discriminate|].
  now rewrite (strip_prefix_longer needle more s Hn).
Qed.

Lemma search_needs (r : regex) :
  (forall prev s caps,
     Str.contains needle s = false -> run r prev s caps accept = None) ->
  forall s before prev,
    Str.contains needle s = false -> search_go r before prev s = None.
Proof.
  intros Hr. induction s as [|c s IH]; intros before prev Hs;
    rewrite search_go_unfold, Hr by exact Hs; [reflexivity|].
  apply IH. now apply contains_tail in Hs.
Qed.

End Needles.

Section Unplaceable.
Import Re.

Lemma compile_pattern_needs (build_log : string) :
  Str.contains "error:" build_log = false ->
  Re.search Patterns.COMPILE_ERROR_PATTERN build_log = None.
Proof.
  intros Hs. unfold Re.search. apply (search_needs "error:"); [|exact Hs].
  unfold Patterns.COMPILE_ERROR_PATTERN.
  do 9 apply seq_needs.
  intros prev s caps Hs'. rewrite run_seq.
  apply (literal_needs "error:" "").
  exact Hs'.
Qed.

Lemma linker_pattern_needs (build_log : string) :
  Str.contains "undefined" build_log = false ->
  Re.search Patterns.LINKER_ERROR_PATTERN build_log = None.
Proof.
  intros Hs. unfold Re.search. apply (search_needs "undefined"); [|exact Hs].
  unfold Patterns.LINKER_ERROR_PATTERN.
  intros prev s caps Hs'. rewrite run_seq.
  apply contains_starts in Hs'. unfold Str.startswith in Hs'.
  destruct (Str.strip_prefix "undefined" s) eqn:Hn; [discriminate|].
  assert (H1 : Str.strip_prefix "undefined reference to" s = None)
    by now apply (strip_prefix_longer "undefined" " reference to").
  assert (H2 : Str.strip_prefix "undefined symbol:" s = None)
    by now apply (strip_prefix_longer "undefined" " symbol:").
  cbn [run]. now rewrite H1, H2.
Qed.

End Unplaceable.

(** X11. A log of a failed build that does not hold the text [error:]
    holds no diagnostic line. [builder_v3.py] and [builder.py] then print
    the last 500 characters of the log and [build_project] returns
    [False] without reading a file or consulting the model: the loop of
    [main] goes on. [builder_v4.py] does not take the failure for a
    compile error, and when the log does not hold the word [undefined]
    either, its verdict is that the error is unknown. *)
Theorem log_without_error_text_is_unplaced
    (E : Env) (build_log : string) (w : World) :
  Str.contains "error:" build_log = false ->
  V3.repair E build_log w
    = (Ret false,
       say w [Str.nl ++ "❌ Build Failed.";
              "⚠️  Could not identify source file.";
              Str.tail 500 build_log])
  /\ V1.repair E build_log w
     = (Ret false,
        say w [Str.nl ++ "❌ Build Failed. Analyzing errors...";
               "⚠️  Could not automatically identify the source file from the error log.";
               "Here is the log tail:";
               Str.tail 500 build_log])
  /\ (forall broken_file, V4.diagnose build_log <> V4.CompileError broken_file)
  /\ (Str.contains "undefined" build_log = false ->
      V4.diagnose build_log = V4.Unknown).
Proof.
  intros Hs. pose proof (compile_pattern_needs build_log Hs) as Hnone.
  split; [|split; [|split]].
  - unfold V3.repair, V3.find_culprit_file, Patterns.ERROR_PATTERN.
    rewrite Hnone.
    cbv [bind print emit ret]. cbn [files dirs trace].
    unfold say. cbn [map files dirs trace]. now rewrite <- !List.app_assoc.
  - unfold V1.repair, V1.find_culprit_file, Patterns.ERROR_PATTERN.
    rewrite Hnone.
    cbv [bind print emit ret]. cbn [files dirs trace].
    unfold say. cbn [map files dirs trace]. now rewrite <- !List.app_assoc.
  - intros broken_file. unfold V4.diagnose. rewrite Hnone.
    now destruct (Re.search Patterns.LINKER_ERROR_PATTERN build_log).
  - intros Hu. unfold V4.diagnose.
    now rewrite Hnone, (linker_pattern_needs build_log Hu).
Qed.

Lemma log_without_error_text_is_unplaced_witness :
  fst (V3.repair Scenario.stuck "make: *** [all] Error 2" Scenario.project)
  = Ret false
  /\ V4.diagnose "make: *** [all] Error 2" = V4.Unknown.
Proof.
  destruct (log_without_error_text_is_unplaced Scenario.stuck
              "make: *** [all] Error 2" Scenario.project eq_refl)
    as (H3 & _ & _ & H4).
  split; [now rewrite H3|]. now apply H4.
Defined.

(** X12. Without a [CMakeLists.txt] in the working directory,
    [builder_v3.py] and [builder.py] run no command, create no directory
    and touch no file: each attempt prints that the file is missing, and
    after the last attempt the process ends with signal 1. *)
Theorem no_cmakelists_runs_nothing (E : Env) (w : World) :
  files w !! "CMakeLists.txt" = None ->
  "CMakeLists.txt" ∉ dirs w ->
  Obs.run_process (V3.main E) w
    = (1, say w (List.app
                   (flat_map
                      (fun attempt =>
                         [V3.banner attempt; "❌ No CMakeLists.txt found."])
                      (seq 1 V3.MAX_ATTEMPTS))
                   [Str.nl ++ "❌ Max attempts reached."]))
  /\ Obs.run_process (V1.main E) w
     = (1, say w (List.app
                    (flat_map
                       (fun attempt =>
                          [V1.banner attempt;
                           "❌ No CMakeLists.txt found. Is this a CMake project?"])
                       (seq 1 V1.MAX_ATTEMPTS))
                    [Str.nl
                     ++ "❌ Failed to fix project after maximum attempts."])).
Proof.
  intros Hnone Hdir.
  set (P := fun w : World =>
              files w !! "CMakeLists.txt" = None
              /\ "CMakeLists.txt" ∉ dirs w).
  assert (HP : P w) by now split.
  assert (Hsay : forall w texts, P w -> P (say w texts)).
  { intros w0 texts [H1 H2]. now split. }
  split.
  - unfold Obs.run_process, V3.main.
    assert (Hbody : forall attempt w0, P w0 ->
              V3.attempt_body E attempt w0
              = (Ret tt,
                 say w0 [V3.banner attempt; "❌ No CMakeLists.txt found."])).
    { intros attempt w0 [H1 H2].
      unfold V3.attempt_body, V3.build_project, V3.build.
      cbv [bind print emit ret Fs.exists_]. cbn [files dirs trace].
      rewrite H1, (bool_decide_eq_false_2 _ H2).
      rewrite bool_decide_eq_false_2 by (intros [? ?]; discriminate).
      cbn [orb negb]. unfold say. cbn [map files dirs trace].
      now rewrite <- !List.app_assoc. }
    rewrite (bind_ret _ _ _ _ _
               (for_each_say P (V3.attempt_body E)
                  (fun attempt =>
                     [V3.banner attempt; "❌ No CMakeLists.txt found."])
                  _ w Hbody Hsay HP)).
    cbv [bind print emit sys_exit]. cbn [exit_status].
    unfold say. cbn [files dirs trace map].
    now rewrite map_app, List.app_assoc.
  - unfold Obs.run_process, V1.main.
    assert (Hloop : forall n attempt w0, P w0 ->
              V1.main_loop E n attempt w0
              = (Ret tt,
                 say w0 (flat_map
                           (fun attempt =>
                              [V1.banner attempt;
                               "❌ No CMakeLists.txt found. Is this a CMake project?"])
                           (seq attempt n)))).
    { induction n as [|n IH]; intros attempt w0 [H1 H2].
      - simpl. now rewrite say_nil.
      - cbn [V1.main_loop seq flat_map].
        unfold V1.build_project, V1.configure.
        cbv [bind print emit ret Fs.exists_]. cbn [files dirs trace].
        rewrite H1, (bool_decide_eq_false_2 _ H2).
        rewrite bool_decide_eq_false_2 by (intros [? ?]; discriminate).
        cbn [orb negb].
        rewrite IH by now split.
        unfold say. cbn [map files dirs trace app].
        now rewrite <- !List.app_assoc. }
    rewrite (bind_ret _ _ _ _ _ (Hloop _ 1 w HP)).
    cbv [bind print emit sys_exit]. cbn [exit_status].
    unfold say. cbn [files dirs trace map].
    now rewrite map_app, List.app_assoc.
Qed.

Lemma no_cmakelists_runs_nothing_witness :
  fst (Obs.run_process (V3.main Scenario.stuck)
         (Scenario.tree [("main.cpp", "int main(){")])) = 1
  /\ fst (Obs.run_process (V1.main Scenario.stuck)
            (Scenario.tree [("main.cpp", "int main(){")])) = 1.
Proof.
  destruct (no_cmakelists_runs_nothing Scenario.stuck
              (Scenario.tree [("main.cpp", "int main(){")]))
    as [H3 H1]; [vm_compute; reflexivity|vm_compute; set_solver|].
  rewrite H3, H1. now split.
Defined.

(** ** An answer in the format the prompt asks for *)

Section Patches.
Import Re.

Lemma marker_needs_literal (s : string) (prev : option ascii) :
  Str.startswith s "FILE:" = false ->
  run Patterns.FILE_MARKER prev s [] accept = None.
Proof.
  unfold Str.startswith, Patterns.FILE_MARKER. intros H. cbn [run].
  now destruct (Str.strip_prefix "FILE:" s).
Qed.

(** No marker is found in a text that does not hold [FILE:]. *)
Lemma search_no_marker (s before : string) (prev : option ascii) :
  Str.contains "FILE:" s = false ->
  search_go Patterns.FILE_MARKER before prev s = None.
Proof.
  revert before prev. induction s as [|c s IH]; intros before prev H.
  - rewrite search_go_unfold. now rewrite marker_needs_literal.
  - apply contains_cons in H as [Hstart Hrest].
    rewrite search_go_unfold, marker_needs_literal by exact Hstart.
    now apply IH.
Qed.


End Patches.



(** ** What a session costs *)

Section Counts.
Variable E : Env.
Variable f : event -> bool.
Hypothesis Hprint : forall text, f (Print text) = false.

Lemma keeps_count_eq {A} (m : M A) (w w' : World) (r : outcome A) :
  keeps (counting f) m -> m w = (r, w') -> counting f w' = counting f w.
Proof. intros Hm H. specialize (Hm w). now rewrite H in Hm. Qed.

Lemma count_chat (prompt : string) :
  (forall p, f (Chat p) = false) -> keeps (counting f) (Common.chat E prompt).
Proof.
  intros Hchat w. unfold counting. simpl. rewrite count_app.
  unfold Obs.count at 2. simpl. rewrite Hchat. simpl. lia.
Qed.

Lemma count_copy (src dst : string) : keeps (counting f) (Fs.copy src dst).
Proof. unfold Fs.copy. keeps. Qed.

Lemma count_write_blocks (parts : list string) :
  keeps (counting f) (V4.write_blocks parts).
Proof.
  induction parts as [|name|name raw rest IH] using pairs_ind;
    cbn [V4.write_blocks]; keeps.
Qed.

Lemma count_apply_fixes (ai_response : string) :
  keeps (counting f) (V4.apply_fixes ai_response).
Proof.
  unfold V4.apply_fixes. keeps. apply count_write_blocks.
Qed.

Lemma count_rewrite_files (parts : list string) :
  keeps (counting f) (V3.rewrite_files parts).
Proof.
  induction parts as [|name|name block rest IH] using pairs_ind;
    cbn [V3.rewrite_files]; [keeps..|].
  apply keeps_bind; [|intros _; exact IH].
  unfold V3.rewrite_file. keeps.
Qed.

Lemma count_parse_and_apply_fixes (ai_response : string) :
  keeps (counting f) (V3.parse_and_apply_fixes ai_response).
Proof.
  unfold V3.parse_and_apply_fixes. keeps. apply count_rewrite_files.
Qed.

Lemma count_extract_code (response_text : string) :
  keeps (counting f) (V1.extract_code response_text).
Proof. unfold V1.extract_code. keeps. Qed.

Lemma count_gather_compile (broken_file : string) :
  keeps (counting f) (V4.gather_compile broken_file).
Proof. unfold V4.gather_compile, V4.add_header. keeps. Qed.

Lemma count_gather_linker (symbol : string) :
  keeps (counting f) (V4.gather_linker E symbol).
Proof.
  unfold V4.gather_linker, V4.search_symbol_in_project,
    V4.get_all_source_files.
  keeps. now intros w.
Qed.

Lemma count_get_related_headers (source_code source_dir : string) :
  keeps (counting f) (V3.get_related_headers source_code source_dir).
Proof. unfold V3.get_related_headers, V3.add_header. keeps. Qed.

(** *** At most so many events *)

Lemma grows_of_keeps {A} (n : nat) (m : M A) :
  keeps (counting f) m -> grows f n m.
Proof. intros Hm w. rewrite Hm. lia. Qed.

Lemma grows_bind_l {A B} (n : nat) (m : M A) (k : A -> M B) :
  keeps (counting f) m -> (forall a, grows f n (k a)) ->
  grows f n (bind m k).
Proof.
  intros Hm Hk w. unfold bind. specialize (Hm w).
  destruct (m w) as [[a|e|c] w1]; simpl in *; [|lia..].
  specialize (Hk a w1). lia.
Qed.

Lemma grows_bind_r {A B} (n : nat) (m : M A) (k : A -> M B) :
  grows f n m -> (forall a, keeps (counting f) (k a)) ->
  grows f n (bind m k).
Proof.
  intros Hm Hk w. unfold bind. specialize (Hm w).
  destruct (m w) as [[a|e|c] w1]; simpl in *; [|lia..].
  rewrite Hk. lia.
Qed.

Lemma grows_chat (prompt : string) : grows f 1 (Common.chat E prompt).
Proof.
  intros w. unfold counting. simpl. rewrite count_app.
  unfold Obs.count at 2. simpl. destruct (f (Chat prompt)); simpl; lia.
Qed.

Lemma grows_run_command (argv : list string) :
  grows f 1 (Common.run_command E argv).
Proof.
  unfold Common.run_command.
  apply grows_bind_l; [now apply count_print|]. intros _ w.
  destruct (subprocess_run E argv w) as [[ok out]|]; simpl; [|lia].
  unfold counting. simpl. rewrite count_app.
  unfold Obs.count at 2. simpl. destruct (f (Run argv ok)); simpl; lia.
Qed.

Lemma grows_for_each {A} (l : list A) (body : A -> M unit) :
  (forall x, grows f 1 (body x)) -> grows f (length l) (for_each l body).
Proof.
  intros Hbody. induction l as [|x l IH]; intros w; cbn [for_each length].
  - simpl. lia.
  - unfold bind. specialize (Hbody x w).
    destruct (body x w) as [[[]|e|c] w1]; simpl in *; [|lia..].
    specialize (IH w1). lia.
Qed.

End Counts.

Section Requests.
Variable E : Env.

Lemma chats_print (text : string) : Obs.is_chat (Print text) = false.
Proof. reflexivity. Qed.

Lemma v4_get_ai_fix_chats (context_files : Dict.t) (error_log : string)
    (t : V4.error_type) :
  grows Obs.is_chat 1 (V4.get_ai_fix E context_files error_log t).
Proof.
  unfold V4.get_ai_fix. apply grows_bind_l; [keeps|]. intros _.
  apply grows_chat.
Qed.

Lemma v4_analyze_and_fix_chats (build_log : string) :
  grows Obs.is_chat 1 (V4.analyze_and_fix E build_log).
Proof.
  unfold V4.analyze_and_fix.
  destruct (Re.search Patterns.COMPILE_ERROR_PATTERN build_log) as [m|].
  - apply grows_bind_l; [keeps|]. intros _.
    apply grows_bind_l; [apply count_gather_compile|].
    intros files.
    apply grows_bind_r; [apply v4_get_ai_fix_chats|]. intros response. keeps.
  - destruct (Re.search Patterns.LINKER_ERROR_PATTERN build_log) as [m|].
    + apply grows_bind_l; [keeps|]. intros _.
      apply grows_bind_l; [apply count_gather_linker, chats_print|].
      intros files.
      apply grows_bind_r; [apply v4_get_ai_fix_chats|]. intros response.
      keeps.
    + apply grows_of_keeps. keeps.
Qed.

Lemma v4_attempt_chats (attempt : nat) :
  grows Obs.is_chat 1 (V4.attempt_body E attempt).
Proof.
  unfold V4.attempt_body. apply grows_bind_l; [keeps|]. intros _.
  apply grows_bind_l;
    [unfold V4.build_project, V4.run_command; keeps|].
  intros [[|] log].
  - apply grows_of_keeps. keeps.
  - apply grows_bind_r; [apply v4_analyze_and_fix_chats|].
    intros fix_response. destruct (V4.truthy fix_response).
    + apply keeps_bind; [apply count_apply_fixes, chats_print|].
      intros _. keeps.
    + keeps.
Qed.

Lemma v3_repair_chats (build_log : string) :
  grows Obs.is_chat 1 (V3.repair E build_log).
Proof.
  unfold V3.repair. apply grows_bind_l; [keeps|]. intros _.
  destruct (V3.find_culprit_file build_log) as [[[file_path line] msg]|];
    [|apply grows_of_keeps; keeps].
  apply grows_bind_l; [keeps|]. intros _.
  apply grows_bind_l; [keeps|]. intros [source_code|];
    [|apply grows_of_keeps; keeps].
  apply grows_bind_l; [apply count_get_related_headers|]. intros headers.
  apply grows_bind_r.
  - unfold V3.get_ai_fix. apply grows_bind_l; [keeps|]. intros _.
    apply grows_chat.
  - intros ai_response.
    apply keeps_bind; [apply count_parse_and_apply_fixes, chats_print|].
    intros _. keeps.
Qed.

Lemma v3_attempt_chats (attempt : nat) :
  grows Obs.is_chat 1 (V3.attempt_body E attempt).
Proof.
  unfold V3.attempt_body. apply grows_bind_l; [keeps|]. intros _.
  apply grows_bind_r; [|intros [|]; keeps].
  unfold V3.build_project.
  apply grows_bind_l; [unfold V3.build, V3.run_command; keeps|].
  intros [[[|] log]|].
  - apply grows_of_keeps. keeps.
  - apply v3_repair_chats.
  - apply grows_of_keeps. keeps.
Qed.

Lemma v1_repair_chats (build_log : string) :
  grows Obs.is_chat 1 (V1.repair E build_log).
Proof.
  unfold V1.repair. apply grows_bind_l; [keeps|]. intros _.
  destruct (V1.find_culprit_file E build_log) as [[[file_path line] msg]|];
    [|apply grows_of_keeps; keeps].
  do 2 (apply grows_bind_l; [keeps|]; intros _).
  apply grows_bind_l; [keeps|]. intros [original_code|];
    [|apply grows_of_keeps; keeps].
  apply grows_bind_r.
  - unfold V1.get_ai_fix. apply grows_bind_l; [keeps|]. intros _.
    apply grows_chat.
  - intros ai_response.
    apply keeps_bind; [apply count_extract_code|]. intros fixed_code.
    apply keeps_bind; [apply count_copy|]. intros _. keeps.
Qed.

Lemma v1_build_project_chats : grows Obs.is_chat 1 (V1.build_project E).
Proof.
  unfold V1.build_project.
  apply grows_bind_l; [apply v1_configure_keeps_chats|].
  intros [[[|] config_log]|].
  - apply grows_bind_l; [unfold V1.build, V1.run_command; keeps|].
    intros [[|] build_log].
    + apply grows_of_keeps. keeps.
    + apply v1_repair_chats.
  - apply grows_of_keeps. keeps.
  - apply grows_of_keeps. keeps.
Qed.

Lemma v1_main_loop_chats (remaining attempt : nat) :
  grows Obs.is_chat remaining (V1.main_loop E remaining attempt).
Proof.
  revert attempt. induction remaining as [|n IH]; intros attempt w;
    cbn [V1.main_loop].
  - simpl. lia.
  - unfold bind at 1. cbn [print emit]. unfold bind at 1.
    set (w0 := MkWorld _ _ _).
    assert (H0 : counting Obs.is_chat w0 = counting Obs.is_chat w).
    { unfold counting, w0. simpl. rewrite count_app. unfold Obs.count at 2.
      simpl. lia. }
    pose proof (v1_build_project_chats w0) as Hb.
    destruct (V1.build_project E w0) as [[[|]|e|c] w1]; simpl in Hb.
    + unfold bind. cbn [print emit sys_exit snd].
      unfold counting in *. simpl. rewrite count_app.
      unfold Obs.count at 2. simpl. lia.
    + specialize (IH (S attempt) w1). lia.
    + simpl. lia.
    + simpl. lia.
Qed.

End Requests.

(** X14. A session asks the model at most once per attempt: the process
    of [builder_v4.py] and that of [builder_v3.py] send at most five
    requests, that of [builder.py] at most three, whatever the build tool
    and the model answer and however the session ends. *)
Theorem model_requests_are_bounded (E : Env) (w : World) :
  counting Obs.is_chat (snd (V4.main E w))
    <= counting Obs.is_chat w + V4.MAX_ATTEMPTS
  /\ counting Obs.is_chat (snd (V3.main E w))
     <= counting Obs.is_chat w + V3.MAX_ATTEMPTS
  /\ counting Obs.is_chat (snd (V1.main E w))
     <= counting Obs.is_chat w + V1.MAX_ATTEMPTS.
Proof.
  split; [|split].
  - apply (grows_for_each Obs.is_chat (seq 1 V4.MAX_ATTEMPTS)).
    apply v4_attempt_chats.
  - unfold V3.main.
    apply (grows_bind_r Obs.is_chat V3.MAX_ATTEMPTS); [|intros _; keeps].
    apply (grows_for_each Obs.is_chat (seq 1 V3.MAX_ATTEMPTS)).
    apply v3_attempt_chats.
  - unfold V1.main.
    apply (grows_bind_r Obs.is_chat V1.MAX_ATTEMPTS); [|intros _; keeps].
    apply v1_main_loop_chats.
Qed.

Section Builds.
Variable E : Env.
Variable f : event -> bool.
Hypothesis Hprint : forall text, f (Print text) = false.
Hypothesis Hchat : forall prompt, f (Chat prompt) = false.
Hypothesis Hconfigure : forall ok, f (Run Obs.CONFIGURE ok) = false.

Lemma count_configure_command :
  keeps (counting f) (Common.run_command E Obs.CONFIGURE).
Proof. now apply count_run_command. Qed.

Lemma count_v4_analyze_and_fix (build_log : string) :
  keeps (counting f) (V4.analyze_and_fix E build_log).
Proof.
  pose proof (count_chat E f) as Hc.
  pose proof (count_gather_compile f) as Hg.
  pose proof (count_gather_linker E f Hprint) as Hl.
  unfold V4.analyze_and_fix, V4.get_ai_fix. keeps.
Qed.

Lemma count_v3_repair (build_log : string) :
  keeps (counting f) (V3.repair E build_log).
Proof.
  pose proof (count_chat E f) as Hc.
  pose proof (count_get_related_headers f) as Hh.
  pose proof (count_parse_and_apply_fixes f Hprint) as Hp.
  unfold V3.repair, V3.get_ai_fix. keeps.
Qed.

Lemma count_v1_repair (build_log : string) :
  keeps (counting f) (V1.repair E build_log).
Proof.
  pose proof (count_chat E f) as Hc.
  pose proof (count_extract_code f) as Hx.
  pose proof (count_copy f) as Hy.
  unfold V1.repair, V1.get_ai_fix. keeps.
Qed.

Lemma v4_build_project_runs : grows f 1 (V4.build_project E).
Proof.
  pose proof count_configure_command as Hc.
  unfold V4.build_project, V4.run_command.
  apply grows_bind_l; [keeps|]. intros there.
  apply grows_bind_l; [keeps|]. intros _.
  apply grows_bind_l; [exact Hc|]. intros _.
  apply grows_bind_r; [now apply grows_run_command|].
  intros [[|] log]; keeps.
Qed.

Lemma v4_attempt_runs (attempt : nat) :
  grows f 1 (V4.attempt_body E attempt).
Proof.
  unfold V4.attempt_body. apply grows_bind_l; [keeps|]. intros _.
  apply grows_bind_r; [apply v4_build_project_runs|].
  intros [[|] log]; [keeps|].
  apply keeps_bind; [apply count_v4_analyze_and_fix|]. intros fix_response.
  destruct (V4.truthy fix_response); [|keeps].
  apply keeps_bind; [now apply count_apply_fixes|]. intros _. keeps.
Qed.

Lemma v3_build_runs : grows f 1 (V3.build E).
Proof.
  pose proof count_configure_command as Hc.
  unfold V3.build, V3.run_command.
  apply grows_bind_l; [keeps|]. intros [|]; cbn [negb];
    [|apply grows_of_keeps; keeps].
  apply grows_bind_l; [keeps|]. intros there.
  apply grows_bind_l; [keeps|]. intros _.
  apply grows_bind_l; [keeps|]. intros _.
  apply grows_bind_l; [exact Hc|]. intros _.
  apply grows_bind_l; [keeps|]. intros _.
  apply grows_bind_r; [now apply grows_run_command|].
  intros built. keeps.
Qed.

Lemma v3_attempt_runs (attempt : nat) :
  grows f 1 (V3.attempt_body E attempt).
Proof.
  unfold V3.attempt_body. apply grows_bind_l; [keeps|]. intros _.
  apply grows_bind_r; [|intros [|]; keeps].
  unfold V3.build_project.
  apply grows_bind_r; [apply v3_build_runs|].
  intros [[[|] log]|]; [keeps|apply count_v3_repair|keeps].
Qed.

Lemma count_v1_configure : keeps (counting f) (V1.configure E).
Proof.
  pose proof count_configure_command as Hc.
  unfold V1.configure, V1.run_command. keeps.
Qed.

Lemma v1_build_project_runs : grows f 1 (V1.build_project E).
Proof.
  unfold V1.build_project.
  apply grows_bind_l; [apply count_v1_configure|].
  intros [[[|] config_log]|]; [|apply grows_of_keeps; keeps..].
  apply grows_bind_r.
  - unfold V1.build, V1.run_command.
    apply grows_bind_l; [keeps|]. intros _. now apply grows_run_command.
  - intros [[|] build_log]; [keeps|apply count_v1_repair].
Qed.

Lemma v1_main_loop_runs (remaining attempt : nat) :
  grows f remaining (V1.main_loop E remaining attempt).
Proof.
  revert attempt. induction remaining as [|n IH]; intros attempt w;
    cbn [V1.main_loop].
  - simpl. lia.
  - unfold bind at 1. cbn [print emit]. unfold bind at 1.
    set (w0 := MkWorld _ _ _).
    assert (H0 : counting f w0 = counting f w).
    { unfold counting, w0. simpl. rewrite count_app. unfold Obs.count at 2.
      simpl. rewrite Hprint. simpl. lia. }
    pose proof (v1_build_project_runs w0) as Hb.
    destruct (V1.build_project E w0) as [[[|]|e|c] w1]; simpl in Hb.
    + unfold bind. cbn [print emit sys_exit snd].
      unfold counting in Hb, H0 |- *. simpl. rewrite count_app.
      unfold Obs.count at 2. simpl. rewrite Hprint. simpl. lia.
    + specialize (IH (S attempt) w1). lia.
    + simpl. lia.
    + simpl. lia.
Qed.

End Builds.

(** X15. A session runs the build command at most once per attempt: at
    most five times in [builder_v4.py] and [builder_v3.py], at most three
    times in [builder.py]. *)
Theorem build_runs_are_bounded (E : Env) (w : World) :
  counting (Obs.is_run Obs.BUILD) (snd (V4.main E w))
    <= counting (Obs.is_run Obs.BUILD) w + V4.MAX_ATTEMPTS
  /\ counting (Obs.is_run Obs.BUILD) (snd (V3.main E w))
     <= counting (Obs.is_run Obs.BUILD) w + V3.MAX_ATTEMPTS
  /\ counting (Obs.is_run Obs.BUILD) (snd (V1.main E w))
     <= counting (Obs.is_run Obs.BUILD) w + V1.MAX_ATTEMPTS.
Proof.
  assert (Hp : forall text, Obs.is_run Obs.BUILD (Print text) = false)
    by reflexivity.
  assert (Hc : forall prompt, Obs.is_run Obs.BUILD (Chat prompt) = false)
    by reflexivity.
  assert (Hr : forall ok, Obs.is_run Obs.BUILD (Run Obs.CONFIGURE ok) = false)
    by reflexivity.
  split; [|split].
  - apply (grows_for_each (Obs.is_run Obs.BUILD) (seq 1 V4.MAX_ATTEMPTS)).
    intros attempt. now apply v4_attempt_runs.
  - unfold V3.main.
    apply (grows_bind_r (Obs.is_run Obs.BUILD) V3.MAX_ATTEMPTS);
      [|intros _; keeps].
    apply (grows_for_each (Obs.is_run Obs.BUILD) (seq 1 V3.MAX_ATTEMPTS)).
    intros attempt. now apply v3_attempt_runs.
  - unfold V1.main.
    apply (grows_bind_r (Obs.is_run Obs.BUILD) V1.MAX_ATTEMPTS);
      [|intros _; keeps].
    now apply v1_main_loop_runs.
Qed.

(** ** The completion signal and the verdict of the build *)

Section Verdict.
Variable E : Env.

Lemma good_print (text : string) :
  Obs.is_run_with Obs.BUILD true (Print text) = false.
Proof. reflexivity. Qed.

Lemma good_chat (prompt : string) :
  Obs.is_run_with Obs.BUILD true (Chat prompt) = false.
Proof. reflexivity. Qed.

Lemma good_configure (ok : bool) :
  Obs.is_run_with Obs.BUILD true (Run Obs.CONFIGURE ok) = false.
Proof. reflexivity. Qed.

(** A call that follows calls that keep a count. *)
Lemma keeps_then {A B} (f : event -> bool) (m : M A) (k : A -> M B)
    (w w' : World) (r : outcome B) :
  keeps (counting f) m ->
  (forall a w1, k a w1 = (r, w') -> counting f w' = counting f w1) ->
  bind m k w = (r, w') -> counting f w' = counting f w.
Proof.
  intros Hm Hk. unfold bind. specialize (Hm w).
  destruct (m w) as [[a|e|c] w1]; simpl in Hm; intros H.
  - rewrite <- Hm. now apply (Hk a).
  - inversion H; subst. exact Hm.
  - inversion H; subst. exact Hm.
Qed.

(** A build command that does not report success adds no successful
    build to the trace. *)
Lemma build_command_failed (w w' : World) (r : outcome (bool * string)) :
  Common.run_command E Obs.BUILD w = (r, w') ->
  (forall out, r <> Ret (true, out)) ->
  counting (Obs.is_run_with Obs.BUILD true) w'
  = counting (Obs.is_run_with Obs.BUILD true) w.
Proof.
  unfold Common.run_command, bind. cbn [print emit].
  set (w0 := MkWorld _ _ _).
  assert (H0 : counting (Obs.is_run_with Obs.BUILD true) w0
               = counting (Obs.is_run_with Obs.BUILD true) w).
  { unfold counting, w0. simpl. rewrite count_app. unfold Obs.count at 2.
    simpl. lia. }
  destruct (subprocess_run E Obs.BUILD w0) as [[[|] out]|];
    intros H Hr; inversion H; subst.
  - now destruct (Hr out).
  - rewrite <- H0. unfold counting. simpl. rewrite count_app.
    unfold Obs.count at 2. simpl. lia.
  - exact H0.
Qed.

Lemma v3_build_failed (w w' : World) (r : outcome (option (bool * string))) :
  V3.build E w = (r, w') ->
  (forall log, r <> Ret (Some (true, log))) ->
  counting (Obs.is_run_with Obs.BUILD true) w'
  = counting (Obs.is_run_with Obs.BUILD true) w.
Proof.
  pose proof (count_configure_command E _ good_print good_configure) as Hc.
  intros H Hr. revert H. unfold V3.build, V3.run_command.
  apply keeps_then; [keeps|]. intros [|] w1; cbn [negb];
    [|intros H; eapply keeps_count_eq; [|exact H]; keeps].
  apply keeps_then; [keeps|]. intros there w2.
  apply keeps_then; [keeps|]. intros _ w3.
  apply keeps_then; [keeps|]. intros _ w4.
  apply keeps_then; [exact Hc|]. intros _ w5.
  apply keeps_then; [keeps|]. intros _ w6.
  unfold bind.
  destruct (Common.run_command E _ w6) as [[[ok out]|e|c] w7] eqn:Hrun;
    intros H; inversion H; subst;
    apply (build_command_failed _ _ _ Hrun); intros out' Heq;
    try discriminate.
  inversion Heq; subst. now apply (Hr out').
Qed.

Lemma v3_build_project_failed (w w' : World) (r : outcome bool) :
  V3.build_project E w = (r, w') -> r <> Ret true ->
  counting (Obs.is_run_with Obs.BUILD true) w'
  = counting (Obs.is_run_with Obs.BUILD true) w.
Proof.
  unfold V3.build_project, bind.
  destruct (V3.build E w) as [[[[[|] log]|]|e|c] w1] eqn:Hb; intros H Hr.
  - cbn [print emit ret] in H. inversion H; subst. now destruct Hr.
  - rewrite (keeps_count_eq _ _ _ _ _
               (count_v3_repair E _ good_print good_chat log) H).
    now apply (v3_build_failed _ _ _ Hb).
  - inversion H; subst. now apply (v3_build_failed _ _ _ Hb).
  - inversion H; subst. now apply (v3_build_failed _ _ _ Hb).
  - inversion H; subst. now apply (v3_build_failed _ _ _ Hb).
Qed.

Lemma v3_attempt_failed (attempt : nat) (w w' : World) (r : outcome unit) :
  V3.attempt_body E attempt w = (r, w') -> r <> SysExit 0 ->
  counting (Obs.is_run_with Obs.BUILD true) w'
  = counting (Obs.is_run_with Obs.BUILD true) w.
Proof.
  unfold V3.attempt_body. unfold bind at 1. cbn [print emit].
  set (w0 := MkWorld _ _ _).
  assert (H0 : counting (Obs.is_run_with Obs.BUILD true) w0
               = counting (Obs.is_run_with Obs.BUILD true) w).
  { unfold counting, w0. simpl. rewrite count_app. unfold Obs.count at 2.
    simpl. lia. }
  unfold bind.
  destruct (V3.build_project E w0) as [[[|]|e|c] w1] eqn:Hb; intros H Hr;
    inversion H; subst; try (now destruct Hr);
    rewrite <- H0; now apply (v3_build_project_failed _ _ _ Hb).
Qed.

Lemma for_each_failed {A} (f : event -> bool) (l : list A)
    (body : A -> M unit) (w w' : World) (r : outcome unit) :
  (forall x w w' r, body x w = (r, w') -> r <> SysExit 0 ->
                    counting f w' = counting f w) ->
  for_each l body w = (r, w') -> r <> SysExit 0 ->
  counting f w' = counting f w.
Proof.
  intros Hbody. revert w. induction l as [|x l IH]; intros w H Hr;
    cbn [for_each] in H.
  - now inversion H.
  - unfold bind in H.
    destruct (body x w) as [[[]|e|c] w1] eqn:Hx.
    + rewrite (IH _ H Hr). now apply (Hbody _ _ _ _ Hx).
    + inversion H; subst. now apply (Hbody _ _ _ _ Hx).
    + inversion H; subst. now apply (Hbody _ _ _ _ Hx).
Qed.

Lemma v1_build_project_failed (w w' : World) (r : outcome bool) :
  V1.build_project E w = (r, w') -> r <> Ret true ->
  counting (Obs.is_run_with Obs.BUILD true) w'
  = counting (Obs.is_run_with Obs.BUILD true) w.
Proof.
  intros H Hr. revert H. unfold V1.build_project.
  apply keeps_then;
    [apply (count_v1_configure E _ good_print good_configure)|].
  intros [[[|] config_log]|] w1;
    [|intros H; eapply keeps_count_eq; [|exact H]; keeps..].
  intros H. unfold bind at 1 in H. unfold V1.build, V1.run_command in H.
  unfold bind at 1 in H. cbn [print emit] in H.
  set (w0 := MkWorld _ _ _) in H.
  assert (H0 : counting (Obs.is_run_with Obs.BUILD true) w0
               = counting (Obs.is_run_with Obs.BUILD true) w1).
  { unfold counting, w0. simpl. rewrite count_app. unfold Obs.count at 2.
    simpl. lia. }
  rewrite <- H0.
  destruct (Common.run_command E _ w0) as [[[[|] out]|e|c] w3] eqn:Hrun.
  - unfold bind in H. cbn [print emit ret] in H. inversion H; subst.
    now destruct Hr.
  - rewrite (keeps_count_eq _ _ _ _ _
               (count_v1_repair E _ good_print good_chat out) H).
    now apply (build_command_failed _ _ _ Hrun).
  - inversion H; subst. now apply (build_command_failed _ _ _ Hrun).
  - inversion H; subst. now apply (build_command_failed _ _ _ Hrun).
Qed.

Lemma v1_main_loop_failed (remaining attempt : nat) (w w' : World)
    (r : outcome unit) :
  V1.main_loop E remaining attempt w = (r, w') -> r <> SysExit 0 ->
  counting (Obs.is_run_with Obs.BUILD true) w'
  = counting (Obs.is_run_with Obs.BUILD true) w.
Proof.
  revert attempt w. induction remaining as [|n IH]; intros attempt w H Hr;
    cbn [V1.main_loop] in H.
  - now inversion H.
  - unfold bind at 1 in H. cbn [print emit] in H.
    set (w0 := MkWorld _ _ _) in H.
    assert (H0 : counting (Obs.is_run_with Obs.BUILD true) w0
                 = counting (Obs.is_run_with Obs.BUILD true) w).
    { unfold counting, w0. simpl. rewrite count_app. unfold Obs.count at 2.
      simpl. lia. }
    unfold bind at 1 in H.
    destruct (V1.build_project E w0) as [[[|]|e|c] w1] eqn:Hb.
    + unfold bind in H. cbn [print emit sys_exit] in H.
      inversion H; subst. now destruct Hr.
    + rewrite (IH _ _ H Hr), <- H0.
      now apply (v1_build_project_failed _ _ _ Hb).
    + inversion H; subst. rewrite <- H0.
      now apply (v1_build_project_failed _ _ _ Hb).
    + inversion H; subst. rewrite <- H0.
      now apply (v1_build_project_failed _ _ _ Hb).
Qed.

End Verdict.

(** X16. In [builder_v3.py] and [builder.py] the completion signal tells
    whether a build succeeded. Started in a history without a successful
    build, the process ends either with signal 0, and then a build
    command has ended with success, or with signal 1, and then none has:
    a session that ran out of attempts, or that an exception ended, never
    reports success, and a session in which a build succeeded never
    reports failure. *)
Theorem exit_zero_iff_build_succeeded (E : Env) (w : World) :
  ~ succeeded w ->
  forall signal w',
    Obs.run_process (V3.main E) w = (signal, w')
    \/ Obs.run_process (V1.main E) w = (signal, w') ->
    (signal = 0 /\ succeeded w') \/ (signal = 1 /\ ~ succeeded w').
Proof.
  intros Hfresh signal w'.
  assert (Hkeep : forall w',
            counting (Obs.is_run_with Obs.BUILD true) w'
            = counting (Obs.is_run_with Obs.BUILD true) w ->
            ~ succeeded w').
  { intros w0 Heq. unfold succeeded in *. unfold counting in Heq.
    now rewrite Heq. }
  intros [Hrun|Hrun]; revert Hrun.
  - unfold Obs.run_process, V3.main. unfold bind at 1.
    destruct (for_each _ _ w) as [[[]|e|c] w1] eqn:Hloop.
    + cbv [bind print emit sys_exit]. cbn [exit_status].
      intros Hrun. inversion Hrun; subst. right.
      split; [reflexivity|]. apply Hkeep.
      rewrite <- (for_each_failed _ _ _ _ _ _ (v3_attempt_failed E) Hloop)
        by discriminate.
      unfold counting. simpl. rewrite count_app. unfold Obs.count at 2.
      simpl. lia.
    + intros Hrun. inversion Hrun; subst. right.
      split; [reflexivity|]. apply Hkeep.
      now apply (for_each_failed _ _ _ _ _ _ (v3_attempt_failed E) Hloop).
    + intros Hrun. inversion Hrun; subst. left.
      apply for_each_exit_inv in Hloop as (x & w0 & _ & Hx).
      now apply v3_attempt_exit in Hx.
  - unfold Obs.run_process, V1.main. unfold bind at 1.
    destruct (V1.main_loop E _ _ w) as [[[]|e|c] w1] eqn:Hloop.
    + cbv [bind print emit sys_exit]. cbn [exit_status].
      intros Hrun. inversion Hrun; subst. right.
      split; [reflexivity|]. apply Hkeep.
      rewrite <- (v1_main_loop_failed E _ _ _ _ _ Hloop) by discriminate.
      unfold counting. simpl. rewrite count_app. unfold Obs.count at 2.
      simpl. lia.
    + intros Hrun. inversion Hrun; subst. right.
      split; [reflexivity|]. apply Hkeep.
      now apply (v1_main_loop_failed E _ _ _ _ _ Hloop).
    + intros Hrun. inversion Hrun; subst. left.
      now apply v1_main_loop_exit in Hloop.
Qed.

Lemma exit_zero_iff_build_succeeded_witness :
  ~ succeeded Scenario.project
  /\ ~ succeeded
        (snd (Obs.run_process (V3.main Scenario.stuck) Scenario.project)).
Proof.
  assert (Hfresh : ~ succeeded Scenario.project).
  { unfold succeeded. vm_compute. lia. }
  split; [exact Hfresh|].
  destruct (Obs.run_process (V3.main Scenario.stuck) Scenario.project)
    as [signal w'] eqn:Hrun.
  destruct (exit_zero_iff_build_succeeded Scenario.stuck Scenario.project
              Hfresh signal w' (or_introl Hrun)) as [[H0 _]|[_ H1]].
  - vm_compute in Hrun. inversion Hrun; subst. discriminate.
  - exact H1.
Defined.

(** ** What the model is told *)

Section Prompts.

Lemma contains_skip (needle a b : string) :
  Str.contains needle b = true -> Str.contains needle (a ++ b) = true.
Proof.
  intros H. induction a as [|x a IH]; [exact H|].
  rewrite append_cons. simpl. rewrite IH.
  now destruct (Str.startswith (String x (a ++ b)) needle).
Qed.

Lemma contains_head (needle b : string) :
  Str.contains needle (needle ++ b) = true.
Proof. apply (contains_app needle "" b). Qed.

Lemma contains_inside (needle a b c : string) :
  Str.contains needle ((a ++ needle ++ b) ++ c) = true.
Proof. rewrite !append_assoc. apply contains_app. Qed.

(** A text built by appending one block per entry holds the block of
    each entry, and what it began with. *)
Lemma blocks_hold {X} (step : string -> X -> string) (block : X -> string)
    (l : list X) (acc : string) :
  (forall acc x, step acc x = acc ++ block x) ->
  (forall a n b, acc = a ++ n ++ b ->
     exists b', fold_left step l acc = a ++ n ++ b')
  /\ (forall x, In x l ->
        exists a b, fold_left step l acc = a ++ block x ++ b).
Proof.
  intros Hstep. revert acc.
  induction l as [|y l IH]; intros acc; cbn [fold_left].
  - split; [|intros x []]. intros a n b ->. now exists b.
  - rewrite Hstep. destruct (IH (acc ++ block y)) as [IH1 IH2]. split.
    + intros a n b ->. apply (IH1 a n (b ++ block y)).
      now rewrite !append_assoc.
    + intros x [->|Hin]; [|now apply IH2].
      destruct (IH1 acc (block x) "") as [b' Hb'].
      * now rewrite append_nil_r.
      * now exists acc, b'.
Qed.

Lemma v4_context_holds (context_files : Dict.t) (fpath content : string) :
  In (fpath, content) context_files ->
  exists a b,
    V4.context_str context_files
    = a ++ ("--- FILE: " ++ fpath ++ " ---" ++ Str.nl ++ content
              ++ Str.nl ++ Str.nl) ++ b.
Proof.
  intros Hin. unfold V4.context_str.
  apply (proj2 (blocks_hold
                  (fun acc '(fpath, content) =>
                     acc ++ "--- FILE: " ++ fpath ++ " ---" ++ Str.nl
                       ++ content ++ Str.nl ++ Str.nl)
                  (fun '(fpath, content) =>
                     "--- FILE: " ++ fpath ++ " ---" ++ Str.nl ++ content
                       ++ Str.nl ++ Str.nl)
                  context_files "" ltac:(now intros acc [p c]))
           (fpath, content) Hin).
Qed.

Lemma v3_context_holds (source_path source_code : string)
    (headers : Dict.t) :
  (exists b,
     V3.context_str source_path source_code headers
     = "" ++ ("--- MAIN SOURCE FILE: " ++ source_path ++ " ---" ++ Str.nl
                ++ source_code ++ Str.nl ++ Str.nl) ++ b)
  /\ (forall path content, In (path, content) headers ->
        exists a b,
          V3.context_str source_path source_code headers
          = a ++ ("--- LINKED HEADER: " ++ path ++ " ---" ++ Str.nl
                    ++ content ++ Str.nl ++ Str.nl) ++ b).
Proof.
  unfold V3.context_str.
  destruct (blocks_hold
              (fun acc '(path, content) =>
                 acc ++ "--- LINKED HEADER: " ++ path ++ " ---" ++ Str.nl
                   ++ content ++ Str.nl ++ Str.nl)
              (fun '(path, content) =>
                 "--- LINKED HEADER: " ++ path ++ " ---" ++ Str.nl
                   ++ content ++ Str.nl ++ Str.nl)
              headers
              ("--- MAIN SOURCE FILE: " ++ source_path ++ " ---" ++ Str.nl
                 ++ source_code ++ Str.nl ++ Str.nl)
              ltac:(now intros acc [p c])) as [H1 H2].
  split.
  - apply (H1 "" _ ""). rewrite append_nil_r. reflexivity.
  - intros path content Hin. apply (H2 (path, content) Hin).
Qed.

End Prompts.

(** X17. The request sent to the model holds the whole log of the failed
    build and the whole text of every file that was gathered, each under
    a header line that names it: in [builder_v4.py] every entry of the
    bundle, in [builder_v3.py] the culprit and every header, in
    [builder.py] the culprit and its path. The request is the one event
    the call adds after the line it prints. *)
Theorem request_holds_log_and_files (E : Env) (error_log : string)
    (w : World) :
  (forall (context_files : Dict.t) (t : V4.error_type),
     exists prompt,
       V4.get_ai_fix E context_files error_log t w
       = (Ret (ollama_chat E prompt
                 (say w ["🤖 Agent is thinking (Mode: " ++ V4.mode t
                           ++ ")..."])),
          MkWorld (files w) (dirs w)
            (trace w ++ [Print ("🤖 Agent is thinking (Mode: " ++ V4.mode t
                                  ++ ")...");
                         Chat prompt]))
       /\ Str.contains error_log prompt = true
       /\ forall fpath content, In (fpath, content) context_files ->
            Str.contains
              ("--- FILE: " ++ fpath ++ " ---" ++ Str.nl ++ content
                 ++ Str.nl ++ Str.nl) prompt = true)
  /\ (forall (source_path source_code : string) (headers : Dict.t),
        exists prompt,
          snd (V3.get_ai_fix E source_path source_code headers error_log w)
          = MkWorld (files w) (dirs w)
              (trace w
                 ++ [Print ("🤖 Analyzing " ++ source_path ++ " and "
                              ++ pretty (length headers)
                              ++ " related headers...");
                     Chat prompt])
          /\ Str.contains error_log prompt = true
          /\ Str.contains
               ("--- MAIN SOURCE FILE: " ++ source_path ++ " ---" ++ Str.nl
                  ++ source_code ++ Str.nl ++ Str.nl) prompt = true
          /\ forall path content, In (path, content) headers ->
               Str.contains
                 ("--- LINKED HEADER: " ++ path ++ " ---" ++ Str.nl
                    ++ content ++ Str.nl ++ Str.nl) prompt = true)
  /\ (forall (code_content file_path : string),
        exists prompt,
          snd (V1.get_ai_fix E code_content error_log file_path w)
          = MkWorld (files w) (dirs w)
              (trace w
                 ++ [Print ("🤖 Agent is analyzing " ++ file_path ++ "...");
                     Chat prompt])
          /\ Str.contains error_log prompt = true
          /\ Str.contains code_content prompt = true
          /\ Str.contains file_path prompt = true).
Proof.
  split; [|split].
  - intros context_files t. eexists. split; [|split].
    + unfold V4.get_ai_fix. cbv [bind print emit Common.chat say].
      cbn [files dirs trace map]. rewrite <- List.app_assoc. reflexivity.
    + do 3 apply contains_skip. apply contains_head.
    + intros fpath content Hin.
      destruct (v4_context_holds _ _ _ Hin) as (a & b & ->).
      do 5 apply contains_skip. apply contains_inside.
  - intros source_path source_code headers. eexists. split; [|split; [|split]].
    + unfold V3.get_ai_fix. cbv [bind print emit Common.chat].
      cbn [files dirs trace snd]. rewrite <- List.app_assoc. reflexivity.
    + do 3 apply contains_skip. apply contains_head.
    + destruct (proj1 (v3_context_holds source_path source_code headers))
        as (b & ->).
      apply contains_skip. apply contains_inside.
    + intros path content Hin.
      destruct (proj2 (v3_context_holds source_path source_code headers)
                  _ _ Hin) as (a & b & ->).
      apply contains_skip. apply contains_inside.
  - intros code_content file_path. eexists. split; [|split; [|split]].
    + unfold V1.get_ai_fix. cbv [bind print emit Common.chat].
      cbn [files dirs trace snd]. rewrite <- List.app_assoc. reflexivity.
    + do 5 apply contains_skip. apply contains_head.
    + do 3 apply contains_skip. apply contains_head.
    + apply contains_skip. apply contains_head.
Qed.

Lemma request_holds_log_and_files_witness :
  exists prompt,
    Str.contains Scenario.compile_log prompt = true
    /\ Str.contains
         ("--- FILE: " ++ "main.cpp" ++ " ---" ++ Str.nl ++ "int main(){"
            ++ Str.nl ++ Str.nl) prompt = true.
Proof.
  destruct (proj1 (request_holds_log_and_files Scenario.stuck
                     Scenario.compile_log Scenario.project)
              [("main.cpp", "int main(){")] V4.compile)
    as (prompt & _ & Hlog & Hfiles).
  exists prompt. split; [exact Hlog|]. apply Hfiles. now left.
Defined.

(** ** A successful build in [builder_v4.py] *)

Section VerdictV4.
Variable E : Env.

Lemma v4_build_project_failed (w w' : World)
    (r : outcome (bool * option string)) :
  V4.build_project E w = (r, w') -> r <> Ret (true, None) ->
  counting (Obs.is_run_with Obs.BUILD true) w'
  = counting (Obs.is_run_with Obs.BUILD true) w.
Proof.
  pose proof (count_configure_command E _ good_print good_configure) as Hc.
  intros H Hr. revert H. unfold V4.build_project, V4.run_command.
  apply keeps_then; [keeps|]. intros there w1.
  apply keeps_then; [keeps|]. intros _ w2.
  apply keeps_then; [exact Hc|]. intros _ w3.
  unfold bind.
  destruct (Common.run_command E _ w3) as [[[[|] out]|e|c] w4] eqn:Hrun;
    cbn [print emit ret]; intros H; inversion H; subst.
  - now destruct Hr.
  - rewrite <- (build_command_failed E _ _ _ Hrun) by discriminate.
    unfold counting. simpl. rewrite count_app. unfold Obs.count at 2.
    simpl. lia.
  - now apply (build_command_failed E _ _ _ Hrun).
  - now apply (build_command_failed E _ _ _ Hrun).
Qed.

Lemma v4_attempt_failed (attempt : nat) (w w' : World) (r : outcome unit) :
  V4.attempt_body E attempt w = (r, w') -> r <> SysExit 0 ->
  counting (Obs.is_run_with Obs.BUILD true) w'
  = counting (Obs.is_run_with Obs.BUILD true) w.
Proof.
  unfold V4.attempt_body. unfold bind at 1. cbn [print emit].
  set (w0 := MkWorld _ _ _).
  assert (H0 : counting (Obs.is_run_with Obs.BUILD true) w0
               = counting (Obs.is_run_with Obs.BUILD true) w).
  { unfold counting, w0. simpl. rewrite count_app. unfold Obs.count at 2.
    simpl. lia. }
  unfold bind at 1.
  destruct (V4.build_project E w0) as [[[[|] log]|e|c] w1] eqn:Hb;
    intros H Hr.
  - inversion H; subst. now destruct Hr.
  - rewrite <- H0.
    rewrite <- (v4_build_project_failed _ _ _ Hb) by discriminate.
    eapply keeps_count_eq; [|exact H].
    apply keeps_bind;
      [apply (count_v4_analyze_and_fix E _ good_print good_chat)|].
    intros fix_response. destruct (V4.truthy fix_response); [|keeps].
    apply keeps_bind; [apply (count_apply_fixes _ good_print)|].
    intros _. keeps.
  - inversion H; subst. rewrite <- H0.
    now apply (v4_build_project_failed _ _ _ Hb).
  - inversion H; subst. rewrite <- H0.
    now apply (v4_build_project_failed _ _ _ Hb).
Qed.

End VerdictV4.

(** X18. In [builder_v4.py] a build that succeeds is always reported: when
    a build command has ended with success in a session that began
    without one, the process ends with signal 0. A session that ends with
    another signal, after an exception or after [sys.exit(1)], has seen
    no successful build. *)
Theorem v4_successful_build_exits_zero
    (E : Env) (w w' : World) (signal : nat) :
  ~ succeeded w ->
  Obs.run_process (V4.main E) w = (signal, w') ->
  succeeded w' -> signal = 0.
Proof.
  intros Hfresh. unfold Obs.run_process, V4.main.
  destruct (for_each _ _ w) as [r w1] eqn:Hloop.
  intros Hrun Hgood. inversion Hrun; subst.
  destruct (Nat.eq_dec (exit_status r) 0) as [Hz|Hnz]; [exact Hz|].
  exfalso. apply Hfresh.
  assert (Heq : counting (Obs.is_run_with Obs.BUILD true) w'
                = counting (Obs.is_run_with Obs.BUILD true) w).
  { apply (for_each_failed _ _ _ _ _ _ (v4_attempt_failed E) Hloop).
    intros ->. now apply Hnz. }
  unfold succeeded in *. unfold counting in Heq. now rewrite <- Heq.
Qed.

Lemma v4_successful_build_exits_zero_witness :
  let fixed := Scenario.env (true, "") (true, "") Scenario.patch in
  fst (Obs.run_process (V4.main fixed) Scenario.project) = 0.
Proof.
  intros fixed.
  destruct (Obs.run_process (V4.main fixed) Scenario.project)
    as [signal w'] eqn:Hrun.
  apply (v4_successful_build_exits_zero fixed Scenario.project w' signal).
  - unfold succeeded. vm_compute. lia.
  - exact Hrun.
  - vm_compute in Hrun. inversion Hrun; subst. unfold succeeded.
    vm_compute. lia.
Defined.

(** ** An include directive that names a directory *)

Section Directories.

Lemma fold_each_raise_at {A S} (l1 l2 : list A) (x : A) (acc acc1 : S)
    (body : S -> A -> M S) (w w1 w2 : World) (e : exn) :
  fold_each l1 acc body w = (Ret acc1, w1) ->
  body acc1 x w1 = (Raise e, w2) ->
  fold_each (l1 ++ x :: l2) acc body w = (Raise e, w2).
Proof.
  revert acc w. induction l1 as [|y l1 IH]; intros acc w H Hx.
  - inversion H; subst. cbn [app fold_each]. now apply bind_raise.
  - cbn [fold_each] in H. apply bind_inv in H as (a & w0 & Hy & H).
    change ((y :: l1) ++ x :: l2)%list with (y :: (l1 ++ x :: l2))%list.
    cbn [fold_each]. rewrite (bind_ret _ _ _ _ _ Hy). now apply IH.
Qed.

(** Looking at a target that is a directory: [os.path.exists] holds and
    [open] raises. *)
Lemma enter_directory (p : string) (acc : Dict.t) (w : World) :
  p ∈ dirs w -> files w !! p = None ->
  (there <- Fs.exists_ p ;;
   if there : bool then
     text <- Fs.read p ;; ret (Dict.set p text acc)
   else ret acc) w
  = (Raise (IsADirectoryError p), w).
Proof.
  intros Hdir Hnone. unfold bind, Fs.exists_, Fs.read.
  rewrite (bool_decide_eq_true_2 _ Hdir), orb_true_r, Hnone.
  now rewrite (bool_decide_eq_true_2 _ Hdir).
Qed.

End Directories.

(** X19. [os.path.exists] holds for a directory, so an include directive
    that resolves to a directory passes the test and the [open] that
    follows raises [IsADirectoryError]. Nothing catches it: in
    [builder_v4.py] the gathering of the bundle ends with the exception at
    the first such line, in [builder_v3.py] [get_related_headers] does at
    the first such directive, and no request is sent to the model. *)
Theorem include_of_directory_raises (w : World) (p : string) :
  p ∈ dirs w -> files w !! p = None ->
  (forall (broken_file text line : string) (before after : list string),
     files w !! broken_file = Some text ->
     Str.splitlines text = (before ++ line :: after)%list ->
     (forall q,
        In q (flat_map (v4_line_targets (Path.dirname broken_file)) before) ->
        q ∉ dirs w) ->
     v4_line_targets (Path.dirname broken_file) line = [p] ->
     V4.gather_compile broken_file w = (Raise (IsADirectoryError p), w))
  /\ (forall (source_code source_dir name : string)
        (before after : list string),
        Re.findall Patterns.INCLUDE_PATTERN source_code
        = (before ++ name :: after)%list ->
        (forall q,
           In q (map (fun h => Path.normpath (Path.join source_dir h))
                   before) ->
           q ∉ dirs w) ->
        Path.normpath (Path.join source_dir name) = p ->
        V3.get_related_headers source_code source_dir w
        = (Raise (IsADirectoryError p), w)).
Proof.
  intros Hdir Hnone. split.
  - intros broken_file text line before after Htext Hlines Hsafe Hline.
    unfold V4.gather_compile.
    assert (Hread : Fs.read broken_file w = (Ret text, w)).
    { unfold Fs.read. now rewrite Htext. }
    rewrite (bind_ret _ _ _ _ _ Hread), Hlines.
    eapply fold_each_raise_at.
    + now apply v4_headers_collected.
    + unfold V4.add_header. unfold v4_line_targets in Hline.
      destruct (Str.contains ("#include " ++ Str.dquote) line) eqn:Hinc;
        [|discriminate].
      inversion Hline as [Hp]. unfold index.
      rewrite (second_field _ _ _ Hinc). unfold indexed.
      unfold bind at 1. unfold ret at 1. rewrite Hp.
      now apply enter_directory.
  - intros source_code source_dir name before after Hall Hsafe Hname.
    unfold V3.get_related_headers. rewrite Hall.
    eapply fold_each_raise_at.
    + now apply v3_headers_collected.
    + unfold V3.add_header. rewrite Hname. now apply enter_directory.
Qed.

Lemma include_of_directory_raises_witness :
  let w := MkWorld {[ "main.cpp" := Scenario.include "inc" ]} {[ "inc" ]} [] in
  V4.gather_compile "main.cpp" w = (Raise (IsADirectoryError "inc"), w).
Proof.
  intros w.
  apply (proj1 (include_of_directory_raises w "inc"
                  ltac:(vm_compute; set_solver) eq_refl)
           "main.cpp" (Scenario.include "inc") (Scenario.include "inc")
           [] []).
  - reflexivity.
  - reflexivity.
  - intros q [].
  - reflexivity.
Defined.

(** ** What a patch can reach *)

Section Reach.






End Reach.



(** ** The backup of [builder.py] *)

Section BackupV1.
Variable E : Env.



End BackupV1.



(** ** The culprit path of [builder.py] *)

(** X22. [find_culprit_file] of [builder.py] reads a diagnostic at the head
    of the log like that of [builder_v3.py], except for the path: an
    absolute path is replaced by what [os.path.relpath] makes of it, a
    relative path is kept as it is. *)
Theorem culprit_path_is_made_relative
    (E : Env) (path line col msg rest : string) (fatal : bool) :
  path <> "" -> all_in (Chr.isnot [Chr.COLON; Chr.LF]) path = true ->
  line <> "" -> all_in Chr.isdigit line = true ->
  col <> "" -> all_in Chr.isdigit col = true ->
  msg <> "" -> all_in (Chr.isnot [Chr.LF]) msg = true ->
  stops Chr.isspace msg = true -> Re.at_eol rest = true ->
  let log := path ++ ":" ++ line ++ ":" ++ col ++ ": "
               ++ (if fatal then "fatal " else "") ++ "error: " ++ msg
               ++ rest in
  V1.find_culprit_file E log
  = Some (if Str.startswith path "/" then os_path_relpath E path else path,
          line, msg).
Proof.
  intros Hp Hpath Hl Hline Hc Hcol Hm Hmsg Hstop Heol log.
  pose proof (run_compile_pattern path line col msg rest fatal
                Hp Hpath Hl Hline Hc Hcol Hm Hmsg Hstop Heol) as Hrun.
  apply search_at_start in Hrun. fold log in Hrun.
  unfold V1.find_culprit_file, Patterns.ERROR_PATTERN.
  rewrite Hrun. reflexivity.
Qed.

Lemma culprit_path_is_made_relative_witness :
  V1.find_culprit_file Scenario.stuck
    ("src/io.cpp" ++ ":" ++ "42" ++ ":" ++ "7" ++ ": " ++ ""
       ++ "error: " ++ "expected ';'" ++ "")
  = Some ("src/io.cpp", "42", "expected ';'").
Proof.
  apply (culprit_path_is_made_relative Scenario.stuck "src/io.cpp" "42" "7"
           "expected ';'" "" false);
    (discriminate || reflexivity).
Defined.

(** ** A build tool that cannot be launched *)

Section NoTool.
Variable E : Env.
Hypothesis Htool : forall argv w, subprocess_run E argv w = None.

Lemma run_command_missing (command : list string) (w : World) :
  Common.run_command E command w
  = (Raise (FileNotFoundError (hd "" command)),
     say w ["⚙️  Running: " ++ String.concat " " command]).
Proof.
  unfold Common.run_command, bind. cbn [print emit]. now rewrite Htool.
Qed.

End NoTool.

(** X23. When the build tool cannot be launched, [subprocess.run] raises
    [FileNotFoundError] and nothing catches it: the session ends in its
    first attempt, at the configure command, with signal 1; no file has
    changed and the model has not been consulted. In [builder_v3.py] and
    [builder.py] this is so when [CMakeLists.txt] exists; without it no
    command is run at all. *)
Theorem missing_build_tool_ends_session (E : Env) (w : World) :
  (forall argv w, subprocess_run E argv w = None) ->
  let running := "⚙️  Running: " ++ String.concat " " Obs.CONFIGURE in
  (forall signal w',
     Obs.run_process (V4.main E) w = (signal, w') ->
     signal = 1 /\ files w' = files w
     /\ trace w' = (trace w ++ [Print (V4.banner 1); Print running])%list)
  /\ (is_file w "CMakeLists.txt" = true ->
      (forall signal w',
         Obs.run_process (V3.main E) w = (signal, w') ->
         signal = 1 /\ files w' = files w
         /\ trace w' = (trace w ++ [Print (V3.banner 1);
                                    Print "configure..."; Print running])%list)
      /\ (forall signal w',
            Obs.run_process (V1.main E) w = (signal, w') ->
            signal = 1 /\ files w' = files w
            /\ trace w' = (trace w ++ [Print (V1.banner 1);
                                       Print "configure...";
                                       Print running])%list)).
Proof.
  intros Htool running. split.
  - intros signal w'. unfold Obs.run_process, V4.main.
    change (seq 1 V4.MAX_ATTEMPTS) with (1 :: seq 2 4).
    cbn [for_each]. unfold V4.attempt_body at 1, V4.build_project,
      V4.run_command.
    cbv [bind print emit Fs.exists_ Fs.makedirs ret].
    cbn [files dirs trace].
    destruct (bool_decide _ || bool_decide _); cbn [negb];
      cbn [files dirs trace];
      rewrite (run_command_missing E Htool); unfold say;
      cbn [exit_status files dirs trace map];
      rewrite <- ?List.app_assoc; intros H; inversion H; subst;
      repeat split.
  - intros Hcmake. unfold is_file in Hcmake.
    apply bool_decide_eq_true_1 in Hcmake.
    split; intros signal w'.
    + unfold Obs.run_process, V3.main.
      change (seq 1 V3.MAX_ATTEMPTS) with (1 :: seq 2 4).
      cbn [for_each]. unfold V3.attempt_body at 1, V3.build_project,
        V3.build, V3.run_command.
      cbv [bind print emit Fs.exists_ Fs.makedirs ret].
      cbn [files dirs trace].
      rewrite (bool_decide_eq_true_2 _ Hcmake). cbn [orb negb].
      destruct (bool_decide _ || bool_decide _); cbn [negb];
        cbn [files dirs trace];
        rewrite (run_command_missing E Htool); unfold say;
        cbn [exit_status files dirs trace map];
        rewrite <- ?List.app_assoc; intros H; inversion H; subst;
        repeat split.
    + unfold Obs.run_process, V1.main.
      change (V1.MAX_ATTEMPTS + 1 - 1) with 3.
      cbn [V1.main_loop]. unfold V1.build_project, V1.configure,
        V1.run_command.
      cbv [bind print emit Fs.exists_ Fs.makedirs ret].
      cbn [files dirs trace].
      rewrite (bool_decide_eq_true_2 _ Hcmake). cbn [orb negb].
      destruct (bool_decide _ || bool_decide _); cbn [negb];
        cbn [files dirs trace];
        rewrite (run_command_missing E Htool); unfold say;
        cbn [exit_status files dirs trace map];
        rewrite <- ?List.app_assoc; intros H; inversion H; subst;
        repeat split.
Qed.

Lemma missing_build_tool_ends_session_witness :
  let bare := MkEnv (fun _ _ => None) (fun _ _ => "") (fun _ _ => [])
                (fun p => p) in
  fst (Obs.run_process (V4.main bare) Scenario.project) = 1.
Proof.
  intros bare.
  destruct (Obs.run_process (V4.main bare) Scenario.project)
    as [signal w'] eqn:Hrun.
  exact (proj1 (proj1 (missing_build_tool_ends_session bare Scenario.project
                         (fun _ _ => eq_refl)) signal w' Hrun)).
Defined.

(** ** An answer without a marker *)

(** X24. An answer that does not hold the text [FILE:] holds no marker.
    [apply_fixes] of [builder_v4.py] returns [False] without a word and
    without touching the world; [parse_and_apply_fixes] of
    [builder_v3.py] prints that the format is not valid and returns
    [False]. Neither raises, whatever else the answer holds, fenced code
    included. *)
Theorem answer_without_marker_text_is_ignored
    (ai_response : string) (w : World) :
  Str.contains "FILE:" ai_response = false ->
  V4.apply_fixes ai_response w = (Ret false, w)
  /\ V3.parse_and_apply_fixes ai_response w
     = (Ret false, say w ["⚠️  AI did not return valid file format."]).
Proof.
  intros Hnone.
  assert (Hparts : Re.split Patterns.FILE_MARKER ai_response = [ai_response]).
  { apply no_marker_one_part. unfold Re.finditer.
    destruct (String.length ai_response); [reflexivity|].
    cbn [Re.finditer_go]. now rewrite search_no_marker. }
  split.
  - unfold V4.apply_fixes. now rewrite Hparts.
  - unfold V3.parse_and_apply_fixes. now rewrite Hparts.
Qed.

Lemma answer_without_marker_text_is_ignored_witness :
  V4.apply_fixes ("```cpp" ++ Str.nl ++ "int main(){}" ++ Str.nl ++ "```")
    Scenario.project
  = (Ret false, Scenario.project).
Proof.
  apply (answer_without_marker_text_is_ignored
           ("```cpp" ++ Str.nl ++ "int main(){}" ++ Str.nl ++ "```")
           Scenario.project).
  reflexivity.
Defined.
